(** * nbviewer's GitLab provider: client, handlers, routes and URL rewrite rules

    A shallow embedding of [nbviewer/providers/gitlab/client.py] and
    [nbviewer/providers/gitlab/handlers.py].

    Python values are an inductive type with dictionaries as finite maps,
    exceptions are the [Raise] side of a result type, and an outgoing HTTP
    request is the value handed to the underlying HTTP client.  Strings are
    byte strings holding UTF-8. *)

From Stdlib Require Import String Ascii List ZArith Bool Lia.
From stdpp Require Import gmap strings list fin_maps pretty.

(** ** Python values and exceptions *)

(** the values the code handles: what [json.loads] returns (numbers are
    integers here), and the callables passed as callbacks; [PTreeEntryCb] is
    the closure [cb] that [get_tree_entry] builds *)
#[warnings="-register-all"] Inductive pyobj :=
| PNone
| PBool (b : bool)
| PInt (z : Z)
| PStr (s : string)
| PList (l : list pyobj)
| PDict (d : gmap string pyobj)
| PCallable (name : string)
| PTreeEntryCb (path : string) (callback : pyobj).

Inductive exn :=
| TypeError (msg : string)
| KeyError (key : string)
| AttributeError (msg : string)
| ValueError (msg : string)
| UnboundLocalError (name : string)
| HTTPError (code : Z) (msg : string).

Inductive result (A : Type) :=
| Ok (a : A)
| Raise (e : exn).
Arguments Ok {A} a.
Arguments Raise {A} e.

#[global] Instance result_bind : MBind result := fun A B k r =>
  match r with
  | Ok a => k a
  | Raise e => Raise e
  end.

#[global] Instance result_ret : MRet result := fun A a => Ok a.

Definition is_ok {A} (r : result A) : bool :=
  match r with Ok _ => true | Raise _ => false end.

(** ** String primitives used by the code *)

(** [s.startswith(p)] *)
Definition startswith (p s : string) : bool := String.prefix p s.

(** [s.endswith(suf)] *)
Definition endswith (suf s : string) : bool :=
  (String.length suf <=? String.length s)%nat &&
  String.eqb
    (substring (String.length s - String.length suf) (String.length suf) s)
    suf.

(** [c in s] for a one-character needle *)
Fixpoint contains_char (c : ascii) (s : string) : bool :=
  match s with
  | EmptyString => false
  | String a s' => Ascii.eqb a c || contains_char c s'
  end.

(** [s.rstrip('/')] *)
Fixpoint rstrip_slash (s : string) : string :=
  match s with
  | EmptyString => EmptyString
  | String a s' =>
      match rstrip_slash s' with
      | EmptyString => if Ascii.eqb a "/" then EmptyString else String a EmptyString
      | r => String a r
      end
  end.

(** number of code points of a UTF-8 byte string: continuation bytes
    (10xxxxxx) do not start a character *)
Fixpoint code_points (s : string) : nat :=
  match s with
  | EmptyString => 0
  | String a s' =>
      let n := nat_of_ascii a in
      (if (128 <=? n)%nat && (n <? 192)%nat then 0 else 1) + code_points s'
  end.

(** ** Operations on Python values *)

(** [v == s] for a string [s]: only an equal string compares equal *)
Definition py_eq_str (v : pyobj) (s : string) : bool :=
  match v with
  | PStr t => String.eqb t s
  | _ => false
  end.

(** truth value of an object, as tested by [if v:] *)
Definition truthy (v : pyobj) : bool :=
  match v with
  | PNone => false
  | PBool b => b
  | PInt z => negb (Z.eqb z 0)
  | PStr s => negb (String.eqb s "")
  | PList l => match l with [] => false | _ => true end
  | PDict d => negb (bool_decide (dom d = ∅))
  | PCallable _ | PTreeEntryCb _ _ => true
  end.

(** [v[k]] for a string key [k] *)
Definition py_getitem (v : pyobj) (k : string) : result pyobj :=
  match v with
  | PDict d =>
      match d !! k with
      | Some x => Ok x
      | None => Raise (KeyError k)
      end
  | PList _ => Raise (TypeError "list indices must be integers or slices, not str")
  | PStr _ => Raise (TypeError "string indices must be integers")
  | _ => Raise (TypeError "object is not subscriptable")
  end.

(** [v[k] = x] for a string key [k]; the updated object is returned *)
Definition py_setitem (v : pyobj) (k : string) (x : pyobj) : result pyobj :=
  match v with
  | PDict d => Ok (PDict (<[k := x]> d))
  | PList _ => Raise (TypeError "list indices must be integers or slices, not str")
  | _ => Raise (TypeError "object does not support item assignment")
  end.

(** the items of a string, each a string of length one (one per byte) *)
Fixpoint chars_of (s : string) : list pyobj :=
  match s with
  | EmptyString => []
  | String a s' => PStr (String a EmptyString) :: chars_of s'
  end.

(** the items visited by [for x in v]; the keys of a dictionary come in
    the order of the finite map *)
Definition py_iter (v : pyobj) : result (list pyobj) :=
  match v with
  | PList l => Ok l
  | PDict d => Ok ((fun kv => PStr kv.1) <$> map_to_list d)
  | PStr s => Ok (chars_of s)
  | _ => Raise (TypeError "object is not iterable")
  end.

(** [len(v)] *)
Definition py_len (v : pyobj) : result nat :=
  match v with
  | PList l => Ok (length l)
  | PDict d => Ok (size d)
  | PStr s => Ok (code_points s)
  | _ => Raise (TypeError "object has no len()")
  end.

(** [v.endswith(suf)] *)
Definition py_endswith (v : pyobj) (suf : string) : result bool :=
  match v with
  | PStr s => Ok (endswith suf s)
  | _ => Raise (AttributeError "object has no attribute 'endswith'")
  end.

(** a number, [True] and [False] being 1 and 0 *)
Definition as_int (v : pyobj) : option Z :=
  match v with
  | PInt z => Some z
  | PBool b => Some (if b then 1 else 0)%Z
  | _ => None
  end.

(** [a + b] *)
Definition py_add (a b : pyobj) : result pyobj :=
  match a, b with
  | PList x, PList y => Ok (PList (x ++ y))
  | PStr x, PStr y => Ok (PStr (x +:+ y))
  | _, _ =>
      match as_int a, as_int b with
      | Some x, Some y => Ok (PInt (x + y))
      | _, _ => Raise (TypeError "unsupported operand type(s) for +")
      end
  end.

(** [d.setdefault(k, v)]: the dictionary afterwards *)
Definition setdefault (k : string) (v : pyobj) (d : gmap string pyobj)
  : gmap string pyobj :=
  match d !! k with
  | Some _ => d
  | None => <[k := v]> d
  end.

(** [v.update(d)]: the entries of [d] win over those of [v] *)
Definition py_update (v : pyobj) (d : gmap string pyobj) : result pyobj :=
  match v with
  | PDict m => Ok (PDict (d ∪ m))
  | _ => Raise (AttributeError "object has no attribute 'update'")
  end.

(** A call [f(a, b, **kw)] fails when [kw] names a parameter that a
    positional argument already fills. *)
Definition reject_keywords (names : list string) (kw : gmap string pyobj)
  : result unit :=
  if forallb (fun n => bool_decide (kw !! n = None)) names
  then Ok tt
  else Raise (TypeError "got multiple values for argument").

(** ** Collaborators outside the provider

    [tornado]'s response object, and the helpers of [nbviewer.utils] and of
    the Python library that the provider calls. *)

Record response := {
  resp_error : option exn;
  resp_body : string;
}.

(** [response.rethrow()] *)
Definition rethrow (r : response) : result unit :=
  match resp_error r with
  | Some e => Raise e
  | None => Ok tt
  end.

Class Utils := {
  (** [utils.quote] *)
  quote : string -> string;
  (** [utils.url_path_join], at two pieces *)
  url_path_join : string -> string -> string;
  (** [utils.response_text] *)
  response_text : response -> string;
  (** [json.loads] *)
  json_loads : string -> result pyobj;
  (** [str(v)], the way [str.format] renders a field that is not a string *)
  str_of : pyobj -> string;
  (** [f(x)] for a callable object [f] *)
  call_object : pyobj -> pyobj -> result pyobj;
}.

(** a [{field}] of [str.format] *)
Definition format_field `{Utils} (v : pyobj) : string :=
  match v with
  | PStr s => s
  | _ => str_of v
  end.

(** ** client.py: AsyncGitLabClient *)

Record client := {
  gitlab_url : string;
  gitlab_api_url : string;
  auth : gmap string pyobj;
}.

(** The request that reaches [self.client.fetch]: the target URL and the
    query parameters are the two arguments of [url_concat]. *)
Record request := {
  rq_target : string;
  rq_query : pyobj;
  rq_callback : pyobj;
  rq_options : gmap string pyobj;
}.

Definition query_param (r : request) (k : string) : option pyobj :=
  match rq_query r with
  | PDict d => d !! k
  | _ => None
  end.

(** the requests a call hands to the HTTP client *)
Definition sent (r : result request) : list request :=
  match r with
  | Ok q => [q]
  | Raise _ => []
  end.

(** the calls through which the client reaches the network *)
Inductive api_call :=
| Fetch (url : string) (callback params : pyobj) (kwargs : gmap string pyobj)
| ApiRequest (path : string) (callback : pyobj) (kwargs : gmap string pyobj)
| GetProjects (user : string) (callback : pyobj) (kwargs : gmap string pyobj)
| GetFile (user repo path : string) (callback ref : pyobj)
    (kwargs : gmap string pyobj)
| GetContents (user repo path : string) (callback ref : pyobj)
    (kwargs : gmap string pyobj)
| GetTree (user repo : string) (path ref callback : pyobj)
    (kwargs : gmap string pyobj)
| GetTreeEntry (user repo path : string) (ref callback : pyobj)
    (kwargs : gmap string pyobj).

Section Client.
Context `{Utils}.

(** [os.environ.get(k, '')] *)
Definition environ_get (environ : gmap string string) (k : string) : string :=
  default "" (environ !! k).

Definition authenticate (environ : gmap string string) : gmap string pyobj :=
  let auth : gmap string pyobj :=
    {[ "private_token" := PStr (environ_get environ "GITLAB_API_TOKEN") ]} in
  filter (fun kv => truthy kv.2 = true) auth.

(** [AsyncGitLabClient.__init__] *)
Definition new_client (environ : gmap string string) : client :=
  let url := environ_get environ "GITLAB_URL" in
  {| gitlab_url := url;
     gitlab_api_url := url_path_join url (quote "/api/v3");
     auth := authenticate environ |}.

(** [fetch(self, url, callback=None, params=None, **kwargs)]; the request is
    given by the two arguments of [url_concat], which is not run here: what
    it raises for parameters that it cannot encode is outside the model *)
Definition fetch (c : client) (url : string) (callback params : pyobj)
    (kwargs : gmap string pyobj) : result request :=
  if negb (startswith (gitlab_api_url c) url) then
    Raise (ValueError ("Only fetch GitHub urls with GitHub auth (" +:+ url +:+ ")"))
  else
    let params := match params with PNone => PDict ∅ | _ => params end in
    let kwargs := setdefault "user_agent" (PStr "Tornado-Async-GitLab-Client") kwargs in
    params ← (if truthy (PDict (auth c)) then py_update params (auth c)
              else Ok params);
    Ok {| rq_target := url; rq_query := params;
          rq_callback := callback; rq_options := kwargs |}.

(** the call [self.fetch(url, callback, **kwargs)] *)
Definition call_fetch (c : client) (url : string) (callback : pyobj)
    (kw : gmap string pyobj) : result request :=
  _ ← reject_keywords ["self"; "url"; "callback"] kw;
  fetch c url callback (default PNone (kw !! "params")) (delete "params" kw).

(** [gitlab_api_request(self, path, callback=None, **kwargs)] *)
Definition gitlab_api_request (c : client) (path : string) (callback : pyobj)
    (kwargs : gmap string pyobj) : result request :=
  let url := url_path_join (gitlab_api_url c) (quote path) in
  call_fetch c url callback kwargs.

(** the call [self.gitlab_api_request(path, callback, **kwargs)] *)
Definition call_gitlab_api_request (c : client) (path : string)
    (callback : pyobj) (kw : gmap string pyobj) : result request :=
  _ ← reject_keywords ["self"; "path"; "callback"] kw;
  gitlab_api_request c path callback kw.

(** [params = kwargs.setdefault('params', {})] *)
Definition params_of (kwargs : gmap string pyobj) : pyobj :=
  default (PDict ∅) (kwargs !! "params").

(** [get_projects(self, user, callback=None, **kwargs)] *)
Definition get_projects (c : client) (user : string) (callback : pyobj)
    (kwargs : gmap string pyobj) : result request :=
  let path := "projects" in
  params ← py_setitem (params_of kwargs) "sudo" (PStr user);
  let kwargs := <["params" := params]> kwargs in
  call_gitlab_api_request c path callback kwargs.

(** [get_file(self, user, repo, path, callback=None, ref=None, **kwargs)] *)
Definition get_file (c : client) (user repo path : string) (callback ref : pyobj)
    (kwargs : gmap string pyobj) : result request :=
  let api := "projects/" +:+ user +:+ "%2F" +:+ repo +:+ "/repository/files" in
  params ← py_setitem (params_of kwargs) "ref" ref;
  params ← py_setitem params "file_path" (PStr path);
  let kwargs := <["params" := params]> kwargs in
  let url := url_path_join (gitlab_api_url c) api in
  call_fetch c url callback kwargs.

(** [get_contents(self, user, repo, path, callback=None, ref=None, **kwargs)] *)
Definition get_contents (c : client) (user repo path : string)
    (callback ref : pyobj) (kwargs : gmap string pyobj) : result request :=
  let path := "repos/" +:+ user +:+ "/" +:+ repo +:+ "/contents/" +:+ path in
  kwargs ← match ref with
           | PNone => Ok kwargs
           | _ =>
               params ← py_setitem (params_of kwargs) "ref" ref;
               Ok (<["params" := params]> kwargs)
           end;
  call_gitlab_api_request c path callback kwargs.

(** [get_tree(self, user, repo, path, ref=None, callback=None, **kwargs)] *)
Definition get_tree (c : client) (user repo : string) (path ref callback : pyobj)
    (kwargs : gmap string pyobj) : result request :=
  let api := "projects/" +:+ user +:+ "%2F" +:+ repo +:+ "/repository/tree" in
  let params := params_of kwargs in
  params ← (if truthy path then py_setitem params "path" path else Ok params);
  params ← (if truthy ref then py_setitem params "ref_name" ref else Ok params);
  let kwargs := <["params" := params]> kwargs in
  let url := url_path_join (gitlab_api_url c) api in
  call_fetch c url callback kwargs.

(** the call [self.get_tree(user, repo, **kw)]: two positional arguments,
    every other parameter of [get_tree] has to come from the keywords *)
Definition call_get_tree (c : client) (user repo : string)
    (kw : gmap string pyobj) : result request :=
  _ ← reject_keywords ["self"; "user"; "repo"] kw;
  match kw !! "path" with
  | None =>
      Raise (TypeError "get_tree() missing 1 required positional argument: 'path'")
  | Some path =>
      get_tree c user repo path
        (default PNone (kw !! "ref")) (default PNone (kw !! "callback"))
        (delete "callback" (delete "ref" (delete "path" kw)))
  end.

(** the loop of [_extract_tree_entry]: [Some entry] when it returns from
    inside the loop, [None] when the loop runs to its end *)
Fixpoint scan_entries (path : string) (entries : list pyobj)
  : result (option pyobj) :=
  match entries with
  | [] => Ok None
  | entry :: rest =>
      p ← py_getitem entry "path";
      if py_eq_str p path then Ok (Some entry) else scan_entries path rest
  end.

(** [_extract_tree_entry(self, path, tree_response)] *)
Definition _extract_tree_entry (path : string) (tree_response : response)
  : result pyobj :=
  _ ← rethrow tree_response;
  let jsondata := response_text tree_response in
  data ← json_loads jsondata;
  entries ← py_iter data;
  found ← scan_entries path entries;
  match found with
  | Some entry => Ok entry
  | None =>
      tree ← py_getitem data "tree";
      n ← py_len tree;
      Raise (HTTPError 404 (path +:+ " not found among " +:+ pretty n +:+ " files"))
  end.

(** the closure [cb] of [get_tree_entry], run on the tree response: the
    exception or the result that the future [f] is given; [None] when the
    caller's callback raises, which leaves [f] as it was *)
Definition tree_entry_cb (path : string) (callback : pyobj) (r : response)
  : option (result pyobj) :=
  match _extract_tree_entry path r with
  | Raise e => Some (Raise e)
  | Ok tree_entry =>
      if truthy callback then
        match call_object callback tree_entry with
        | Ok result => Some (Ok result)
        | Raise _ => None
        end
      else Some (Ok tree_entry)
  end.

(** [get_tree_entry(self, user, repo, path, ref='master', callback=None, **kwargs)];
    [kwargs] holds the keywords other than the named parameters *)
Definition get_tree_entry (c : client) (user repo path : string)
    (ref callback : pyobj) (kwargs : gmap string pyobj) : result request :=
  let kwargs :=
    if contains_char "/" path then <["recursive" := PBool true]> kwargs
    else kwargs in
  let cb := PTreeEntryCb path callback in
  call_get_tree c user repo (<["callback" := cb]> (<["ref" := ref]> kwargs)).

Definition run_call (c : client) (call : api_call) : result request :=
  match call with
  | Fetch url callback params kwargs => fetch c url callback params kwargs
  | ApiRequest path callback kwargs => gitlab_api_request c path callback kwargs
  | GetProjects user callback kwargs => get_projects c user callback kwargs
  | GetFile user repo path callback ref kwargs =>
      get_file c user repo path callback ref kwargs
  | GetContents user repo path callback ref kwargs =>
      get_contents c user repo path callback ref kwargs
  | GetTree user repo path ref callback kwargs =>
      get_tree c user repo path ref callback kwargs
  | GetTreeEntry user repo path ref callback kwargs =>
      get_tree_entry c user repo path ref callback kwargs
  end.

End Client.

(** ** handlers.py: the tree handler *)

(** What the surrounding web layer gives a handler: [BaseHandler] and the
    HTTP client are not part of the provider. *)
Class Web := {
  (** [BaseHandler.catch_client_error], as a scoped boundary around a block:
      an exception [e] raised inside leaves the block as [e'] when the
      boundary answers [Some e'], and is swallowed when it answers [None] *)
  catch_client_error : exn -> option exn;
  (** the HTTP client: what awaiting the future of a request gives *)
  http_fetch : request -> result response;
  (** [BaseHandler.breadcrumbs(path, base_url)] *)
  breadcrumbs : string -> string -> list pyobj;
  (** a client attribute called with [(user, repo)] and awaited *)
  call_member : string -> string -> string -> result response;
}.

Record handler := {
  environ : gmap string string;
  request_uri : string;
  format_prefix : string;
}.

Inductive category := Dir | Ipynb | Other.

#[global] Instance category_eq_dec : EqDecision category.
Proof. solve_decision. Defined.

(** one element of [entries]: the dictionary [e] with its three keys *)
Record entry := {
  e_name : pyobj;
  e_url : pyobj;
  e_class : string;
}.

Record groups := {
  dirs : list entry;
  ipynbs : list entry;
  others : list entry;
}.

(** the arguments of [render_template("treelist.html", ...)] *)
Record tree_view := {
  tv_entries : list entry;
  tv_breadcrumbs : list pyobj;
  tv_provider_url : string;
  tv_user : string;
  tv_repo : string;
  tv_ref : string;
  tv_path : string;
  tv_branches : pyobj;
  tv_tags : pyobj;
  tv_tree_type : string;
  tv_tree_label : string;
  tv_provider_label : string;
  tv_provider_icon : string;
}.

Inductive outcome :=
| Redirect (url : string)
| Render (template : string) (view : tree_view)
| Raised (e : exn).

Definition finish (r : result outcome) : outcome :=
  match r with
  | Ok o => o
  | Raise e => Raised e
  end.

(** the names [AsyncGitLabClient] defines, on the class and in [__init__] *)
Definition client_attributes : list string :=
  ["auth"; "__init__"; "authenticate"; "fetch"; "gitlab_api_request";
   "get_projects"; "get_file"; "get_contents"; "get_tree";
   "_extract_tree_entry"; "get_tree_entry";
   "client"; "gitlab_url"; "gitlab_api_url"].

(** [getattr(self.gitlab_client, name)] for the names [refs] builds *)
Definition client_getattr (name : string) : result string :=
  if bool_decide (name ∈ client_attributes) then Ok name
  else Raise (AttributeError
                ("'AsyncGitLabClient' object has no attribute '" +:+ name +:+ "'")).

(** reading a local variable that an earlier block may have left unbound *)
Definition local {A} (name : string) (v : option A) : result A :=
  match v with
  | Some a => Ok a
  | None => Raise (UnboundLocalError name)
  end.

Section Handlers.
Context `{Utils} `{Web}.

(** [with self.catch_client_error(): x = body] *)
Definition with_catch {A} (body : result A) : result (option A) :=
  match body with
  | Ok a => Ok (Some a)
  | Raise e =>
      match catch_client_error e with
      | Some e' => Raise e'
      | None => Ok None
      end
  end.

(** [GitLabClientMixin.gitlab_client] *)
Definition gitlab_client (h : handler) : client := new_client (environ h).

(** the loop of [GitLabTreeHandler.refs] over [enumerate(ref_types)] from
    index [i]; [response] is the local variable of that name *)
Fixpoint refs_loop (user repo : string) (i : nat) (ref_types : list string)
    (response : option response) (ref_data : list pyobj)
  : result (list pyobj) :=
  match ref_types with
  | [] => Ok ref_data
  | ref_type :: rest =>
      r ← with_catch (m ← client_getattr ("get_" +:+ ref_type);
                      call_member m user repo);
      let response := match r with Some x => Some x | None => response end in
      resp ← local "response" response;
      v ← json_loads (response_text resp);
      refs_loop user repo (S i) rest response (<[i := v]> ref_data)
  end.

(** [GitLabTreeHandler.refs(self, user, repo)] *)
Definition refs (user repo : string) : result (list pyobj) :=
  let ref_types := ["branches"; "tags"] in
  let ref_data := [PNone; PNone] in
  refs_loop user repo 0 ref_types None ref_data.

(** the body of [for nav_ref in branches + tags] *)
Definition nav_url (user repo path : string) (nav_ref : pyobj) : result pyobj :=
  name ← py_getitem nav_ref "name";
  py_setitem nav_ref "url"
    (PStr ("/github/" +:+ user +:+ "/" +:+ repo +:+ "/tree/"
           +:+ format_field name +:+ "/" +:+ path)).

(** the loop over [branches + tags]; the dictionaries are updated in place,
    so [branches] and [tags] are returned as they are afterwards *)
Definition nav_refs (user repo path : string) (branches tags : pyobj)
  : result (pyobj * pyobj) :=
  match branches, tags with
  | PList b, PList t =>
      b' ← mapM (nav_url user repo path) b;
      t' ← mapM (nav_url user repo path) t;
      Ok (PList b', PList t')
  | _, _ =>
      all ← py_add branches tags;
      items ← py_iter all;
      _ ← mapM (nav_url user repo path) items;
      Ok (branches, tags)
  end.

(** the body of [for file in contents]: the entry [e] and the list it is
    appended to *)
Definition entry_for (user repo ref : string) (file : pyobj)
  : result (category * entry) :=
  name ← py_getitem file "name";
  type ← py_getitem file "type";
  if py_eq_str type "dir" then
    path ← py_getitem file "path";
    let url := "/github/" +:+ user +:+ "/" +:+ repo +:+ "/tree/" +:+ ref
               +:+ "/" +:+ format_field path in
    Ok (Dir, {| e_name := name; e_url := PStr (quote url);
                e_class := "fa-folder-open" |})
  else
    nb ← py_endswith name ".ipynb";
    if nb : bool then
      path ← py_getitem file "path";
      let url := "/github/" +:+ user +:+ "/" +:+ repo +:+ "/blob/" +:+ ref
                 +:+ "/" +:+ format_field path in
      Ok (Ipynb, {| e_name := name; e_url := PStr (quote url);
                    e_class := "fa-book" |})
    else
      html_url ← py_getitem file "html_url";
      if truthy html_url then
        Ok (Other, {| e_name := name; e_url := html_url; e_class := "fa-share" |})
      else
        Ok (Other, {| e_name := name; e_url := PStr "";
                      e_class := "fa-folder-close" |}).

(** [dirs.append(e)], [ipynbs.append(e)] or [others.append(e)] *)
Definition append_to (c : category) (e : entry) (g : groups) : groups :=
  match c with
  | Dir => {| dirs := dirs g ++ [e]; ipynbs := ipynbs g; others := others g |}
  | Ipynb => {| dirs := dirs g; ipynbs := ipynbs g ++ [e]; others := others g |}
  | Other => {| dirs := dirs g; ipynbs := ipynbs g; others := others g ++ [e] |}
  end.

Fixpoint classify_loop (user repo ref : string) (contents : list pyobj)
    (g : groups) : result groups :=
  match contents with
  | [] => Ok g
  | file :: rest =>
      '(c, e) ← entry_for user repo ref file;
      classify_loop user repo ref rest (append_to c e g)
  end.

(** the content classifier: the three lists after the loop *)
Definition classify (user repo ref : string) (contents : list pyobj)
  : result groups :=
  classify_loop user repo ref contents {| dirs := []; ipynbs := []; others := [] |}.

(** [entries.extend(dirs); entries.extend(ipynbs); entries.extend(others)] *)
Definition entries_of (g : groups) : list entry :=
  (([] ++ dirs g) ++ ipynbs g) ++ others g.

(** the target of the redirect taken when the contents are not a list *)
Definition blob_redirect (h : handler) (user repo ref path : string) : string :=
  format_prefix h +:+ "/github/" +:+ user +:+ "/" +:+ repo +:+ "/blob/"
  +:+ ref +:+ "/" +:+ path.

(** [GitLabTreeHandler.get(self, user, repo, ref, path)], the body that runs
    when the [cached] decorator finds nothing to serve *)
Definition tree_get (h : handler) (user repo ref path : string) : outcome :=
  if negb (endswith "/" (request_uri h)) then Redirect (request_uri h +:+ "/")
  else
    let path := rstrip_slash path in
    finish (
      response ← with_catch (
        rq ← get_contents (gitlab_client h) user repo path PNone (PStr ref) ∅;
        http_fetch rq);
      response ← local "response" response;
      contents ← json_loads (response_text response);
      ref_data ← refs user repo;
      let branches := default PNone (ref_data !! 0) in
      let tags := default PNone (ref_data !! 1) in
      '(branches, tags) ← nav_refs user repo path branches tags;
      match contents with
      | PList files =>
          let base_url := "/github/" +:+ user +:+ "/" +:+ repo +:+ "/tree/" +:+ ref in
          let provider_url := "https://github.com/" +:+ user +:+ "/" +:+ repo
                              +:+ "/tree/" +:+ ref +:+ "/" +:+ path in
          let crumbs :=
            PDict {[ "url" := PStr base_url; "name" := PStr repo ]}
            :: breadcrumbs path base_url in
          g ← classify user repo ref files;
          Ok (Render "treelist.html"
                {| tv_entries := entries_of g; tv_breadcrumbs := crumbs;
                   tv_provider_url := provider_url;
                   tv_user := user; tv_repo := repo; tv_ref := ref;
                   tv_path := path; tv_branches := branches; tv_tags := tags;
                   tv_tree_type := "github"; tv_tree_label := "repositories";
                   tv_provider_label := "GitLab"; tv_provider_icon := "gitlab" |})
      | _ => Ok (Redirect (blob_redirect h user repo ref path))
      end).

End Handlers.

(** ** Regular expressions, as [re.match] reads the patterns of the rules

    The subset of Python's pattern syntax that the rewrite rules are written
    in: literals, backslash-escaped punctuation, [.], sets of ASCII
    characters, capturing groups, alternation, the greedy [*], [+] and [?],
    and the anchors.  A pattern outside the subset does not compile here. *)

Inductive regex :=
| REmpty
| RChar (c : ascii)
| RAny
| RSet (negated : bool) (members : list ascii)
| RBol
| REol
| RCat (r1 r2 : regex)
| RAlt (r1 r2 : regex)
| RStar (r : regex)
| RPlus (r : regex)
| ROpt (r : regex)
| RGroup (i : nat) (r : regex).

Definition newline : ascii := ascii_of_nat 10.

(** continuation byte of a UTF-8 sequence *)
Definition is_cont (a : ascii) : bool :=
  (128 <=? nat_of_ascii a)%nat && (nat_of_ascii a <? 192)%nat.

Definition is_alnum (a : ascii) : bool :=
  let n := nat_of_ascii a in
  ((48 <=? n) && (n <=? 57) || (65 <=? n) && (n <=? 90)
   || (97 <=? n) && (n <=? 122))%nat.

(** the bytes that follow the first byte of a character *)
Fixpoint skip_cont (s : string) : string :=
  match s with
  | String a s' => if is_cont a then skip_cont s' else s
  | EmptyString => EmptyString
  end.

Definition seq_of (atoms : list regex) : regex := foldr RCat REmpty atoms.

Fixpoint alt_of (first : regex) (more : list regex) : regex :=
  match more with
  | [] => first
  | r :: rs => RAlt first (alt_of r rs)
  end.

(** *** Compiling a pattern *)

(** an open group (or the whole pattern): the alternatives already closed
    by [|], newest first, and the atoms of the current one, newest first *)
Record frame := {
  f_index : nat;
  f_alts : list regex;
  f_atoms : list regex;
}.

Record pstate := {
  ps_top : frame;
  ps_open : list frame;
  ps_groups : nat;
}.

Inductive pmode :=
| MNormal
| MEscape
| MSetStart
| MSet (negated : bool) (members : list ascii)
| MSetEscape (negated : bool) (members : list ascii).

Definition push_atom (r : regex) (st : pstate) : pstate :=
  {| ps_top := {| f_index := f_index (ps_top st); f_alts := f_alts (ps_top st);
                  f_atoms := r :: f_atoms (ps_top st) |};
     ps_open := ps_open st; ps_groups := ps_groups st |}.

Definition close_frame (f : frame) : regex :=
  match rev (seq_of (rev (f_atoms f)) :: f_alts f) with
  | [] => REmpty
  | r :: rs => alt_of r rs
  end.

Definition quantifiable (r : regex) : bool :=
  match r with
  | RChar c => (nat_of_ascii c <? 128)%nat
  | RAny | RSet _ _ | RGroup _ _ => true
  | _ => false
  end.

Definition quantify (q : regex -> regex) (st : pstate) : option pstate :=
  match f_atoms (ps_top st) with
  | r :: atoms =>
      if quantifiable r then
        Some {| ps_top := {| f_index := f_index (ps_top st);
                             f_alts := f_alts (ps_top st);
                             f_atoms := q r :: atoms |};
                ps_open := ps_open st; ps_groups := ps_groups st |}
      else None
  | [] => None
  end.

Definition specials : list ascii :=
  ["\"; "^"; "$"; "."; "|"; "?"; "*"; "+"; "("; ")"; "["; "{"]%char.

Definition special_step (c : ascii) (st : pstate) : option (pmode * pstate) :=
  if Ascii.eqb c "\" then Some (MEscape, st)
  else if Ascii.eqb c "[" then Some (MSetStart, st)
  else if Ascii.eqb c "^" then Some (MNormal, push_atom RBol st)
  else if Ascii.eqb c "$" then Some (MNormal, push_atom REol st)
  else if Ascii.eqb c "." then Some (MNormal, push_atom RAny st)
  else if Ascii.eqb c "*" then pair MNormal <$> quantify RStar st
  else if Ascii.eqb c "+" then pair MNormal <$> quantify RPlus st
  else if Ascii.eqb c "?" then pair MNormal <$> quantify ROpt st
  else if Ascii.eqb c "|" then
    Some (MNormal,
          {| ps_top := {| f_index := f_index (ps_top st);
                          f_alts := seq_of (rev (f_atoms (ps_top st)))
                                    :: f_alts (ps_top st);
                          f_atoms := [] |};
             ps_open := ps_open st; ps_groups := ps_groups st |})
  else if Ascii.eqb c "(" then
    Some (MNormal,
          {| ps_top := {| f_index := S (ps_groups st); f_alts := []; f_atoms := [] |};
             ps_open := ps_top st :: ps_open st;
             ps_groups := S (ps_groups st) |})
  else if Ascii.eqb c ")" then
    match ps_open st with
    | parent :: outer =>
        Some (MNormal,
              {| ps_top := {| f_index := f_index parent; f_alts := f_alts parent;
                              f_atoms := RGroup (f_index (ps_top st))
                                           (close_frame (ps_top st))
                                         :: f_atoms parent |};
                 ps_open := outer; ps_groups := ps_groups st |})
    | [] => None
    end
  else None.

Definition set_member (negated : bool) (members : list ascii) (c : ascii)
  : option pmode :=
  if (nat_of_ascii c <? 128)%nat then Some (MSet negated (c :: members)) else None.

(** one character of the pattern *)
Definition pstep (mode : pmode) (c : ascii) (st : pstate)
  : option (pmode * pstate) :=
  match mode with
  | MNormal =>
      if existsb (Ascii.eqb c) specials then special_step c st
      else Some (MNormal, push_atom (RChar c) st)
  | MEscape =>
      if is_alnum c then None else Some (MNormal, push_atom (RChar c) st)
  | MSetStart =>
      if Ascii.eqb c "^" then Some (MSet true [], st)
      else if Ascii.eqb c "\" then Some (MSetEscape false [], st)
      else if existsb (Ascii.eqb c) ["]"; "["; "-"]%char then None
      else (fun m => (m, st)) <$> set_member false [] c
  | MSet negated members =>
      if Ascii.eqb c "\" then Some (MSetEscape negated members, st)
      else if Ascii.eqb c "]" then
        match members with
        | [] => None
        | _ => Some (MNormal, push_atom (RSet negated (rev members)) st)
        end
      else if existsb (Ascii.eqb c) ["["; "-"]%char then None
      else (fun m => (m, st)) <$> set_member negated members c
  | MSetEscape negated members =>
      if is_alnum c then None
      else (fun m => (m, st)) <$> set_member negated members c
  end.

Fixpoint prun (pattern : string) (mode : pmode) (st : pstate)
  : option (pmode * pstate) :=
  match pattern with
  | EmptyString => Some (mode, st)
  | String c rest =>
      match pstep mode c st with
      | Some (mode', st') => prun rest mode' st'
      | None => None
      end
  end.

(** [re.compile(pattern)]: the expression and the number of its groups *)
Definition re_compile (pattern : string) : option (regex * nat) :=
  let init := {| ps_top := {| f_index := 0; f_alts := []; f_atoms := [] |};
                 ps_open := []; ps_groups := 0 |} in
  match prun pattern MNormal init with
  | Some (MNormal, st) =>
      match ps_open st with
      | [] => Some (close_frame (ps_top st), ps_groups st)
      | _ => None
      end
  | _ => None
  end.

(** *** Matching: leftmost alternative first, greedy repetition, backtracking *)

(** what a group captured: the text between two positions *)
Definition consumed (pos pos' : nat) (s : string) : string :=
  substring 0 (pos' - pos) s.

(** first byte of a character of several bytes *)
Definition is_lead (a : ascii) : bool := (192 <=? nat_of_ascii a)%nat.

(** what is left of [String a s] after its first character *)
Definition char_tail (a : ascii) (s : string) : string :=
  if is_lead a then skip_cont s else s.

(** the members of a set are ASCII, so the first byte of a character decides *)
Definition in_set (negated : bool) (members : list ascii) (a : ascii) : bool :=
  xorb negated (existsb (Ascii.eqb a) members).

Definition not_newline (a : ascii) : bool := negb (Ascii.eqb a newline).

Section Matcher.
Context {R : Type}.

(** a continuation gets the position, the text left and the groups so far *)
Definition cont := nat -> string -> gmap nat string -> option R.

(** one character that passes [test] *)
Definition one_char (test : ascii -> bool) (pos : nat) (s : string)
    (g : gmap nat string) (k : cont) : option R :=
  match s with
  | String a s' =>
      if test a then
        k (pos + (String.length s - String.length (char_tail a s')))
          (char_tail a s') g
      else None
  | EmptyString => None
  end.

Fixpoint star (m : nat -> string -> gmap nat string -> cont -> option R)
    (fuel : nat) (pos : nat) (s : string) (g : gmap nat string) (k : cont)
  : option R :=
  match fuel with
  | 0 => k pos s g
  | S fuel' =>
      match m pos s g (fun pos' s' g' =>
                         if (String.length s' <? String.length s)%nat
                         then star m fuel' pos' s' g' k else None) with
      | Some x => Some x
      | None => k pos s g
      end
  end.

Fixpoint rmatch (r : regex) (pos : nat) (s : string) (g : gmap nat string)
    (k : cont) : option R :=
  match r with
  | REmpty => k pos s g
  | RChar c =>
      match s with
      | String a s' => if Ascii.eqb a c then k (S pos) s' g else None
      | EmptyString => None
      end
  | RAny => one_char not_newline pos s g k
  | RSet negated members => one_char (in_set negated members) pos s g k
  | RBol => if (pos =? 0)%nat then k pos s g else None
  | REol =>
      match s with
      | EmptyString => k pos s g
      | String a EmptyString => if Ascii.eqb a newline then k pos s g else None
      | _ => None
      end
  | RCat r1 r2 => rmatch r1 pos s g (fun pos' s' g' => rmatch r2 pos' s' g' k)
  | RAlt r1 r2 =>
      match rmatch r1 pos s g k with
      | Some x => Some x
      | None => rmatch r2 pos s g k
      end
  | RStar r' => star (rmatch r') (S (String.length s)) pos s g k
  | RPlus r' =>
      rmatch r' pos s g (fun pos' s' g' =>
        star (rmatch r') (S (String.length s')) pos' s' g' k)
  | ROpt r' =>
      match rmatch r' pos s g k with
      | Some x => Some x
      | None => k pos s g
      end
  | RGroup i r' =>
      rmatch r' pos s g (fun pos' s' g' => k pos' s' (<[i := consumed pos pos' s]> g'))
  end.

End Matcher.

(** [re.match(pattern, s).groups()]: the outer [None] is a pattern outside
    the subset, the inner one is no match; a group that took no part in the
    match is [None] *)
Definition re_match (pattern s : string) : option (option (list (option string))) :=
  match re_compile pattern with
  | None => None
  | Some (r, n) =>
      Some (rmatch r 0 s ∅ (fun _ _ g => Some ((fun i => g !! i) <$> seq 1 n)))
  end.

(** [str.format] over positional arguments, for a template whose fields
    are [{0}] to [{9}];
    [str(None)] is ['None'] *)
Fixpoint format_positional (template : string) (args : list (option string))
  : option string :=
  match template with
  | EmptyString => Some EmptyString
  | String c rest =>
      if Ascii.eqb c "{" then
        match rest with
        | String d (String e rest') =>
            if Ascii.eqb e "}" && (48 <=? nat_of_ascii d)%nat
               && (nat_of_ascii d <=? 57)%nat then
              arg ← args !! (nat_of_ascii d - 48);
              out ← format_positional rest' args;
              Some (default "None" arg +:+ out)
            else None
        | _ => None
        end
      else if Ascii.eqb c "}" then None
      else String c <$> format_positional rest args
  end.

Inductive rewritten :=
| Unsupported
| NoMatch
| Rewritten (uri : string).

(** a rule [(pattern, template)] applied to a URI: [re.match], then the
    template formatted with the groups *)
Definition apply_rule (rule : string * string) (uri : string) : rewritten :=
  match re_match rule.1 uri with
  | None => Unsupported
  | Some None => NoMatch
  | Some (Some groups) =>
      match format_positional rule.2 groups with
      | Some out => Rewritten out
      | None => Unsupported
      end
  end.

(** ** handlers.py: uri_rewrites *)

(** [s.replace('.', r'\.')] *)
Fixpoint escape_dots (s : string) : string :=
  match s with
  | EmptyString => EmptyString
  | String a s' =>
      if Ascii.eqb a "." then String "\" (String "." (escape_dots s'))
      else String a (escape_dots s')
  end.

(** [uri_rewrites(rewrites=[])] *)
Definition uri_rewrites (environ : gmap string string)
    (rewrites : list (string * string)) : list (string * string) :=
  let gitlab_url := environ_get environ "GITLAB_URL" in
  [("^" +:+ escape_dots gitlab_url +:+ "/([^\/]+)/([^\/]+)/(blob|tree)/(.*)$",
    "/gitlab/{0}/{1}/{2}/{3}")] ++ rewrites.

(** ** handlers.py: the user, repository and blob handlers *)

(** What else the handlers are given from outside the provider:
    [BaseHandler], [RenderingHandler], [nbviewer.utils] and the Python
    library. *)
Class Base := {
  (** [BaseHandler.get_page_links(response)], unpacked into its two links *)
  get_page_links : response -> result (pyobj * pyobj);
  (** [self.format] *)
  handler_format : handler -> pyobj;
  (** [utils.base64_decode]: the bytes *)
  base64_decode : pyobj -> result string;
  (** [b.decode('utf-8')] for bytes [b]; [None] when it raises *)
  decode_utf8 : string -> option string;
  (** [mimetypes.guess_type(path)]: the type and the encoding *)
  guess_type : string -> option string * option string;
}.

(** the arguments of [render_template("userview.html", ...)] *)
Record user_view := {
  uv_entries : list pyobj;
  uv_provider_url : string;
  uv_next_url : pyobj;
  uv_prev_url : pyobj;
  uv_provider_label : string;
  uv_provider_icon : string;
}.

(** the file data of the blob handler: the bytes that [base64_decode]
    returned, or the [content] of the response as it came *)
Inductive filedata :=
| Bytes (b : string)
| Content (v : pyobj).

(** the arguments of [finish_notebook]: the notebook and the download URL
    are its two positional arguments, the others are passed by keyword *)
Record notebook_call := {
  nb_json : pyobj;
  nb_download_url : string;
  nb_provider_url : string;
  nb_breadcrumbs : list pyobj;
  nb_msg : string;
  nb_public : bool;
  nb_format : pyobj;
  nb_request_uri : string;
  nb_provider_label : string;
  nb_provider_icon : string;
}.

(** how a request to the blob handler ends: [WebError status] is the
    [web.HTTPError(status)] that the handler raises itself, which is not the
    [HTTPError] of the client; [BlobRaised e] is any other exception that
    leaves the handler, what the error boundary raises included *)
Inductive blob_outcome :=
| FinishNotebook (call : notebook_call)
| ServeFile (content_type : string) (body : filedata)
| WebError (status : Z)
| BlobRaised (e : exn).

(** [s.rsplit('/', 1)]: what is in front of the last slash, when there is
    one *)
Fixpoint before_last_slash (s : string) : option string :=
  match s with
  | EmptyString => None
  | String a s' =>
      match before_last_slash s' with
      | Some r => Some (String a r)
      | None => if Ascii.eqb a "/" then Some EmptyString else None
      end
  end.

(** [s.rsplit('/', 1)[0]] *)
Definition rsplit_head (s : string) : string := default s (before_last_slash s).

(** [mime or 'text/plain'] *)
Definition mime_or_plain (mime : option string) : string :=
  match mime with
  | Some m => if String.eqb m "" then "text/plain" else m
  | None => "text/plain"
  end.

Section MoreHandlers.
Context `{Utils} `{Web} `{Base}.

(** the parameters [GitLabUserHandler.get] builds; [page] is what
    [get_argument("page", None)] gave *)
Definition projects_params (page : pyobj) : gmap string pyobj :=
  let params : gmap string pyobj := {[ "sort" := PStr "desc" ]} in
  if truthy page then <["page" := page]> params else params.

(** [self.gitlab_client.get_projects(user, params=params)] *)
Definition projects_request (h : handler) (user : string) (page : pyobj)
  : result request :=
  get_projects (gitlab_client h) user PNone
    {[ "params" := PDict (projects_params page) ]}.

(** [dict(url=repo['path'], name=repo['path'])] *)
Definition user_entry (repo : pyobj) : result pyobj :=
  url ← py_getitem repo "path";
  name ← py_getitem repo "path";
  Ok (PDict {[ "url" := url; "name" := name ]}).

(** [GitLabUserHandler.get(self, user)], the body that runs when the
    [cached] decorator finds nothing to serve: the template and its
    arguments *)
Definition user_get (h : handler) (user : string) (page : pyobj)
  : result (string * user_view) :=
  response ← with_catch (rq ← projects_request h user page; http_fetch rq);
  response ← local "response" response;
  '(prev_url, next_url) ← get_page_links response;
  repos ← json_loads (response_text response);
  repos ← py_iter repos;
  entries ← mapM user_entry repos;
  let provider_url := "https://github.com/" +:+ user in
  Ok ("userview.html",
      {| uv_entries := entries; uv_provider_url := provider_url;
         uv_next_url := next_url; uv_prev_url := prev_url;
         uv_provider_label := "GitLab"; uv_provider_icon := "gitlab" |}).

(** [GitLabRepoHandler.get(self, user, repo)] *)
Definition repo_get (h : handler) (user repo : string) : outcome :=
  Redirect (format_prefix h +:+ "/gitlab/" +:+ user +:+ "/" +:+ repo
            +:+ "/tree/master/").

(** the two URLs [GitLabBlobHandler.get] starts with; [kind] is [raw] or
    [blob] *)
Definition upstream_url (h : handler) (user repo kind ref path : string) : string :=
  gitlab_url (gitlab_client h) +:+ "/" +:+ user +:+ "/" +:+ repo +:+ "/" +:+ kind
  +:+ "/" +:+ ref +:+ "/" +:+ quote path.

(** [self.gitlab_client.get_file(user=user, repo=repo, ref=ref, path=path)] *)
Definition file_request (h : handler) (user repo ref path : string)
  : result request :=
  get_file (gitlab_client h) user repo path PNone (PStr ref) ∅.

(** the file data of a parsed response *)
Definition file_data (data : pyobj) : result filedata :=
  contents ← py_getitem data "content";
  encoding ← py_getitem data "encoding";
  if py_eq_str encoding "base64" then
    b ← base64_decode contents; Ok (Bytes b)
  else Ok (Content contents).

(** the text of a notebook: the [try] block of the handler; [None] when an
    exception is raised inside it *)
Definition notebook_text (data : filedata) : option pyobj :=
  match data with
  | Bytes b => PStr <$> decode_utf8 b
  | Content v => Some v
  end.

(** [GitLabBlobHandler.get(self, user, repo, ref, path)], the body that runs
    when the [cached] decorator finds nothing to serve *)
Definition blob_get (h : handler) (user repo ref path : string) : blob_outcome :=
  let raw_url := upstream_url h user repo "raw" ref path in
  let blob_url := upstream_url h user repo "blob" ref path in
  match
    (response ← with_catch (rq ← file_request h user repo ref path; http_fetch rq);
     response ← local "response" response;
     data ← json_loads (response_text response);
     file_data data)
  with
  | Raise e => BlobRaised e
  | Ok data =>
      if endswith ".ipynb" path then
        let dir_path := rsplit_head path in
        let base_url := "/gitlab/" +:+ user +:+ "/" +:+ repo +:+ "/tree/" +:+ ref in
        let crumbs :=
          PDict {[ "url" := PStr base_url; "name" := PStr repo ]}
          :: breadcrumbs dir_path base_url in
        match notebook_text data with
        | None => WebError 400
        | Some nbjson =>
            FinishNotebook
              {| nb_json := nbjson; nb_download_url := raw_url;
                 nb_provider_url := blob_url; nb_breadcrumbs := crumbs;
                 nb_msg := "file from GitLab: " +:+ raw_url;
                 nb_public := true; nb_format := handler_format h;
                 nb_request_uri := request_uri h;
                 nb_provider_label := "GitLab"; nb_provider_icon := "gitlab" |}
        end
      else
        let '(mime, enc) := guess_type path in
        ServeFile (mime_or_plain mime) data
  end.

End MoreHandlers.

(** ** handlers.py: default_handlers *)

Inductive handler_class :=
| AddSlashHandler
| RemoveSlashHandler
| GitLabUserHandler
| GitLabRepoHandler
| GitLabBlobHandler
| GitLabTreeHandler.

(** [default_handlers(handlers=[])] *)
Definition default_handlers (handlers : list (string * handler_class))
  : list (string * handler_class) :=
  handlers ++
  [("/gitlab/([^\/]+)", AddSlashHandler);
   ("/gitlab/([^\/]+)/", GitLabUserHandler);
   ("/gitlab/([^\/]+)/([^\/]+)", AddSlashHandler);
   ("/gitlab/([^\/]+)/([^\/]+)/", GitLabRepoHandler);
   ("/gitlab/([^\/]+)/([^\/]+)/blob/([^\/]+)/(.*)/", RemoveSlashHandler);
   ("/gitlab/([^\/]+)/([^\/]+)/blob/([^\/]+)/(.*)", GitLabBlobHandler);
   ("/gitlab/([^\/]+)/([^\/]+)/tree/([^\/]+)", AddSlashHandler);
   ("/gitlab/([^\/]+)/([^\/]+)/tree/([^\/]+)/(.*)", GitLabTreeHandler)].

(** How the web framework (tornado's [URLSpec] and its router) reads such a
    table: a pattern that does not end with [$] is given one, and a request
    goes to the first entry whose pattern matches its path, with the groups
    of the match as arguments.  The groups are given here as they were
    matched, before the framework unquotes them. *)
Definition url_spec (pattern : string) : string :=
  if endswith "$" pattern then pattern else pattern +:+ "$".

Inductive dispatch :=
| BadPattern
| NotFound
| Dispatch (cls : handler_class) (args : list (option string)).

Fixpoint find_handler (table : list (string * handler_class)) (path : string)
  : dispatch :=
  match table with
  | [] => NotFound
  | (pattern, cls) :: rest =>
      match re_match (url_spec pattern) path with
      | None => BadPattern
      | Some (Some groups) => Dispatch cls groups
      | Some None => find_handler rest path
      end
  end.

(** ** A concrete setting to run the model in

    Stand-ins for the collaborators: quoting leaves a string as it is, two
    pieces are joined with one slash between them, and three response bodies
    are understood. *)

Definition demo_listing : list pyobj :=
  [PDict {[ "name" := PStr "docs"; "type" := PStr "dir"; "path" := PStr "docs";
            "html_url" := PStr "https://gitlab.com/u/r/tree/master/docs" ]};
   PDict {[ "name" := PStr "README.md"; "type" := PStr "file";
            "path" := PStr "README.md";
            "html_url" := PStr "https://gitlab.com/u/r/blob/master/README.md" ]};
   PDict {[ "name" := PStr "a.ipynb"; "type" := PStr "file";
            "path" := PStr "a.ipynb";
            "html_url" := PStr "https://gitlab.com/u/r/blob/master/a.ipynb" ]};
   PDict {[ "name" := PStr "sub"; "type" := PStr "submodule";
            "path" := PStr "sub"; "html_url" := PNone ]}].

Definition demo_json_loads (body : string) : result pyobj :=
  if String.eqb body "LISTING" then Ok (PList demo_listing)
  else if String.eqb body "EMPTY" then Ok (PList [])
  else if String.eqb body "FILE" then
    Ok (PDict {[ "name" := PStr "a.ipynb"; "type" := PStr "file" ]})
  else Raise (ValueError "No JSON object could be decoded").

Fixpoint lstrip_slash (s : string) : string :=
  match s with
  | String a s' => if Ascii.eqb a "/" then lstrip_slash s' else s
  | EmptyString => EmptyString
  end.

Definition demo_utils : Utils :=
  {| quote := fun s => s;
     url_path_join := fun a b => rstrip_slash a +:+ "/" +:+ lstrip_slash b;
     response_text := resp_body;
     json_loads := demo_json_loads;
     str_of := fun _ => "?";
     call_object := fun _ x => Ok x |}.

Definition demo_web : Web :=
  {| catch_client_error := fun e => Some e;
     http_fetch := fun _ => Ok {| resp_error := None; resp_body := "FILE" |};
     breadcrumbs := fun _ _ => [];
     call_member := fun _ _ _ => Ok {| resp_error := None; resp_body := "EMPTY" |} |}.

Definition demo_environ : gmap string string :=
  {[ "GITLAB_URL" := "https://gitlab.com"; "GITLAB_API_TOKEN" := "s3cret" ]}.

(** ** The vocabulary of the statements *)

(** what holds of a request that [c] let through *)
Definition guarded (c : client) (rq : request) : Prop :=
  startswith (gitlab_api_url c) (rq_target rq) = true /\
  forall k v, auth c !! k = Some v -> query_param rq k = Some v.

(** an entry whose [path] can be read and is not the target *)
Definition other_path (path : string) (entry : pyobj) : Prop :=
  exists v, py_getitem entry "path" = Ok v /\ py_eq_str v path = false.

(** an element of a directory listing: a dictionary with the keys the
    handler reads, its name a string *)
Definition listing_entry (file : pyobj) : Prop :=
  exists d name,
    file = PDict d /\ d !! "name" = Some (PStr name) /\
    is_Some (d !! "type") /\ is_Some (d !! "path") /\ is_Some (d !! "html_url").

(** the entries of one category, in the order of the listing *)
Definition group (c : category) (tagged : list (category * entry)) : list entry :=
  (filter (fun ce => ce.1 = c) tagged).*2.

(** every character passes [test] *)
Fixpoint all_chars (test : ascii -> bool) (s : string) : bool :=
  match s with
  | EmptyString => true
  | String a s' => test a && all_chars test s'
  end.

(** a character that [escape_dots] turns into a literal of the pattern *)
Definition plain_char (a : ascii) : bool :=
  Ascii.eqb a "." || negb (existsb (Ascii.eqb a) specials).

(** a base URL that the pattern of the rule matches literally *)
Definition plain_url (base : string) : bool := all_chars plain_char base.

Fixpoint lits (s : string) : list regex :=
  match s with
  | EmptyString => []
  | String a s' => RChar a :: lits s'
  end.

(** the pattern of the rule after the base URL *)
Definition tail_atoms : list regex :=
  [RChar "/"; RGroup 1 (seq_of [RPlus (RSet true ["/"%char])]);
   RChar "/"; RGroup 2 (seq_of [RPlus (RSet true ["/"%char])]);
   RChar "/"; RGroup 3 (RAlt (seq_of (lits "blob")) (seq_of (lits "tree")));
   RChar "/"; RGroup 4 (seq_of [RStar RAny]); REol].

(** the state after the atoms are read in the current group *)
Definition push_atoms (atoms : list regex) (st : pstate) : pstate :=
  {| ps_top := {| f_index := f_index (ps_top st); f_alts := f_alts (ps_top st);
                  f_atoms := rev atoms ++ f_atoms (ps_top st) |};
     ps_open := ps_open st; ps_groups := ps_groups st |}.

(** the text after a run of characters: it starts a character of its own,
    and not one that continues the run *)
Definition stops (test : ascii -> bool) (t : string) : Prop :=
  skip_cont t = t /\
  match t with
  | EmptyString => True
  | String a _ => test a = false
  end.

Definition listing_response : response :=
  {| resp_error := None; resp_body := "LISTING" |}.

Definition gitlab_com : gmap string string :=
  {[ "GITLAB_URL" := "https://gitlab.com" ]}.

(** the keyword arguments a call was given *)
Definition call_kwargs (call : api_call) : gmap string pyobj :=
  match call with
  | Fetch _ _ _ kwargs | ApiRequest _ _ kwargs | GetProjects _ _ kwargs
  | GetFile _ _ _ _ _ kwargs | GetContents _ _ _ _ _ kwargs
  | GetTree _ _ _ _ _ kwargs | GetTreeEntry _ _ _ _ _ kwargs => kwargs
  end.

(** a call of [fetch] itself, whose keywords cannot hold one of its own
    parameters *)
Definition direct_fetch (call : api_call) : bool :=
  match call with
  | Fetch _ _ _ _ => true
  | _ => false
  end.

(** [params or {}], as [fetch] reads its parameter *)
Definition params_or_empty (params : pyobj) : pyobj :=
  match params with
  | PNone => PDict ∅
  | _ => params
  end.

(** the token the environment configures *)
Definition configured_token (environ : gmap string string) : string :=
  environ_get environ "GITLAB_API_TOKEN".

(** the group of the routes that takes one path segment: one or more
    characters other than a slash *)
Definition seg (i : nat) : regex := RGroup i (seq_of [RPlus (RSet true ["/"%char])]).

(** the group of the routes that takes the rest of the path: any
    characters of one line *)
Definition rest_group (i : nat) : regex := RGroup i (seq_of [RStar RAny]).

(** a path segment as the routes are meant to be given: not empty, with no
    slash and no line feed in it *)
Definition segment (s : string) : bool :=
  negb (String.eqb s "") && negb (contains_char "/" s)
  && negb (contains_char newline s).

(** what a match hands to the handler: the groups, none of them left out *)
Definition args_of (groups : list string) : list (option string) := Some <$> groups.

(** ** More of the concrete setting

    An upstream that answers every request with the same body, and the
    bodies of two files: a notebook in base64 whose bytes are not UTF-8, and
    a text that is not encoded. *)

Definition answering (body : string) : Web :=
  {| catch_client_error := fun e => Some e;
     http_fetch := fun _ => Ok {| resp_error := None; resp_body := body |};
     breadcrumbs := fun path base_url => [PStr path; PStr base_url];
     call_member := fun _ _ _ => Ok {| resp_error := None; resp_body := "EMPTY" |} |}.

Definition files_json_loads (body : string) : result pyobj :=
  if String.eqb body "BINARY" then
    Ok (PDict {[ "content" := PStr (String (ascii_of_nat 255) "");
                 "encoding" := PStr "base64" ]})
  else if String.eqb body "TEXT" then
    Ok (PDict {[ "content" := PStr "{}"; "encoding" := PStr "text" ]})
  else Raise (ValueError "No JSON object could be decoded").

Definition files_utils : Utils :=
  {| quote := fun s => s;
     url_path_join := fun a b => rstrip_slash a +:+ "/" +:+ lstrip_slash b;
     response_text := resp_body;
     json_loads := files_json_loads;
     str_of := fun _ => "?";
     call_object := fun _ x => Ok x |}.

Definition is_ascii (a : ascii) : bool := (nat_of_ascii a <? 128)%nat.

(** stand-ins: no page links, the bytes of a string for its base64
    decoding, ASCII for the texts that decode, and one known file type *)
Definition demo_base : Base :=
  {| get_page_links := fun _ => Ok (PNone, PStr "?page=2");
     handler_format := fun _ => PNone;
     base64_decode := fun v =>
       match v with
       | PStr s => Ok s
       | _ => Raise (TypeError "expected bytes-like object")
       end;
     decode_utf8 := fun b => if all_chars is_ascii b then Some b else None;
     guess_type := fun path =>
       if endswith ".txt" path then (Some "text/plain", None) else (None, None) |}.

Definition demo_handler (uri : string) : handler :=
  {| environ := demo_environ; request_uri := uri; format_prefix := "" |}.

(** a branch or tag after the loop of the tree handler: the same dictionary
    with its link under [url] *)
Definition linked `{Utils} (user repo path : string) (nav_ref nav_ref' : pyobj)
  : Prop :=
  exists d name,
    nav_ref = PDict d /\ d !! "name" = Some name /\
    nav_ref' =
      PDict (<["url" := PStr ("/github/" +:+ user +:+ "/" +:+ repo +:+ "/tree/"
                              +:+ format_field name +:+ "/" +:+ path)]> d).






(** * Properties *)

(** ** The result monad *)

Lemma bind_Ok {A B} (r : result A) (k : A -> result B) (b : B) :
  r ≫= k = Ok b -> exists a, r = Ok a /\ k a = Ok b.
Proof. destruct r as [a|e]; simpl; [eauto | discriminate]. Qed.

Ltac inv_bind H :=
  let a := fresh "a" in
  let Ha := fresh "Ha" in
  apply bind_Ok in H; destruct H as (a & Ha & H).

Lemma truthy_dict_empty (d : gmap string pyobj) :
  truthy (PDict d) = false -> d = ∅.
Proof.
  simpl. intros Hd. apply negb_false_iff, bool_decide_eq_true in Hd.
  by apply dom_empty_iff_L.
Qed.

(** ** client.py *)

Section ClientFacts.
Context `{Utils}.

Lemma fetch_refuses (c : client) url callback params kwargs :
  startswith (gitlab_api_url c) url = false ->
  fetch c url callback params kwargs =
    Raise (ValueError ("Only fetch GitHub urls with GitHub auth (" +:+ url +:+ ")")).
Proof. intros Hp. unfold fetch. by rewrite Hp. Qed.

Lemma fetch_guarded (c : client) url callback params kwargs rq :
  fetch c url callback params kwargs = Ok rq -> guarded c rq.
Proof.
  unfold fetch. destruct (startswith _ url) eqn:Hp; cbn [negb]; [|discriminate].
  set (params' := match params with PNone => PDict ∅ | _ => params end).
  destruct (truthy (PDict (auth c))) eqn:Ht; intros Hb; inv_bind Hb;
    injection Hb as <-; (split; [done|]); intros k v Hk;
    unfold query_param; cbn [rq_query].
  - destruct params'; try discriminate.
    injection Ha as <-. by apply lookup_union_Some_l.
  - apply truthy_dict_empty in Ht. rewrite Ht in Hk. by rewrite lookup_empty in Hk.
Qed.

Lemma call_fetch_guarded (c : client) url callback kw rq :
  call_fetch c url callback kw = Ok rq -> guarded c rq.
Proof.
  unfold call_fetch. intros Hb. inv_bind Hb. by eapply fetch_guarded.
Qed.

Lemma gitlab_api_request_guarded (c : client) path callback kw rq :
  call_gitlab_api_request c path callback kw = Ok rq -> guarded c rq.
Proof.
  unfold call_gitlab_api_request. intros Hb. inv_bind Hb.
  by eapply call_fetch_guarded.
Qed.

Lemma get_tree_guarded (c : client) user repo path ref callback kw rq :
  get_tree c user repo path ref callback kw = Ok rq -> guarded c rq.
Proof.
  unfold get_tree. intros Hb. do 2 inv_bind Hb. by eapply call_fetch_guarded.
Qed.

Lemma run_call_guarded (c : client) (call : api_call) rq :
  run_call c call = Ok rq -> guarded c rq.
Proof.
  destruct call; simpl.
  - apply fetch_guarded.
  - apply call_fetch_guarded.
  - unfold get_projects. intros Hb. inv_bind Hb.
    by eapply gitlab_api_request_guarded.
  - unfold get_file. intros Hb. do 2 inv_bind Hb. by eapply call_fetch_guarded.
  - unfold get_contents. intros Hb. inv_bind Hb.
    by eapply gitlab_api_request_guarded.
  - apply get_tree_guarded.
  - unfold get_tree_entry, call_get_tree. intros Hb. inv_bind Hb.
    destruct (_ !! "path"); [|discriminate]. by eapply get_tree_guarded.
Qed.

Lemma authenticate_token (environ : gmap string string) (token : string) :
  environ !! "GITLAB_API_TOKEN" = Some token -> token <> "" ->
  authenticate environ = {[ "private_token" := PStr token ]}.
Proof.
  intros Henv Hne. unfold authenticate, environ_get. rewrite Henv. simpl.
  apply map_filter_singleton_True. simpl.
  apply negb_true_iff. by apply String.eqb_neq.
Qed.

Lemma authenticate_keys (environ : gmap string string) (k : string) :
  k <> "private_token" -> authenticate environ !! k = None.
Proof.
  intros Hk. unfold authenticate.
  apply map_lookup_filter_None. left. by rewrite lookup_singleton_ne.
Qed.

(** C8: a URL that does not start with the API base URL is refused with an
    error and nothing is handed to the HTTP client; and whatever call of the
    client hands a request to the HTTP client, the request's target starts
    with the base URL and, when the environment configures a non-empty access
    token, its query parameters hold that token under [private_token]. *)
Theorem credential_stays_under_base (environ : gmap string string) :
  let c := new_client environ in
  (forall url callback params kwargs,
      startswith (gitlab_api_url c) url = false ->
      (exists msg, fetch c url callback params kwargs = Raise (ValueError msg))
      /\ sent (fetch c url callback params kwargs) = []) /\
  (forall call rq,
      rq ∈ sent (run_call c call) ->
      startswith (gitlab_api_url c) (rq_target rq) = true /\
      forall token,
        environ !! "GITLAB_API_TOKEN" = Some token -> token <> "" ->
        query_param rq "private_token" = Some (PStr token)).
Proof.
  intros c. split.
  - intros url callback params kwargs Hp.
    rewrite (fetch_refuses c) by done. eauto.
  - intros call rq Hin. destruct (run_call c call) as [rq'|e] eqn:Hr; simpl in Hin.
    + apply list_elem_of_singleton in Hin as ->.
      apply run_call_guarded in Hr as [Hp Hq]. split; [done|].
      intros token Henv Hne.
      apply Hq. subst c; simpl. rewrite (authenticate_token _ token) by done.
      by rewrite lookup_singleton_eq.
    + by apply elem_of_nil in Hin.
Qed.

Lemma reject_keywords_Ok (names : list string) (kw : gmap string pyobj) :
  Forall (fun n => kw !! n = None) names -> reject_keywords names kw = Ok tt.
Proof.
  intros Hn. unfold reject_keywords.
  replace (forallb _ names) with true; [done|].
  symmetry. apply forallb_forall. intros n Hin.
  apply bool_decide_eq_true. rewrite Forall_forall in Hn. apply Hn.
  by apply list_elem_of_In.
Qed.

Lemma reject_keywords_cases (names : list string) (kw : gmap string pyobj) :
  reject_keywords names kw = Ok tt \/
  exists msg, reject_keywords names kw = Raise (TypeError msg).
Proof. unfold reject_keywords. destruct (forallb _ names); eauto. Qed.

Lemma fetch_dict (c : client) url callback (m : gmap string pyobj) kwargs :
  startswith (gitlab_api_url c) url = true ->
  exists options,
    fetch c url callback (PDict m) kwargs =
      Ok {| rq_target := url; rq_query := PDict (auth c ∪ m);
            rq_callback := callback; rq_options := options |}.
Proof.
  intros Hp. unfold fetch. rewrite Hp. cbn [negb].
  destruct (truthy (PDict (auth c))) eqn:Ht; simpl; [eauto|].
  apply truthy_dict_empty in Ht. rewrite Ht, (left_id_L ∅ (∪)). eauto.
Qed.

Lemma fetch_query (c : client) url callback (m : gmap string pyobj) kwargs rq :
  fetch c url callback (PDict m) kwargs = Ok rq ->
  rq_query rq = PDict (auth c ∪ m).
Proof.
  unfold fetch. destruct (startswith _ url) eqn:Hp; cbn [negb]; [|discriminate].
  intros Hb. destruct (fetch_dict c url callback m kwargs Hp) as [options Hf].
  unfold fetch in Hf. rewrite Hp in Hf. cbn [negb] in Hf.
  rewrite Hf in Hb. by injection Hb as <-.
Qed.

(** C10: [get_projects] puts the requested user under [sudo], whatever the
    caller passed: no keyword arguments can make a request leave with
    another [sudo]; and with a parameter mapping [p] passed through as
    [params], the request does go out (its URL being under the API base)
    with [sudo = user]. *)
Theorem get_projects_sets_sudo (environ : gmap string string) (user : string)
    (callback : pyobj) :
  let c := new_client environ in
  (forall kwargs rq, get_projects c user callback kwargs = Ok rq ->
                     query_param rq "sudo" = Some (PStr user)) /\
  (forall p : gmap string pyobj,
      startswith (gitlab_api_url c)
        (url_path_join (gitlab_api_url c) (quote "projects")) = true ->
      exists rq, get_projects c user callback {[ "params" := PDict p ]} = Ok rq /\
                 query_param rq "sudo" = Some (PStr user)).
Proof.
  intros c.
  assert (Hsudo : forall m : gmap string pyobj,
             (auth c ∪ <["sudo" := PStr user]> m) !! "sudo" = Some (PStr user)).
  { intros m. rewrite lookup_union_r.
    - by rewrite lookup_insert_eq.
    - subst c. simpl. by apply authenticate_keys. }
  clearbody c.
  assert (Hsafe : forall kwargs rq, get_projects c user callback kwargs = Ok rq ->
                    query_param rq "sudo" = Some (PStr user)).
  { intros kwargs rq. unfold get_projects. intros Hb. inv_bind Hb.
    unfold py_setitem in Ha. destruct (params_of kwargs); try discriminate.
    injection Ha as <-.
    unfold call_gitlab_api_request in Hb. inv_bind Hb.
    unfold gitlab_api_request, call_fetch in Hb. inv_bind Hb.
    rewrite lookup_insert_eq in Hb. simpl in Hb.
    apply fetch_query in Hb. unfold query_param. rewrite Hb. apply Hsudo. }
  split; [exact Hsafe|].
  intros p Hp.
  assert (Hex : exists rq,
             get_projects c user callback {[ "params" := PDict p ]} = Ok rq).
  { unfold get_projects, params_of. rewrite lookup_singleton_eq. simpl.
    rewrite insert_singleton_eq.
    unfold call_gitlab_api_request.
    rewrite reject_keywords_Ok
      by (repeat constructor; by rewrite lookup_singleton_ne).
    simpl. unfold gitlab_api_request, call_fetch.
    rewrite reject_keywords_Ok
      by (repeat constructor; by rewrite lookup_singleton_ne).
    simpl. rewrite lookup_singleton_eq. simpl.
    destruct (fetch_dict c _ callback (<["sudo" := PStr user]> p)
                (delete "params" {[ "params" := PDict (<["sudo" := PStr user]> p) ]})
                Hp) as [options ->].
    eauto. }
  destruct Hex as [rq Hrq]. exists rq. split; [done|]. by eapply Hsafe.
Qed.

(** C9, what the code does: the call of [get_tree] inside [get_tree_entry]
    passes no [path], so [get_tree_entry] raises [TypeError] and hands nothing
    to the HTTP client, whether the path holds a separator or not. *)
Theorem get_tree_entry_never_requests (c : client) (user repo path : string)
    (ref callback : pyobj) (kwargs : gmap string pyobj) :
  kwargs !! "path" = None ->
  (exists msg,
      get_tree_entry c user repo path ref callback kwargs = Raise (TypeError msg))
  /\ sent (get_tree_entry c user repo path ref callback kwargs) = [].
Proof.
  intros Hk.
  assert (Hr : exists msg, get_tree_entry c user repo path ref callback kwargs
                           = Raise (TypeError msg)).
  { unfold get_tree_entry, call_get_tree.
    match goal with |- context [reject_keywords ?n ?kw] =>
      destruct (reject_keywords_cases n kw) as [-> | [msg ->]] end;
      simpl; [|eauto].
    rewrite !lookup_insert_ne by done.
    destruct (contains_char "/" path).
    - rewrite lookup_insert_ne by done. rewrite Hk. eauto.
    - rewrite Hk. eauto. }
  destruct Hr as [msg Hr]. rewrite Hr. eauto.
Qed.

(** the failing input of C9 *)
Lemma get_tree_entry_nested_path (c : client) :
  get_tree_entry c "u" "r" "docs/a.ipynb" (PStr "master") PNone ∅ =
    Raise (TypeError "get_tree() missing 1 required positional argument: 'path'").
Proof. reflexivity. Qed.

(** X1: a [recursive] keyword that does reach [get_tree] ends among the options
    of the HTTP request, not among the query parameters *)
Lemma recursive_is_no_query_parameter (environ : gmap string string)
    (user repo : string) (path : pyobj) (rq : request) :
  get_tree (new_client environ) user repo path PNone PNone
    {[ "recursive" := PBool true ]} = Ok rq ->
  query_param rq "recursive" = None /\
  rq_options rq !! "recursive" = Some (PBool true).
Proof.
  unfold get_tree, params_of. rewrite lookup_singleton_ne by done. simpl.
  intros Hb. inv_bind Hb.
  assert (Ha' : exists m, a = PDict m /\ m !! "recursive" = None).
  { destruct (truthy path); simpl in Ha; injection Ha as <-; eexists; split;
      done. }
  destruct Ha' as (m & -> & Hm). clear Ha.
  unfold call_fetch in Hb. inv_bind Hb. rewrite lookup_insert_eq in Hb.
  simpl in Hb. unfold fetch in Hb.
  destruct (startswith _ _); simpl in Hb; [|discriminate].
  destruct (negb _) eqn:Ht; simpl in Hb; injection Hb as <-;
    unfold query_param; simpl.
  - split.
    + rewrite lookup_union_r; [done|]. by apply authenticate_keys.
    + unfold setdefault. rewrite delete_insert_eq.
      rewrite delete_singleton_ne by done.
      rewrite lookup_singleton_ne by done.
      rewrite lookup_insert_ne by done. by rewrite lookup_singleton_eq.
  - split; [done|].
    unfold setdefault. rewrite delete_insert_eq.
    rewrite delete_singleton_ne by done.
    rewrite lookup_singleton_ne by done.
    rewrite lookup_insert_ne by done. by rewrite lookup_singleton_eq.
Qed.


(** *** Path resolution *)

Lemma py_eq_str_exact (v : pyobj) (s : string) :
  py_eq_str v s = true <-> v = PStr s.
Proof.
  destruct v; simpl; try (split; [discriminate | intros [=]]).
  rewrite String.eqb_eq. split; [by intros -> | by intros [= ->]].
Qed.

Lemma scan_entries_first (path : string) (before after : list pyobj)
    (entry : pyobj) :
  Forall (other_path path) before ->
  py_getitem entry "path" = Ok (PStr path) ->
  scan_entries path (before ++ entry :: after) = Ok (Some entry).
Proof.
  intros Hb He. induction Hb as [|x before (v & Hv & Hne) _ IH]; simpl.
  - rewrite He. simpl. by rewrite String.eqb_refl.
  - rewrite Hv. simpl. by rewrite Hne.
Qed.

Lemma scan_entries_none (path : string) (entries : list pyobj) :
  Forall (other_path path) entries -> scan_entries path entries = Ok None.
Proof.
  induction 1 as [|x entries (v & Hv & Hne) _ IH]; simpl; [done|].
  rewrite Hv. simpl. by rewrite Hne.
Qed.

Lemma scan_entries_found (path : string) (entries : list pyobj) (entry : pyobj) :
  scan_entries path entries = Ok (Some entry) ->
  entry ∈ entries /\ py_getitem entry "path" = Ok (PStr path).
Proof.
  induction entries as [|x entries IH]; simpl; [discriminate|].
  intros Hb. inv_bind Hb. destruct (py_eq_str a path) eqn:Heq.
  - injection Hb as <-. apply py_eq_str_exact in Heq as ->.
    split; [apply list_elem_of_here | done].
  - destruct (IH Hb). split; [by apply list_elem_of_further | done].
Qed.

Lemma extract_listing (path : string) (r : response) (entries : list pyobj) :
  resp_error r = None ->
  json_loads (response_text r) = Ok (PList entries) ->
  _extract_tree_entry path r =
    found ← scan_entries path entries;
    match found with
    | Some entry => Ok entry
    | None => Raise (TypeError "list indices must be integers or slices, not str")
    end.
Proof.
  intros He Hj. unfold _extract_tree_entry, rethrow. rewrite He. simpl.
  rewrite Hj. simpl. by destruct (scan_entries path entries) as [[?|]|].
Qed.

(** C2: on a listing, the lookup returns the first entry, in listing order,
    whose [path] is exactly the target: every entry before it has another
    path.  The result is a function of the target and the listing, so a
    repeated lookup gives the same entry. *)
Theorem extract_returns_first_match (path : string) (r : response)
    (before after : list pyobj) (entry : pyobj) :
  resp_error r = None ->
  json_loads (response_text r) = Ok (PList (before ++ entry :: after)) ->
  Forall (other_path path) before ->
  py_getitem entry "path" = Ok (PStr path) ->
  _extract_tree_entry path r = Ok entry.
Proof.
  intros He Hj Hb Hp. rewrite (extract_listing path r _ He Hj).
  by rewrite scan_entries_first.
Qed.

(** X2: whatever the lookup returns is an entry of the listing with exactly the
    target as its path: no default, no normalised or case-folded match *)
Lemma extract_returns_exact (path : string) (r : response)
    (entries : list pyobj) (entry : pyobj) :
  resp_error r = None ->
  json_loads (response_text r) = Ok (PList entries) ->
  _extract_tree_entry path r = Ok entry ->
  entry ∈ entries /\ py_getitem entry "path" = Ok (PStr path).
Proof.
  intros He Hj. rewrite (extract_listing path r _ He Hj). intros Hb.
  inv_bind Hb. destruct a as [e|]; [|discriminate]. injection Hb as ->.
  by apply scan_entries_found.
Qed.

(** C3, what the code does: on a listing with no entry for the target the
    loop runs to its end and the message of the 404 is built from
    [data['tree']], which a list does not support: the lookup raises
    [TypeError], not the 404 its docstring promises. *)
Theorem extract_absent_raises_type_error (path : string) (r : response)
    (entries : list pyobj) :
  resp_error r = None ->
  json_loads (response_text r) = Ok (PList entries) ->
  Forall (other_path path) entries ->
  _extract_tree_entry path r =
    Raise (TypeError "list indices must be integers or slices, not str").
Proof.
  intros He Hj Hn. rewrite (extract_listing path r _ He Hj).
  by rewrite scan_entries_none.
Qed.

Lemma scan_entries_no_http_error (path : string) (entries : list pyobj)
    (code : Z) (msg : string) :
  scan_entries path entries <> Raise (HTTPError code msg).
Proof.
  induction entries as [|x entries IH]; simpl; [done|].
  destruct (py_getitem x "path") as [v|e] eqn:Hv; simpl.
  - by destruct (py_eq_str v path).
  - destruct x; simpl in Hv; try (injection Hv as <-; discriminate).
    destruct (d !! "path"); [discriminate|]. injection Hv as <-. discriminate.
Qed.

(** the 404 of [_extract_tree_entry] is out of reach: an [HTTPError] that
    leaves it was raised by [json.loads], whatever the parsed data are *)
Lemma extract_404_unreachable (path : string) (r : response) (code : Z)
    (msg : string) :
  resp_error r = None ->
  _extract_tree_entry path r = Raise (HTTPError code msg) ->
  json_loads (response_text r) = Raise (HTTPError code msg).
Proof.
  intros He. unfold _extract_tree_entry, rethrow. rewrite He. simpl.
  destruct (json_loads (response_text r)) as [data|e]; simpl; [|done].
  intros Hx. exfalso.
  destruct (py_iter data) as [entries|e] eqn:Hi; simpl in Hx.
  - destruct (scan_entries path entries) as [[entry|]|e] eqn:Hs; simpl in Hx;
      [discriminate| |].
    + destruct data; simpl in Hi, Hx; try discriminate.
      injection Hi as <-.
      destruct (map_to_list d) as [|[k v] kvs] eqn:Hd.
      * apply map_to_list_empty_iff in Hd as ->.
        rewrite lookup_empty in Hx. discriminate.
      * simpl in Hs. discriminate.
    + injection Hx as ->. by eapply scan_entries_no_http_error.
  - destruct data; simpl in Hi; try discriminate; injection Hi as <-;
      discriminate.
Qed.

(** *** The request that leaves *)

Lemma authenticate_cases (environ : gmap string string) :
  authenticate environ =
    if String.eqb (configured_token environ) "" then ∅
    else {[ "private_token" := PStr (configured_token environ) ]}.
Proof.
  unfold authenticate, configured_token.
  destruct (String.eqb (environ_get environ "GITLAB_API_TOKEN") "") eqn:Ht.
  - apply map_filter_singleton_False. simpl. rewrite Ht. discriminate.
  - apply map_filter_singleton_True. simpl. by rewrite Ht.
Qed.

Lemma fetch_Ok (c : client) url callback params kwargs rq :
  fetch c url callback params kwargs = Ok rq ->
  startswith (gitlab_api_url c) url = true /\
  rq_target rq = url /\ rq_callback rq = callback /\
  rq_options rq = setdefault "user_agent" (PStr "Tornado-Async-GitLab-Client") kwargs /\
  (if truthy (PDict (auth c)) then py_update (params_or_empty params) (auth c)
   else Ok (params_or_empty params)) = Ok (rq_query rq).
Proof.
  unfold fetch. destruct (startswith _ url) eqn:Hp; cbn [negb]; [|discriminate].
  fold (params_or_empty params).
  intros Hb. inv_bind Hb. injection Hb as <-. by rewrite Ha.
Qed.

Lemma call_fetch_Ok (c : client) url callback kw rq :
  call_fetch c url callback kw = Ok rq ->
  fetch c url callback (default PNone (kw !! "params")) (delete "params" kw) = Ok rq.
Proof. unfold call_fetch. intros Hb. by inv_bind Hb. Qed.

Lemma call_gitlab_api_request_Ok (c : client) path callback kw rq :
  call_gitlab_api_request c path callback kw = Ok rq ->
  call_fetch c (url_path_join (gitlab_api_url c) (quote path)) callback kw = Ok rq.
Proof. unfold call_gitlab_api_request. intros Hb. by inv_bind Hb. Qed.

Lemma py_setitem_Ok (v : pyobj) (k : string) (x r : pyobj) :
  py_setitem v k x = Ok r -> exists d, v = PDict d /\ r = PDict (<[k := x]> d).
Proof. destruct v; simpl; try discriminate. intros [= <-]. eauto. Qed.

Lemma py_setitem_cases (v : pyobj) (k : string) (x : pyobj) :
  (exists r, py_setitem v k x = Ok r) \/
  (exists msg, py_setitem v k x = Raise (TypeError msg)).
Proof. destruct v; simpl; eauto. Qed.

(** the query of a request made with a parameter mapping: the mapping, with
    the configured token on top *)
Lemma call_fetch_query (environ : gmap string string) url callback kw
    (m : gmap string pyobj) rq :
  kw !! "params" = Some (PDict m) ->
  call_fetch (new_client environ) url callback kw = Ok rq ->
  rq_target rq = url /\ rq_callback rq = callback /\
  forall k, query_param rq k =
            if String.eqb k "private_token" && negb (String.eqb (configured_token environ) "")
            then Some (PStr (configured_token environ)) else m !! k.
Proof.
  intros Hm Hc. apply call_fetch_Ok in Hc. rewrite Hm in Hc. simpl in Hc.
  pose proof (fetch_query _ _ _ _ _ _ Hc) as Hq.
  apply fetch_Ok in Hc as (_ & Ht & Hcb & _ & _).
  split; [done|]. split; [done|]. intros k.
  unfold query_param. rewrite Hq. simpl.
  destruct (String.eqb k "private_token") eqn:Hk; simpl.
  - apply String.eqb_eq in Hk as ->. rewrite authenticate_cases.
    destruct (String.eqb (configured_token environ) ""); simpl.
    + by rewrite (left_id_L ∅ (∪)).
    + apply lookup_union_Some_l. by rewrite lookup_singleton_eq.
  - apply String.eqb_neq in Hk. rewrite lookup_union_r; [done|].
    by apply authenticate_keys.
Qed.

(** X3: [fetch] sends the caller's parameters and adds nothing but the token:
    [private_token] is set to the configured token, over any value the
    caller gave; with no token configured the parameters leave as they
    came. *)
Theorem fetch_adds_only_the_token (environ : gmap string string) (url : string)
    (callback : pyobj) (m kwargs : gmap string pyobj) (rq : request) :
  fetch (new_client environ) url callback (PDict m) kwargs = Ok rq ->
  rq_query rq =
    PDict (if String.eqb (configured_token environ) "" then m
           else <["private_token" := PStr (configured_token environ)]> m).
Proof.
  intros Hf. apply fetch_query in Hf. rewrite Hf. simpl.
  rewrite authenticate_cases.
  destruct (String.eqb (configured_token environ) "").
  - by rewrite (left_id_L ∅ (∪)).
  - by rewrite insert_union_singleton_l.
Qed.

(** X4: With a token configured, parameters that are not a mapping (a list
    of pairs, say) are refused: [fetch] updates the parameters in place with
    the token, which only a mapping supports, so it raises [AttributeError]
    and sends nothing. *)
Theorem fetch_of_parameters_not_a_mapping (environ : gmap string string)
    (url : string) (callback params : pyobj) (kwargs : gmap string pyobj) :
  configured_token environ <> "" ->
  startswith (gitlab_api_url (new_client environ)) url = true ->
  params <> PNone -> (forall m, params <> PDict m) ->
  (exists msg, fetch (new_client environ) url callback params kwargs
               = Raise (AttributeError msg)) /\
  sent (fetch (new_client environ) url callback params kwargs) = [].
Proof.
  intros Ht Hp Hn Hd. unfold fetch. rewrite Hp. cbn [negb].
  cbn [auth new_client]. rewrite authenticate_cases.
  apply String.eqb_neq in Ht. rewrite Ht.
  replace (truthy (PDict {[ "private_token" := PStr (configured_token environ) ]}))
    with true.
  2:{ symmetry. simpl. apply negb_true_iff, bool_decide_eq_false.
      rewrite dom_singleton_L. apply non_empty_singleton_L. }
  destruct params; try done; simpl; eauto. by destruct (Hd d).
Qed.

Lemma fetch_user_agent (c : client) url callback params kwargs rq :
  fetch c url callback params kwargs = Ok rq ->
  rq_options rq !! "user_agent" =
    Some (default (PStr "Tornado-Async-GitLab-Client") (kwargs !! "user_agent")).
Proof.
  intros Hf. apply fetch_Ok in Hf as (_ & _ & _ & -> & _).
  unfold setdefault. destruct (kwargs !! "user_agent") as [v|] eqn:Hk; simpl.
  - done.
  - by rewrite lookup_insert_eq.
Qed.

Lemma call_fetch_user_agent (c : client) url callback kw rq :
  call_fetch c url callback kw = Ok rq ->
  rq_options rq !! "user_agent" =
    Some (default (PStr "Tornado-Async-GitLab-Client") (kw !! "user_agent")).
Proof.
  intros Hc. apply call_fetch_Ok, fetch_user_agent in Hc.
  by rewrite lookup_delete_ne in Hc.
Qed.

Lemma get_tree_user_agent (c : client) user repo path ref callback kwargs rq :
  get_tree c user repo path ref callback kwargs = Ok rq ->
  rq_options rq !! "user_agent" =
    Some (default (PStr "Tornado-Async-GitLab-Client") (kwargs !! "user_agent")).
Proof.
  unfold get_tree. intros Hb. do 2 inv_bind Hb.
  apply call_fetch_user_agent in Hb. by rewrite lookup_insert_ne in Hb.
Qed.

(** X5: Every request the client hands to the HTTP client names a user agent:
    the caller's own [user_agent] keyword when the call was given one, the
    client's ["Tornado-Async-GitLab-Client"] otherwise. *)
Theorem every_request_names_a_user_agent (c : client) (call : api_call)
    (rq : request) :
  run_call c call = Ok rq ->
  rq_options rq !! "user_agent" =
    Some (default (PStr "Tornado-Async-GitLab-Client")
            (call_kwargs call !! "user_agent")).
Proof.
  destruct call; simpl.
  - apply fetch_user_agent.
  - apply call_fetch_user_agent.
  - unfold get_projects. intros Hb. inv_bind Hb.
    apply call_gitlab_api_request_Ok, call_fetch_user_agent in Hb.
    by rewrite lookup_insert_ne in Hb.
  - unfold get_file. intros Hb. do 2 inv_bind Hb.
    apply call_fetch_user_agent in Hb. by rewrite lookup_insert_ne in Hb.
  - unfold get_contents. intros Hb. inv_bind Hb.
    apply call_gitlab_api_request_Ok, call_fetch_user_agent in Hb.
    destruct ref; try (inv_bind Ha; injection Ha as <-;
                       by rewrite lookup_insert_ne in Hb).
    by injection Ha as <-.
  - apply get_tree_user_agent.
  - unfold get_tree_entry, call_get_tree. intros Hb. inv_bind Hb.
    destruct (_ !! "path"); [|discriminate].
    apply get_tree_user_agent in Hb.
    rewrite !lookup_delete_ne, !lookup_insert_ne in Hb by done.
    destruct (contains_char "/" path); [|done].
    by rewrite lookup_insert_ne in Hb.
Qed.

Lemma call_fetch_refuses_url (c : client) url callback kw :
  is_Some (kw !! "url") ->
  exists msg, call_fetch c url callback kw = Raise (TypeError msg).
Proof.
  intros [v Hv]. unfold call_fetch, reject_keywords. simpl.
  rewrite Hv. rewrite (bool_decide_eq_false_2 (Some v = None)) by done.
  simpl. rewrite andb_false_r. simpl. eauto.
Qed.

Lemma api_request_refuses_url (c : client) path callback kw :
  is_Some (kw !! "url") ->
  exists msg, call_gitlab_api_request c path callback kw = Raise (TypeError msg).
Proof.
  intros Hu. unfold call_gitlab_api_request.
  destruct (reject_keywords_cases ["self"; "path"; "callback"] kw) as [-> | [msg ->]];
    simpl; [|eauto].
  by apply call_fetch_refuses_url.
Qed.

Lemma get_tree_refuses_url (c : client) user repo path ref callback kwargs :
  is_Some (kwargs !! "url") ->
  exists msg, get_tree c user repo path ref callback kwargs = Raise (TypeError msg).
Proof.
  intros Hu. unfold get_tree.
  assert (Hstep : forall (cond : bool) p k x,
            (exists r, (if cond then py_setitem p k x else Ok p) = Ok r) \/
            (exists msg, (if cond then py_setitem p k x else Ok p)
                         = Raise (TypeError msg))).
  { intros [] p k x; [apply py_setitem_cases | eauto]. }
  destruct (Hstep (truthy path) (params_of kwargs) "path" path)
    as [[p1 ->] | [msg ->]]; simpl; [|eauto].
  destruct (Hstep (truthy ref) p1 "ref_name" ref) as [[p2 ->] | [msg ->]];
    simpl; [|eauto].
  apply call_fetch_refuses_url. by rewrite lookup_insert_ne.
Qed.

(** X6: A keyword argument named [url] never reaches the HTTP client: a call of
    one of the request methods that is given one raises [TypeError] and
    sends nothing, since the keywords are passed on to [fetch], whose first
    parameter has that name. *)
Theorem a_url_keyword_is_refused (c : client) (call : api_call) :
  direct_fetch call = false ->
  is_Some (call_kwargs call !! "url") ->
  (exists msg, run_call c call = Raise (TypeError msg)) /\
  sent (run_call c call) = [].
Proof.
  intros Hd Hu.
  assert (Hr : exists msg, run_call c call = Raise (TypeError msg)).
  { destruct call; simpl in *; try discriminate.
    - by apply call_fetch_refuses_url.
    - unfold get_projects.
      destruct (py_setitem_cases (params_of kwargs) "sudo" (PStr user))
        as [[p ->] | [msg ->]]; simpl; [|eauto].
      apply api_request_refuses_url. by rewrite lookup_insert_ne.
    - unfold get_file.
      destruct (py_setitem_cases (params_of kwargs) "ref" ref)
        as [[p ->] | [msg ->]]; simpl; [|eauto].
      destruct (py_setitem_cases p "file_path" (PStr path))
        as [[p' ->] | [msg ->]]; simpl; [|eauto].
      apply call_fetch_refuses_url. by rewrite lookup_insert_ne.
    - unfold get_contents.
      destruct ref; cbv iota;
        try (match goal with |- context [py_setitem ?p ?k ?x] =>
               destruct (py_setitem_cases p k x) as [[q ->] | [msg ->]] end;
             simpl; [|by eauto]);
        apply api_request_refuses_url; by rewrite ?lookup_insert_ne.
    - by apply get_tree_refuses_url.
    - unfold get_tree_entry, call_get_tree.
      match goal with |- context [reject_keywords ?n ?kw] =>
        destruct (reject_keywords_cases n kw) as [-> | [msg ->]] end;
        simpl; [|eauto].
      destruct (_ !! "path"); [|eauto].
      apply get_tree_refuses_url.
      rewrite !lookup_delete_ne, !lookup_insert_ne by done.
      destruct (contains_char "/" path); [|done].
      by rewrite lookup_insert_ne. }
  destruct Hr as [msg Hr]. rewrite Hr. eauto.
Qed.

Lemma params_of_absent (kwargs : gmap string pyobj) :
  kwargs !! "params" = None -> params_of kwargs = PDict ∅.
Proof. intros Hk. unfold params_of. by rewrite Hk. Qed.

(** X7: The request of [get_file]: the repository files endpoint of the
    project, named as [user%2Frepo] and joined to the API base without
    further quoting, with the path of the file under [file_path], as it was
    given, and the ref under [ref], also when it is [None]. *)
Theorem get_file_names_the_file (environ : gmap string string)
    (user repo path : string) (callback ref : pyobj)
    (kwargs : gmap string pyobj) (rq : request) :
  get_file (new_client environ) user repo path callback ref kwargs = Ok rq ->
  rq_target rq =
    url_path_join (gitlab_api_url (new_client environ))
      ("projects/" +:+ user +:+ "%2F" +:+ repo +:+ "/repository/files") /\
  rq_callback rq = callback /\
  query_param rq "file_path" = Some (PStr path) /\
  query_param rq "ref" = Some ref.
Proof.
  unfold get_file. intros Hb. do 2 inv_bind Hb.
  apply py_setitem_Ok in Ha as (d & _ & ->).
  apply py_setitem_Ok in Ha0 as (d' & [= <-] & ->).
  eapply call_fetch_query in Hb as (Ht & Hcb & Hq);
    [|by rewrite lookup_insert_eq].
  split; [done|]. split; [done|]. rewrite !Hq. simpl.
  rewrite lookup_insert_eq, lookup_insert_ne, lookup_insert_eq by done. done.
Qed.

(** X8: The request of [get_tree], made without parameters of the caller's own:
    the path is sent under [path] and the ref under [ref_name] only when
    they are true values; an empty string or [None] is left out, not sent
    empty. *)
Theorem get_tree_leaves_out_empty_values (environ : gmap string string)
    (user repo : string) (path ref callback : pyobj)
    (kwargs : gmap string pyobj) (rq : request) :
  kwargs !! "params" = None ->
  get_tree (new_client environ) user repo path ref callback kwargs = Ok rq ->
  rq_target rq =
    url_path_join (gitlab_api_url (new_client environ))
      ("projects/" +:+ user +:+ "%2F" +:+ repo +:+ "/repository/tree") /\
  query_param rq "path" = (if truthy path then Some path else None) /\
  query_param rq "ref_name" = (if truthy ref then Some ref else None).
Proof.
  intros Hk. unfold get_tree. rewrite (params_of_absent kwargs Hk).
  intros Hb. do 2 inv_bind Hb.
  assert (Ha' : a = PDict (if truthy path then {[ "path" := path ]} else ∅)).
  { destruct (truthy path); simpl in Ha; by injection Ha as <-. }
  subst a.
  assert (Ha' : a0 = PDict ((if truthy ref then <["ref_name" := ref]> else id)
                              (if truthy path then {[ "path" := path ]} else ∅))).
  { destruct (truthy ref); simpl in Ha0; by injection Ha0 as <-. }
  subst a0. clear Ha Ha0.
  eapply call_fetch_query in Hb as (Ht & _ & Hq);
    [|by rewrite lookup_insert_eq].
  split; [done|]. rewrite !Hq. simpl.
  destruct (truthy path), (truthy ref); simpl;
    rewrite ?lookup_insert_eq, ?lookup_insert_ne, ?lookup_singleton_eq,
      ?lookup_singleton_ne, ?lookup_empty by done; done.
Qed.

(** X9: The request of [get_contents], made without parameters of the caller's
    own: the quoted path [repos/user/repo/contents/path] under the API base,
    with the ref under [ref] whenever it is not [None], an empty one
    included. *)
Theorem get_contents_sends_any_ref_but_none (environ : gmap string string)
    (user repo path : string) (callback ref : pyobj)
    (kwargs : gmap string pyobj) (rq : request) :
  kwargs !! "params" = None ->
  get_contents (new_client environ) user repo path callback ref kwargs = Ok rq ->
  rq_target rq =
    url_path_join (gitlab_api_url (new_client environ))
      (quote ("repos/" +:+ user +:+ "/" +:+ repo +:+ "/contents/" +:+ path)) /\
  rq_callback rq = callback /\
  query_param rq "ref" = match ref with PNone => None | _ => Some ref end /\
  query_param rq "path" = None.
Proof.
  intros Hk. unfold get_contents. rewrite (params_of_absent kwargs Hk).
  intros Hb. inv_bind Hb. apply call_gitlab_api_request_Ok in Hb.
  apply call_fetch_Ok in Hb.
  assert (Hp : default PNone (a !! "params") =
               match ref with PNone => PNone | _ => PDict {[ "ref" := ref ]} end).
  { destruct ref; simpl in Ha; injection Ha as <-;
      rewrite ?lookup_insert_eq, ?Hk; done. }
  rewrite Hp in Hb. clear Hp Ha.
  pose proof (fetch_Ok _ _ _ _ _ _ Hb) as (_ & Ht & Hcb & _ & _).
  split; [done|]. split; [done|].
  assert (Hq : rq_query rq =
               PDict (auth (new_client environ) ∪
                      match ref with PNone => ∅ | _ => {[ "ref" := ref ]} end)).
  { destruct ref; by apply fetch_query in Hb. }
  unfold query_param. rewrite Hq. simpl.
  rewrite !lookup_union_r by (by apply authenticate_keys).
  destruct ref; simpl;
    rewrite ?lookup_singleton_eq, ?lookup_singleton_ne, ?lookup_empty by done; done.
Qed.

(** X10: An API request: the quoted path under the API base, with the caller's
    callback; every keyword but [params] reaches the HTTP client as an
    option, unchanged when it is not the user agent, and [params] never
    does. *)
Theorem an_api_request_passes_the_keywords_on (c : client) (path : string)
    (callback : pyobj) (kwargs : gmap string pyobj) (rq : request) :
  gitlab_api_request c path callback kwargs = Ok rq ->
  rq_target rq = url_path_join (gitlab_api_url c) (quote path) /\
  rq_callback rq = callback /\
  rq_options rq !! "params" = None /\
  forall k, k <> "params" -> k <> "user_agent" ->
            rq_options rq !! k = kwargs !! k.
Proof.
  unfold gitlab_api_request. intros Hc.
  apply call_fetch_Ok, fetch_Ok in Hc as (_ & Ht & Hcb & Ho & _).
  split; [done|]. split; [done|]. rewrite Ho. unfold setdefault.
  destruct (delete "params" kwargs !! "user_agent") eqn:Hua; split.
  - by rewrite lookup_delete_eq.
  - intros k Hk _. by rewrite lookup_delete_ne.
  - rewrite lookup_insert_ne by done. by rewrite lookup_delete_eq.
  - intros k Hk Hu. rewrite lookup_insert_ne by done. by rewrite lookup_delete_ne.
Qed.

(** X11: An [HTTPError] that leaves [_extract_tree_entry] is the error of the
    response itself, or was raised by [json.loads]: the 404 for a path that
    is not listed is never raised, whatever the response holds. *)
Theorem an_http_error_is_never_the_404 (path : string) (r : response)
    (code : Z) (msg : string) :
  _extract_tree_entry path r = Raise (HTTPError code msg) ->
  resp_error r = Some (HTTPError code msg) \/
  json_loads (response_text r) = Raise (HTTPError code msg).
Proof.
  destruct (resp_error r) as [e|] eqn:He.
  - unfold _extract_tree_entry, rethrow. rewrite He. simpl. intros [= ->]. by left.
  - intros Hx. right. by apply (extract_404_unreachable path).
Qed.

End ClientFacts.

(** ** handlers.py: the content classifier *)

Section ClassifierFacts.
Context `{Utils}.

Lemma entry_for_Ok (user repo ref : string) (file : pyobj) :
  listing_entry file -> exists ce, entry_for user repo ref file = Ok ce.
Proof.
  intros (d & name & -> & Hn & [ty Ht] & [p Hp] & [u Hu]).
  unfold entry_for. simpl. rewrite Hn, Ht. simpl.
  destruct (py_eq_str ty "dir"); rewrite ?Hp; simpl; [eauto|].
  destruct (endswith ".ipynb" name); rewrite ?Hp, ?Hu; simpl; [eauto|].
  destruct (truthy u); eauto.
Qed.


Lemma group_cons (c : category) (ce : category * entry)
    (tagged : list (category * entry)) :
  group c (ce :: tagged) =
    (if decide (ce.1 = c) then [ce.2] else []) ++ group c tagged.
Proof. unfold group. rewrite filter_cons. by destruct (decide (ce.1 = c)). Qed.


Lemma groups_permutation (tagged : list (category * entry)) :
  group Dir tagged ++ group Ipynb tagged ++ group Other tagged ≡ₚ tagged.*2.
Proof.
  induction tagged as [|[c e] tagged IH]; [done|].
  rewrite !group_cons. destruct c; simpl.
  - by rewrite IH.
  - rewrite <- IH. symmetry. apply Permutation_middle.
  - rewrite <- IH. rewrite !app_assoc. symmetry. apply Permutation_middle.
Qed.

(** the category is decided by the type first, then by the name *)
Lemma entry_for_category (user repo ref : string) (d : gmap string pyobj)
    (name : string) (type : pyobj) (c : category) (e : entry) :
  d !! "name" = Some (PStr name) -> d !! "type" = Some type ->
  entry_for user repo ref (PDict d) = Ok (c, e) ->
  c = (if py_eq_str type "dir" then Dir
       else if endswith ".ipynb" name then Ipynb else Other).
Proof.
  intros Hn Ht. unfold entry_for. simpl. rewrite Hn, Ht. simpl.
  destruct (py_eq_str type "dir").
  - intros Hb. inv_bind Hb. by injection Hb as <- _.
  - destruct (endswith ".ipynb" name).
    + intros Hb. inv_bind Hb. by injection Hb as <- _.
    + intros Hb. inv_bind Hb. destruct (truthy a); by injection Hb as <- _.
Qed.

(** C7, what the code does: the entry made for a file of the listing.  The
    links of directories and notebooks are built under [/github/], the routes
    of the GitHub provider, and quoted; the others carry the upstream display
    URL, or the empty string when it is missing or empty. *)
Theorem entry_for_links (user repo ref : string) (d : gmap string pyobj)
    (name path : string) (type html_url : pyobj) :
  d !! "name" = Some (PStr name) -> d !! "type" = Some type ->
  d !! "path" = Some (PStr path) -> d !! "html_url" = Some html_url ->
  entry_for user repo ref (PDict d) =
    Ok (if py_eq_str type "dir" then
          (Dir, {| e_name := PStr name;
                   e_url := PStr (quote ("/github/" +:+ user +:+ "/" +:+ repo
                                         +:+ "/tree/" +:+ ref +:+ "/" +:+ path));
                   e_class := "fa-folder-open" |})
        else if endswith ".ipynb" name then
          (Ipynb, {| e_name := PStr name;
                     e_url := PStr (quote ("/github/" +:+ user +:+ "/" +:+ repo
                                           +:+ "/blob/" +:+ ref +:+ "/" +:+ path));
                     e_class := "fa-book" |})
        else if truthy html_url then
          (Other, {| e_name := PStr name; e_url := html_url; e_class := "fa-share" |})
        else
          (Other, {| e_name := PStr name; e_url := PStr "";
                     e_class := "fa-folder-close" |})).
Proof.
  intros Hn Ht Hp Hu. unfold entry_for. simpl. rewrite Hn, Ht. simpl.
  destruct (py_eq_str type "dir"); rewrite ?Hp; simpl; [done|].
  destruct (endswith ".ipynb" name); rewrite ?Hp, ?Hu; simpl; [done|].
  by destruct (truthy html_url).
Qed.

(** *** Whatever the listing holds *)

Lemma classify_loop_inv (user repo ref : string) (contents : list pyobj)
    (g0 g : groups) :
  classify_loop user repo ref contents g0 = Ok g ->
  exists tagged,
    Forall2 (fun file ce => entry_for user repo ref file = Ok ce) contents tagged /\
    g = {| dirs := dirs g0 ++ group Dir tagged;
           ipynbs := ipynbs g0 ++ group Ipynb tagged;
           others := others g0 ++ group Other tagged |}.
Proof.
  revert g0. induction contents as [|file contents IH]; intros g0; simpl.
  - intros [= <-]. exists []. split; [constructor|].
    unfold group. simpl. rewrite !app_nil_r. by destruct g0.
  - intros Hb. inv_bind Hb. destruct a as [c e].
    apply IH in Hb as (tagged & Hall & ->).
    exists ((c, e) :: tagged). split; [by constructor|].
    rewrite !group_cons. destruct c; simpl; by rewrite <- ?app_assoc.
Qed.

(** the class of an entry follows its category; an entry without a link is
    one of the others, marked as a closed folder *)
Lemma entry_for_class (user repo ref : string) (file : pyobj) (c : category)
    (e : entry) :
  entry_for user repo ref file = Ok (c, e) ->
  match c with
  | Dir => e_class e = "fa-folder-open"
  | Ipynb => e_class e = "fa-book"
  | Other => (e_class e = "fa-share" /\ truthy (e_url e) = true) \/
             (e_class e = "fa-folder-close" /\ e_url e = PStr "")
  end.
Proof.
  unfold entry_for. intros Hb. do 2 inv_bind Hb.
  destruct (py_eq_str a0 "dir").
  - inv_bind Hb. by injection Hb as <- <-.
  - inv_bind Hb. destruct a1.
    + inv_bind Hb. by injection Hb as <- <-.
    + inv_bind Hb. destruct (truthy a1) eqn:Hu; injection Hb as <- <-; simpl; auto.
Qed.

Lemma group_class (user repo ref : string) (contents : list pyobj)
    (tagged : list (category * entry)) (c : category) (P : entry -> Prop) :
  Forall2 (fun file ce => entry_for user repo ref file = Ok ce) contents tagged ->
  (forall file e, entry_for user repo ref file = Ok (c, e) -> P e) ->
  Forall P (group c tagged).
Proof.
  intros Hall HP. induction Hall as [|file [c' e] contents tagged Hce _ IH].
  - constructor.
  - rewrite group_cons. simpl. destruct (decide (c' = c)) as [->|]; simpl; [|done].
    constructor; [by eapply HP | done].
Qed.

(** X12: Whenever the classifier returns, whatever the listing holds: the
    displayed list has one entry for each file of the listing; the entries
    of the first group are marked as open folders and those of the second as
    notebooks; and an entry of the third group either carries a link and the
    share mark, or no link and the mark of a closed folder. *)
Theorem classify_marks_every_file (user repo ref : string)
    (contents : list pyobj) (g : groups) :
  classify user repo ref contents = Ok g ->
  length (entries_of g) = length contents /\
  Forall (fun e => e_class e = "fa-folder-open") (dirs g) /\
  Forall (fun e => e_class e = "fa-book") (ipynbs g) /\
  Forall (fun e => (e_class e = "fa-share" /\ truthy (e_url e) = true) \/
                   (e_class e = "fa-folder-close" /\ e_url e = PStr ""))
    (others g).
Proof.
  unfold classify. intros Hc.
  apply classify_loop_inv in Hc as (tagged & Hall & ->). simpl.
  split; [|split; [|split]].
  - unfold entries_of. simpl. rewrite <- app_assoc.
    rewrite (groups_permutation tagged), length_fmap.
    symmetry. by eapply Forall2_length.
  - eapply group_class; [done|]. intros file e He.
    exact (entry_for_class _ _ _ _ _ _ He).
  - eapply group_class; [done|]. intros file e He.
    exact (entry_for_class _ _ _ _ _ _ He).
  - eapply group_class; [done|]. intros file e He.
    exact (entry_for_class _ _ _ _ _ _ He).
Qed.

Lemma classify_loop_raises (user repo ref : string) (before after : list pyobj)
    (bad : pyobj) (e : exn) (g : groups) :
  Forall listing_entry before ->
  entry_for user repo ref bad = Raise e ->
  classify_loop user repo ref (before ++ bad :: after) g = Raise e.
Proof.
  intros Hb Hbad. revert g. induction Hb as [|file before Hf _ IH]; intros g; simpl.
  - by rewrite Hbad.
  - destruct (entry_for_Ok user repo ref file Hf) as [[c en] ->]. simpl. apply IH.
Qed.

(** X13: A file that is neither a directory nor a notebook and has no [html_url]
    key makes the whole listing fail with [KeyError]: the branch for entries
    without a link is taken for an [html_url] that is there and empty, not
    for one that is missing. *)
Theorem a_file_without_html_url_fails_the_listing (user repo ref : string)
    (before after : list pyobj) (d : gmap string pyobj) (name : string)
    (type : pyobj) :
  Forall listing_entry before ->
  d !! "name" = Some (PStr name) -> d !! "type" = Some type ->
  py_eq_str type "dir" = false -> endswith ".ipynb" name = false ->
  d !! "html_url" = None ->
  classify user repo ref (before ++ PDict d :: after) = Raise (KeyError "html_url").
Proof.
  intros Hb Hn Ht Hdir Hnb Hu. apply classify_loop_raises; [done|].
  unfold entry_for. simpl. rewrite Hn, Ht. simpl. rewrite Hdir, Hnb, Hu. done.
Qed.

(** *** The three groups and the listing *)






End ClassifierFacts.

(** ** handlers.py: the tree handler *)

Section TreeHandlerFacts.
Context `{Utils} `{Web}.

Lemma client_has_no_get_branches :
  client_getattr "get_branches" =
    Raise (AttributeError
             "'AsyncGitLabClient' object has no attribute 'get_branches'").
Proof. reflexivity. Qed.

Lemma with_catch_raise {A} (e : exn) (k : string -> result A) :
  with_catch (Raise e ≫= k) =
    match catch_client_error e with
    | Some e' => Raise e'
    | None => Ok None
    end.
Proof. reflexivity. Qed.

(** [refs] asks the client for [get_branches], which it does not have *)
Lemma refs_raises (user repo : string) : exists e, refs user repo = Raise e.
Proof.
  unfold refs. cbn [refs_loop].
  change ("get_" +:+ "branches") with "get_branches".
  rewrite client_has_no_get_branches.
  rewrite (with_catch_raise (A := response)).
  destruct (catch_client_error _) as [e'|]; simpl; eauto.
Qed.

(** C6, what the code does: a request either lacks the trailing slash and is
    redirected to the same URI with the slash, or ends with an exception: the
    redirect to the blob route, and the tree view, are never reached. *)
Theorem tree_get_never_reaches_blob (h : handler) (user repo ref path : string) :
  tree_get h user repo ref path = Redirect (request_uri h +:+ "/") \/
  exists e, tree_get h user repo ref path = Raised e.
Proof.
  unfold tree_get. destruct (endswith "/" (request_uri h)); simpl; [|by left].
  right. destruct (refs_raises user repo) as [e He].
  destruct (with_catch _) as [response|e1]; simpl; [|eauto].
  destruct (local "response" response) as [resp|e2]; simpl; [|eauto].
  destruct (json_loads (response_text resp)) as [contents|e3]; simpl; [|eauto].
  rewrite He. simpl. eauto.
Qed.

(** the redirect the handler aims at leads to the GitHub provider *)
Lemma blob_redirect_is_github (h : handler) (user repo ref path : string) :
  blob_redirect h user repo ref path =
    format_prefix h +:+ "/github/" +:+ user +:+ "/" +:+ repo +:+ "/blob/"
    +:+ ref +:+ "/" +:+ path.
Proof. reflexivity. Qed.

(** X14: [refs] never returns: it asks the client for [get_branches], which the
    client does not have, and raises what the error boundary makes of the
    [AttributeError]; when the boundary swallows it, the response that was
    never assigned is read and [UnboundLocalError] is raised. *)
Theorem refs_always_raises (user repo : string) :
  refs user repo =
    Raise (match catch_client_error
                   (AttributeError
                      "'AsyncGitLabClient' object has no attribute 'get_branches'")
           with
           | Some e' => e'
           | None => UnboundLocalError "response"
           end).
Proof.
  unfold refs. cbn [refs_loop].
  change ("get_" +:+ "branches") with "get_branches".
  rewrite client_has_no_get_branches.
  rewrite (with_catch_raise (A := response)).
  by destruct (catch_client_error _).
Qed.

Lemma mapM_inv {A B} (f : A -> result B) (l : list A) (k : list B) :
  mapM f l = Ok k -> Forall2 (fun x y => f x = Ok y) l k.
Proof.
  revert k. induction l as [|x l IH]; intros k; simpl.
  - intros [= <-]. constructor.
  - intros Hb. do 2 inv_bind Hb. injection Hb as <-. constructor; auto.
Qed.

Lemma nav_url_linked (user repo path : string) (nav_ref nav_ref' : pyobj) :
  nav_url user repo path nav_ref = Ok nav_ref' -> linked user repo path nav_ref nav_ref'.
Proof.
  unfold nav_url. intros Hb. inv_bind Hb.
  apply py_setitem_Ok in Hb as (d & -> & ->).
  simpl in Ha. destruct (d !! "name") as [name|] eqn:Hn; [|discriminate].
  injection Ha as <-. by exists d, name.
Qed.

(** X15: The loop over the branches and tags, whenever it completes on two
    lists: every branch and every tag is a dictionary with a [name], and is
    left as it was but for its [url], the tree of that name at the path,
    under [/github/]. *)
Theorem every_ref_is_linked_by_its_name (user repo path : string)
    (b t : list pyobj) (branches tags : pyobj) :
  nav_refs user repo path (PList b) (PList t) = Ok (branches, tags) ->
  exists b' t',
    branches = PList b' /\ tags = PList t' /\
    Forall2 (linked user repo path) b b' /\ Forall2 (linked user repo path) t t'.
Proof.
  unfold nav_refs. intros Hb. do 2 inv_bind Hb. injection Hb as <- <-.
  exists a, a0. split; [done|]. split; [done|].
  split; (eapply Forall2_impl; [by apply mapM_inv|]);
    intros x y; apply nav_url_linked.
Qed.

End TreeHandlerFacts.

(** ** handlers.py: the rewrite rule *)

Section PatternFacts.

Lemma prun_app (a b : string) (mode : pmode) (st : pstate) :
  prun (a +:+ b) mode st =
    match prun a mode st with
    | Some (mode', st') => prun b mode' st'
    | None => None
    end.
Proof.
  revert mode st. induction a as [|c a IH]; intros mode st; simpl; [done|].
  destruct (pstep mode c st) as [[mode' st']|]; [apply IH | done].
Qed.

Lemma plain_char_cases (a : ascii) :
  plain_char a = true ->
  a = "."%char \/ (Ascii.eqb a "." = false /\ existsb (Ascii.eqb a) specials = false).
Proof.
  unfold plain_char. destruct (Ascii.eqb a ".") eqn:Hd; simpl.
  - intros _. left. by apply Ascii.eqb_eq.
  - intros Hn. right. split; [done|]. by apply negb_true_iff.
Qed.

Lemma pstep_plain (a : ascii) (st : pstate) :
  existsb (Ascii.eqb a) specials = false ->
  pstep MNormal a st = Some (MNormal, push_atom (RChar a) st).
Proof. intros Hs. unfold pstep. by rewrite Hs. Qed.

Lemma push_atoms_cons (r : regex) (atoms : list regex) (st : pstate) :
  push_atoms atoms (push_atom r st) = push_atoms (r :: atoms) st.
Proof. unfold push_atoms, push_atom. simpl. by rewrite <- app_assoc. Qed.

Lemma prun_plain (base : string) (st : pstate) :
  plain_url base = true ->
  prun (escape_dots base) MNormal st = Some (MNormal, push_atoms (lits base) st).
Proof.
  revert st. induction base as [|a base IH]; intros st Hp.
  - simpl. unfold push_atoms. simpl. by destruct st as [[] ? ?].
  - simpl in Hp. apply andb_true_iff in Hp as [Ha Hb].
    cbn [escape_dots lits].
    destruct (plain_char_cases a Ha) as [-> | [Hd Hs]].
    + change (Ascii.eqb "." ".") with true. cbv iota. cbn [prun].
      change (pstep MNormal "\" st) with (Some (MEscape, st)). cbv iota beta.
      change (pstep MEscape "." st) with (Some (MNormal, push_atom (RChar ".") st)).
      cbv iota beta. rewrite IH by done. by rewrite push_atoms_cons.
    + rewrite Hd. cbn [prun]. rewrite pstep_plain by done.
      rewrite IH by done. by rewrite push_atoms_cons.
Qed.

Lemma prun_tail (top : frame) (opened : list frame) :
  prun "/([^\/]+)/([^\/]+)/(blob|tree)/(.*)$" MNormal
    {| ps_top := top; ps_open := opened; ps_groups := 0 |} =
  Some (MNormal,
        {| ps_top := {| f_index := f_index top; f_alts := f_alts top;
                        f_atoms := rev tail_atoms ++ f_atoms top |};
           ps_open := opened; ps_groups := 4 |}).
Proof. destruct top. vm_compute. reflexivity. Qed.

Lemma rule_pattern_compiles (base : string) :
  plain_url base = true ->
  re_compile ("^" +:+ escape_dots base
              +:+ "/([^\/]+)/([^\/]+)/(blob|tree)/(.*)$") =
    Some (seq_of (RBol :: lits base ++ tail_atoms), 4).
Proof.
  intros Hp. unfold re_compile.
  change ("^" +:+ escape_dots base +:+ "/([^\/]+)/([^\/]+)/(blob|tree)/(.*)$")
    with (String "^" (escape_dots base +:+ "/([^\/]+)/([^\/]+)/(blob|tree)/(.*)$")).
  cbn [prun]. change (pstep MNormal "^" ?st) with (Some (MNormal, push_atom RBol st)).
  cbv beta iota. rewrite prun_app, prun_plain by done.
  unfold push_atoms, push_atom. cbn [ps_top ps_open ps_groups f_index f_alts f_atoms].
  rewrite prun_tail. cbn [ps_top ps_open ps_groups f_index f_alts f_atoms].
  unfold close_frame. cbn [f_atoms f_alts rev app alt_of].
  rewrite !rev_app_distr, !rev_involutive. cbn [rev app].
  reflexivity.
Qed.

End PatternFacts.

Section MatchFacts.
Context {R : Type}.
Implicit Types (k : @cont R) (g : gmap nat string) (s t u : string).

Lemma strlen_app s t : String.length (s +:+ t) = String.length s + String.length t.
Proof. induction s as [|a s IH]; simpl; [done | by rewrite IH]. Qed.

Lemma append_cons (a : ascii) s t : String a s +:+ t = String a (s +:+ t).
Proof. reflexivity. Qed.

Lemma append_empty_r s : s +:+ "" = s.
Proof. induction s as [|a s IH]; [done|]. by rewrite append_cons, IH. Qed.

Lemma consumed_app (pos : nat) u t :
  consumed pos (pos + String.length u) (u +:+ t) = u.
Proof.
  unfold consumed. replace (pos + String.length u - pos) with (String.length u) by lia.
  induction u as [|a u IH]; simpl; [by destruct t | by rewrite IH].
Qed.

Lemma skip_cont_length s : String.length (skip_cont s) <= String.length s.
Proof.
  induction s as [|a s IH]; simpl; [done|]. destruct (is_cont a); simpl; lia.
Qed.

Lemma skip_cont_app u t : skip_cont t = t -> skip_cont (u +:+ t) = skip_cont u +:+ t.
Proof.
  intros Ht. induction u as [|a u IH]; simpl; [done|]. by destruct (is_cont a).
Qed.

Lemma skip_cont_all (test : ascii -> bool) u :
  all_chars test u = true -> all_chars test (skip_cont u) = true.
Proof.
  induction u as [|a u IH]; simpl; [done|]. intros [Ha Hu]%andb_true_iff.
  destruct (is_cont a); simpl; [auto | by rewrite Ha, Hu].
Qed.

Lemma char_tail_length (a : ascii) s : String.length (char_tail a s) <= String.length s.
Proof. unfold char_tail. destruct (is_lead a); [apply skip_cont_length | done]. Qed.

Lemma char_tail_app (a : ascii) u t :
  skip_cont t = t -> char_tail a (u +:+ t) = char_tail a u +:+ t.
Proof.
  intros Ht. unfold char_tail. destruct (is_lead a); [by apply skip_cont_app | done].
Qed.

Lemma char_tail_all (test : ascii -> bool) (a : ascii) u :
  all_chars test u = true -> all_chars test (char_tail a u) = true.
Proof. unfold char_tail. destruct (is_lead a); [apply skip_cont_all | done]. Qed.

Lemma one_char_stops (test : ascii -> bool) (pos : nat) t g k :
  stops test t -> one_char test pos t g k = None.
Proof. intros [_ Ht]. destruct t as [|a t]; simpl; [done | by rewrite Ht]. Qed.

(** greedy repetition takes the whole run when what follows then matches *)
Lemma star_chars (test : ascii -> bool) (fuel pos : nat) u t g k (x : R) :
  String.length u < fuel -> all_chars test u = true -> stops test t ->
  k (pos + String.length u) t g = Some x ->
  star (one_char test) fuel pos (u +:+ t) g k = Some x.
Proof.
  revert pos u. induction fuel as [|fuel IH]; intros pos u Hlen Hu Ht Hk; [lia|].
  destruct u as [|a u]; cbn [star].
  - change ("" +:+ t) with t. rewrite one_char_stops by done. simpl in Hk.
    by rewrite Nat.add_0_r in Hk.
  - simpl in Hu. apply andb_true_iff in Hu as [Ha Hu].
    replace (one_char test pos (String a u +:+ t) g _) with (Some x); [done|].
    symmetry. rewrite append_cons. cbn [one_char]. rewrite Ha.
    destruct Ht as [Hc Ht]. rewrite char_tail_app by done.
    pose proof (char_tail_length a u) as Hle.
    replace (String.length (char_tail a u +:+ t) <?
             String.length (String a (u +:+ t))) with true.
    2:{ symmetry. apply Nat.ltb_lt. simpl. rewrite !strlen_app. lia. }
    apply IH.
    + simpl in Hlen. lia.
    + by apply char_tail_all.
    + done.
    + rewrite <- Hk. f_equal. simpl. rewrite !strlen_app. lia.
Qed.

Lemma plus_chars (test : ascii -> bool) (pos : nat) u t g k (x : R) :
  u <> "" -> all_chars test u = true -> stops test t ->
  k (pos + String.length u) t g = Some x ->
  one_char test pos (u +:+ t) g
    (fun pos' s' g' => star (one_char test) (S (String.length s')) pos' s' g' k)
  = Some x.
Proof.
  intros Hne Hu Ht Hk. destruct u as [|a u]; [done|].
  simpl in Hu. apply andb_true_iff in Hu as [Ha Hu].
  rewrite append_cons. cbn [one_char]. rewrite Ha.
  pose proof Ht as [Hc _]. rewrite char_tail_app by done.
  pose proof (char_tail_length a u) as Hle.
  apply star_chars.
  - rewrite strlen_app. lia.
  - by apply char_tail_all.
  - done.
  - rewrite <- Hk. f_equal. simpl. rewrite !strlen_app. lia.
Qed.

Lemma rmatch_cons (r : regex) (rs : list regex) (pos : nat) s g k :
  rmatch (seq_of (r :: rs)) pos s g k =
    rmatch r pos s g (fun pos' s' g' => rmatch (seq_of rs) pos' s' g' k).
Proof. reflexivity. Qed.

Lemma rmatch_char (a : ascii) (pos : nat) s g k :
  rmatch (RChar a) pos (String a s) g k = k (S pos) s g.
Proof. simpl. by rewrite Ascii.eqb_refl. Qed.

Lemma rmatch_lits (b : string) (rs : list regex) (pos : nat) s g k :
  rmatch (seq_of (lits b ++ rs)) pos (b +:+ s) g k =
    rmatch (seq_of rs) (pos + String.length b) s g k.
Proof.
  revert pos. induction b as [|a b IH]; intros pos.
  - simpl. by rewrite Nat.add_0_r.
  - cbn [lits app]. rewrite append_cons, rmatch_cons, rmatch_char, IH.
    f_equal. simpl. lia.
Qed.

Lemma not_slash_all u : contains_char "/" u = false -> all_chars (in_set true ["/"%char]) u = true.
Proof.
  induction u as [|a u IH]; simpl; [done|].
  intros [Ha Hu]%orb_false_iff. rewrite IH by done.
  unfold in_set. simpl. by rewrite Ha.
Qed.

Lemma not_newline_all u :
  contains_char newline u = false -> all_chars not_newline u = true.
Proof.
  induction u as [|a u IH]; simpl; [done|].
  intros [Ha Hu]%orb_false_iff. rewrite IH by done.
  unfold not_newline. by rewrite Ha.
Qed.

(** a group of one or more characters other than a slash, in front of a
    slash, captures the whole segment *)
Lemma rmatch_segment (i pos : nat) u t g k (x : R) :
  u <> "" -> contains_char "/" u = false ->
  k (pos + String.length u) (String "/" t) (<[i := u]> g) = Some x ->
  rmatch (RGroup i (seq_of [RPlus (RSet true ["/"%char])])) pos
    (u +:+ String "/" t) g k = Some x.
Proof.
  intros Hne Hu Hk. cbn [rmatch seq_of foldr].
  apply (plus_chars (in_set true ["/"%char]) pos u (String "/" t) g
           (fun pos' s' g' =>
              k pos' s' (<[i := consumed pos pos' (u +:+ String "/" t)]> g'))).
  - done.
  - by apply not_slash_all.
  - by split.
  - by rewrite consumed_app.
Qed.

(** the group of any characters in front of the end takes all of a text of
    one line *)
Lemma rmatch_rest (i pos : nat) u g k (x : R) :
  contains_char newline u = false ->
  k (pos + String.length u) "" (<[i := u]> g) = Some x ->
  rmatch (RGroup i (seq_of [RStar RAny])) pos u g k = Some x.
Proof.
  intros Hu Hk. cbn [rmatch seq_of foldr].
  rewrite <- (append_empty_r u) at 2.
  apply (star_chars not_newline (S (String.length u)) pos u "" g
           (fun pos' s' g' => k pos' s' (<[i := consumed pos pos' u]> g'))).
  - lia.
  - by apply not_newline_all.
  - by split.
  - pose proof (consumed_app pos u "") as Hc. rewrite append_empty_r in Hc.
    by rewrite Hc.
Qed.

(** the group [(blob|tree)] captures the word it finds *)
Lemma rmatch_kind (kind : string) (pos : nat) t g k :
  kind = "blob" \/ kind = "tree" ->
  rmatch (RGroup 3 (RAlt (seq_of (lits "blob")) (seq_of (lits "tree")))) pos
    (kind +:+ t) g k =
  k (pos + 4) t (<[3 := kind]> g).
Proof.
  intros [-> | ->].
  - pose proof (consumed_app pos "blob" t) as Hc.
    change ("blob" +:+ t) with (String "b" (String "l" (String "o" (String "b" t)))) in *.
    change (String.length "blob") with 4 in Hc.
    cbn [rmatch seq_of lits foldr Ascii.eqb Bool.eqb].
    replace (S (S (S (S pos)))) with (pos + 4) by lia. rewrite Hc.
    by destruct (k _ _ _).
  - pose proof (consumed_app pos "tree" t) as Hc.
    change ("tree" +:+ t) with (String "t" (String "r" (String "e" (String "e" t)))) in *.
    change (String.length "tree") with 4 in Hc.
    cbn [rmatch seq_of lits foldr Ascii.eqb Bool.eqb].
    replace (S (S (S (S pos)))) with (pos + 4) by lia. by rewrite Hc.
Qed.


(** *** When the run has to be taken whole *)

Lemma one_char_fails (test : ascii -> bool) (pos : nat) (a : ascii) s g k :
  test a = false -> one_char test pos (String a s) g k = None.
Proof. intros Ha. simpl. by rewrite Ha. Qed.

Lemma rmatch_char_mismatch (c a : ascii) (rs : list regex) (pos : nat) s g k :
  Ascii.eqb a c = false ->
  rmatch (seq_of (RChar c :: rs)) pos (String a s) g k = None.
Proof. intros Ha. rewrite rmatch_cons. simpl. by rewrite Ha. Qed.

(** repetition gives back nothing it took when what follows cannot start
    inside the run *)
Lemma star_whole (test : ascii -> bool) (fuel pos : nat) u t g k :
  String.length u < fuel -> all_chars test u = true -> stops test t ->
  (forall pos' u' g', u' <> "" -> all_chars test u' = true ->
                      k pos' (u' +:+ t) g' = None) ->
  star (one_char test) fuel pos (u +:+ t) g k = k (pos + String.length u) t g.
Proof.
  intros Hlen Hu Ht Hk. revert pos u Hlen Hu.
  induction fuel as [|fuel IH]; intros pos u Hlen Hu; [lia|].
  destruct u as [|a u]; cbn [star].
  - change ("" +:+ t) with t. rewrite one_char_stops by done.
    simpl. by rewrite Nat.add_0_r.
  - pose proof Hu as Hall.
    simpl in Hu. apply andb_true_iff in Hu as [Ha Hu].
    destruct Ht as [Hc Ht].
    pose proof (char_tail_length a u) as Hle.
    assert (Hone : one_char test pos (String a u +:+ t) g
                     (fun pos' s' g' =>
                        if (String.length s' <? String.length (String a u +:+ t))%nat
                        then star (one_char test) fuel pos' s' g' k else None)
                   = k (pos + String.length (String a u)) t g).
    { rewrite append_cons. cbn [one_char]. rewrite Ha.
      rewrite char_tail_app by done.
      replace (String.length (char_tail a u +:+ t) <?
               String.length (String a (u +:+ t))) with true.
      2:{ symmetry. apply Nat.ltb_lt. simpl. rewrite !strlen_app. lia. }
      rewrite IH.
      - f_equal. simpl. rewrite !strlen_app. lia.
      - simpl in Hlen. lia.
      - by apply char_tail_all. }
    rewrite Hone. destruct (k (pos + String.length (String a u)) t g) eqn:Hend;
      [done|]. by apply Hk.
Qed.

Lemma plus_whole (test : ascii -> bool) (pos : nat) u t g k :
  u <> "" -> all_chars test u = true -> stops test t ->
  (forall pos' u' g', u' <> "" -> all_chars test u' = true ->
                      k pos' (u' +:+ t) g' = None) ->
  one_char test pos (u +:+ t) g
    (fun pos' s' g' => star (one_char test) (S (String.length s')) pos' s' g' k)
  = k (pos + String.length u) t g.
Proof.
  intros Hne Hu Ht Hk. destruct u as [|a u]; [done|].
  simpl in Hu. apply andb_true_iff in Hu as [Ha Hu].
  rewrite append_cons. cbn [one_char]. rewrite Ha.
  pose proof Ht as [Hc _]. rewrite char_tail_app by done.
  pose proof (char_tail_length a u) as Hle.
  rewrite star_whole; try done.
  - f_equal. simpl. rewrite !strlen_app. lia.
  - rewrite strlen_app. lia.
  - by apply char_tail_all.
Qed.

(** a segment group gives the whole segment to what follows, and to nothing
    else, when what follows has to start with the slash *)
Lemma rmatch_segment_whole (i pos : nat) u t g (rs : list regex) k :
  u <> "" -> contains_char "/" u = false ->
  rmatch (seq_of (RGroup i (seq_of [RPlus (RSet true ["/"%char])])
                  :: RChar "/" :: rs)) pos (u +:+ String "/" t) g k =
  rmatch (seq_of (RChar "/" :: rs)) (pos + String.length u) (String "/" t)
    (<[i := u]> g) k.
Proof.
  intros Hne Hu. rewrite rmatch_cons.
  set (K := fun pos' s' g' => rmatch (seq_of (RChar "/" :: rs)) pos' s' g' k).
  transitivity (K (pos + String.length u) (String "/" t)
                  (<[i := consumed pos (pos + String.length u)
                            (u +:+ String "/" t)]> g)).
  - apply (plus_whole (in_set true ["/"%char]) pos u (String "/" t) g
             (fun pos' s' g' =>
                K pos' s' (<[i := consumed pos pos' (u +:+ String "/" t)]> g'))).
    + done.
    + by apply not_slash_all.
    + by split.
    + intros pos' u' g' Hne' Hu'. destruct u' as [|a u']; [done|].
      simpl in Hu'. apply andb_true_iff in Hu' as [Ha _].
      unfold in_set in Ha. simpl in Ha. rewrite orb_false_r in Ha.
      apply negb_true_iff in Ha.
      unfold K. rewrite append_cons. by apply rmatch_char_mismatch.
  - by rewrite consumed_app.
Qed.

(** *** What a match tells about the text *)

Lemma append_assoc_s s t u : (s +:+ t) +:+ u = s +:+ (t +:+ u).
Proof. induction s as [|a s IH]; [done|]. by rewrite !append_cons, IH. Qed.

Lemma all_chars_app (test : ascii -> bool) s t :
  all_chars test (s +:+ t) = all_chars test s && all_chars test t.
Proof.
  induction s as [|a s IH]; [done|].
  rewrite append_cons. simpl. by rewrite IH, andb_assoc.
Qed.

Lemma all_chars_weaken (test test' : ascii -> bool) s :
  (forall a, test a = true -> test' a = true) ->
  all_chars test s = true -> all_chars test' s = true.
Proof.
  intros Hw. induction s as [|a s IH]; simpl; [done|].
  intros [Ha Hs]%andb_true_iff. by rewrite (Hw a Ha), IH.
Qed.

Lemma skip_cont_split s :
  exists c, s = c +:+ skip_cont s /\ all_chars is_cont c = true.
Proof.
  induction s as [|a s (c & Hc & Hall)]; [by exists ""|].
  simpl. destruct (is_cont a) eqn:Ha.
  - exists (String a c). rewrite append_cons, <- Hc. simpl. by rewrite Ha, Hall.
  - by exists "".
Qed.

Lemma char_tail_split (a : ascii) s :
  exists c, s = c +:+ char_tail a s /\ all_chars is_cont c = true.
Proof.
  unfold char_tail. destruct (is_lead a); [apply skip_cont_split | by exists ""].
Qed.

Lemma one_char_inv (test : ascii -> bool) (pos : nat) s g k (x : R) :
  one_char test pos s g k = Some x ->
  exists a c t,
    s = String a (c +:+ t) /\ test a = true /\ all_chars is_cont c = true /\
    k (pos + S (String.length c)) t g = Some x.
Proof.
  destruct s as [|a s]; simpl; [discriminate|].
  destruct (test a) eqn:Ha; [|discriminate].
  destruct (char_tail_split a s) as (c & Hc & Hall). intros Hk.
  exists a, c, (char_tail a s). rewrite <- Hc. repeat split; try done.
  rewrite <- Hk. f_equal.
  rewrite Hc at 1. rewrite strlen_app. lia.
Qed.

(** a repetition of single characters took a run of them, to the left of
    the text that what follows was matched against *)
Lemma star_inv (test : ascii -> bool) (fuel pos : nat) s g k (x : R) :
  (forall a, is_cont a = true -> test a = true) ->
  star (one_char test) fuel pos s g k = Some x ->
  exists u t,
    s = u +:+ t /\ all_chars test u = true /\
    k (pos + String.length u) t g = Some x.
Proof.
  intros Hc. revert pos s g.
  induction fuel as [|fuel IH]; intros pos s g; cbn [star].
  - intros Hk. exists "", s. by rewrite Nat.add_0_r.
  - destruct (one_char test pos s g _) as [y|] eqn:Hone.
    + intros [= ->].
      apply one_char_inv in Hone as (a & c & t1 & -> & Ha & Hall & Hone).
      destruct (String.length t1 <? _)%nat; [|discriminate].
      apply IH in Hone as (u & t & -> & Hu & Hk).
      exists (String a (c +:+ u)), t.
      rewrite append_cons, append_assoc_s. split; [done|]. split.
      * simpl. rewrite Ha, all_chars_app, Hu.
        by rewrite (all_chars_weaken is_cont test c Hc Hall).
      * rewrite <- Hk. f_equal. simpl. rewrite strlen_app. lia.
    + intros Hk. exists "", s. by rewrite Nat.add_0_r.
Qed.

Lemma plus_inv (test : ascii -> bool) (pos : nat) s g k (x : R) :
  (forall a, is_cont a = true -> test a = true) ->
  one_char test pos s g
    (fun pos' s' g' => star (one_char test) (S (String.length s')) pos' s' g' k)
  = Some x ->
  exists u t,
    s = u +:+ t /\ u <> "" /\ all_chars test u = true /\
    k (pos + String.length u) t g = Some x.
Proof.
  intros Hc Hone.
  apply one_char_inv in Hone as (a & c & t1 & -> & Ha & Hall & Hone).
  apply star_inv in Hone as (u & t & -> & Hu & Hk); [|done].
  exists (String a (c +:+ u)), t.
  rewrite append_cons, append_assoc_s. split; [done|]. split; [done|]. split.
  - simpl. rewrite Ha, all_chars_app, Hu.
    by rewrite (all_chars_weaken is_cont test c Hc Hall).
  - rewrite <- Hk. f_equal. simpl. rewrite strlen_app. lia.
Qed.

Lemma cont_is_no_slash (a : ascii) :
  is_cont a = true -> in_set true ["/"%char] a = true.
Proof.
  intros Ha. unfold in_set. simpl. rewrite orb_false_r.
  destruct (Ascii.eqb a "/") eqn:He; [|done].
  apply Ascii.eqb_eq in He as ->. discriminate.
Qed.

Lemma cont_is_no_newline (a : ascii) : is_cont a = true -> not_newline a = true.
Proof.
  intros Ha. unfold not_newline.
  destruct (Ascii.eqb a newline) eqn:He; [|done].
  apply Ascii.eqb_eq in He as ->. discriminate.
Qed.

Lemma all_not_slash u :
  all_chars (in_set true ["/"%char]) u = true -> contains_char "/" u = false.
Proof.
  induction u as [|a u IH]; simpl; [done|].
  intros [Ha Hu]%andb_true_iff. rewrite IH by done.
  unfold in_set in Ha. simpl in Ha. rewrite orb_false_r in Ha.
  apply negb_true_iff in Ha. by rewrite Ha.
Qed.

Lemma all_not_newline u :
  all_chars not_newline u = true -> contains_char newline u = false.
Proof.
  induction u as [|a u IH]; simpl; [done|].
  intros [Ha Hu]%andb_true_iff. rewrite IH by done.
  apply negb_true_iff in Ha. by rewrite Ha.
Qed.

Lemma rmatch_char_inv (c : ascii) (pos : nat) s g k (x : R) :
  rmatch (RChar c) pos s g k = Some x ->
  exists s', s = String c s' /\ k (S pos) s' g = Some x.
Proof.
  destruct s as [|a s]; simpl; [discriminate|].
  destruct (Ascii.eqb a c) eqn:Ha; [|discriminate].
  apply Ascii.eqb_eq in Ha as ->. eauto.
Qed.

Lemma rmatch_lits_inv (b : string) (rs : list regex) (pos : nat) s g k (x : R) :
  rmatch (seq_of (lits b ++ rs)) pos s g k = Some x ->
  exists s', s = b +:+ s' /\
             rmatch (seq_of rs) (pos + String.length b) s' g k = Some x.
Proof.
  revert pos s. induction b as [|a b IH]; intros pos s.
  - simpl. rewrite Nat.add_0_r. eauto.
  - cbn [lits app]. rewrite rmatch_cons. intros Hm.
    apply rmatch_char_inv in Hm as (s1 & -> & Hm).
    apply IH in Hm as (s' & -> & Hm). exists s'. split; [done|].
    rewrite <- Hm. f_equal. simpl. lia.
Qed.

(** a segment group captured one or more characters, none of them a slash *)
Lemma rmatch_segment_inv (i pos : nat) s g k (x : R) :
  rmatch (RGroup i (seq_of [RPlus (RSet true ["/"%char])])) pos s g k = Some x ->
  exists u t,
    s = u +:+ t /\ u <> "" /\ contains_char "/" u = false /\
    k (pos + String.length u) t (<[i := u]> g) = Some x.
Proof.
  cbn [rmatch seq_of foldr]. intros Hm.
  apply (plus_inv (in_set true ["/"%char]) pos s g
           (fun pos' s' g' => k pos' s' (<[i := consumed pos pos' s]> g')))
    in Hm as (u & t & -> & Hne & Hu & Hk); [|apply cont_is_no_slash].
  exists u, t. rewrite consumed_app in Hk. by apply all_not_slash in Hu.
Qed.

Lemma rmatch_kind_inv (pos : nat) s g k (x : R) :
  rmatch (RGroup 3 (RAlt (seq_of (lits "blob")) (seq_of (lits "tree")))) pos s g k
  = Some x ->
  exists kind t,
    (kind = "blob" \/ kind = "tree") /\ s = kind +:+ t /\
    k (pos + 4) t (<[3 := kind]> g) = Some x.
Proof.
  cbn [rmatch]. intros Hm.
  set (K := fun pos' s' g' => k pos' s' (<[3 := consumed pos pos' s]> g')) in Hm.
  destruct (rmatch (seq_of (lits "blob")) pos s g K) as [y|] eqn:Hb.
  - injection Hm as ->.
    rewrite <- (app_nil_r (lits "blob")) in Hb.
    apply rmatch_lits_inv in Hb as (t & -> & Hb).
    cbn [rmatch seq_of foldr] in Hb. unfold K in Hb.
    rewrite (consumed_app pos "blob" t) in Hb. exists "blob", t. auto.
  - rewrite <- (app_nil_r (lits "tree")) in Hm.
    apply rmatch_lits_inv in Hm as (t & -> & Hm).
    cbn [rmatch seq_of foldr] in Hm. unfold K in Hm.
    rewrite (consumed_app pos "tree" t) in Hm. exists "tree", t. auto.
Qed.

(** the last group captured a text of one line, and what is left is nothing
    or a final line feed *)
Lemma rmatch_rest_inv (i pos : nat) s g k (x : R) :
  rmatch (seq_of [RGroup i (seq_of [RStar RAny]); REol]) pos s g k = Some x ->
  exists rest nl,
    s = rest +:+ nl /\ (nl = "" \/ nl = String newline "") /\
    contains_char newline rest = false /\
    k (pos + String.length rest) nl (<[i := rest]> g) = Some x.
Proof.
  cbn [rmatch seq_of foldr]. intros Hm.
  apply (star_inv not_newline (S (String.length s)) pos s g
           (fun pos' s' g' =>
              match s' with
              | "" => k pos' s' (<[i := consumed pos pos' s]> g')
              | String a "" =>
                  if Ascii.eqb a newline
                  then k pos' s' (<[i := consumed pos pos' s]> g') else None
              | _ => None
              end))
    in Hm as (u & t & -> & Hu & Hk); [|apply cont_is_no_newline].
  exists u, t. rewrite consumed_app in Hk. apply all_not_newline in Hu.
  destruct t as [|a [|b t]]; [auto | | discriminate].
  destruct (Ascii.eqb a newline) eqn:Ha; [|discriminate].
  apply Ascii.eqb_eq in Ha as ->. auto.
Qed.

(** *** The groups of the routes *)

Lemma stops_empty (test : ascii -> bool) : stops test "".
Proof. by split. Qed.

Lemma stops_slash t : stops (in_set true ["/"%char]) (String "/" t).
Proof. by split. Qed.

Lemma segment_parts u :
  segment u = true ->
  u <> "" /\ contains_char "/" u = false /\ contains_char newline u = false.
Proof.
  unfold segment. intros [[Hn Hs]%andb_true_iff Hl]%andb_true_iff.
  apply negb_true_iff in Hn, Hs, Hl. by apply String.eqb_neq in Hn.
Qed.

(** a segment group in front of a slash of the pattern takes the whole
    segment or nothing *)
Lemma rmatch_seg_slash (i pos : nat) u t g (rs : list regex) k :
  segment u = true -> stops (in_set true ["/"%char]) t ->
  rmatch (seq_of (seg i :: RChar "/" :: rs)) pos (u +:+ t) g k =
  rmatch (seq_of (RChar "/" :: rs)) (pos + String.length u) t (<[i := u]> g) k.
Proof.
  intros (Hne & Hu & _)%segment_parts Ht. rewrite rmatch_cons. unfold seg.
  set (K := fun pos' s' g' => rmatch (seq_of (RChar "/" :: rs)) pos' s' g' k).
  transitivity (K (pos + String.length u) t
                  (<[i := consumed pos (pos + String.length u) (u +:+ t)]> g)).
  - apply (plus_whole (in_set true ["/"%char]) pos u t g
             (fun pos' s' g' => K pos' s' (<[i := consumed pos pos' (u +:+ t)]> g'))).
    + done.
    + by apply not_slash_all.
    + done.
    + intros pos' u' g' Hne' Hu'. destruct u' as [|a u']; [done|].
      simpl in Hu'. apply andb_true_iff in Hu' as [Ha _].
      unfold in_set in Ha. simpl in Ha. rewrite orb_false_r in Ha.
      apply negb_true_iff in Ha.
      unfold K. rewrite append_cons. by apply rmatch_char_mismatch.
  - by rewrite consumed_app.
Qed.

(** the end of the text is not in front of a segment *)
Lemma rmatch_eol_none (pos : nat) u t g k :
  segment u = true -> rmatch (seq_of [REol]) pos (u +:+ t) g k = None.
Proof.
  intros (Hne & _ & Hl)%segment_parts. destruct u as [|a u]; [done|].
  rewrite append_cons. cbn [rmatch seq_of foldr].
  simpl in Hl. apply orb_false_iff in Hl as [Ha _].
  destruct (u +:+ t); [by rewrite Ha | done].
Qed.

(** a segment group in front of the end does not match a text that goes on
    with a slash *)
Lemma rmatch_seg_eol_none (i pos : nat) u t g k :
  segment u = true ->
  rmatch (seq_of [seg i; REol]) pos (u +:+ String "/" t) g k = None.
Proof.
  intros (Hne & Hu & _)%segment_parts. rewrite rmatch_cons. unfold seg.
  set (K := fun pos' s' g' => rmatch (seq_of [REol]) pos' s' g' k).
  transitivity (K (pos + String.length u) (String "/" t)
                  (<[i := consumed pos (pos + String.length u)
                            (u +:+ String "/" t)]> g)).
  - apply (plus_whole (in_set true ["/"%char]) pos u (String "/" t) g
             (fun pos' s' g' =>
                K pos' s' (<[i := consumed pos pos' (u +:+ String "/" t)]> g'))).
    + done.
    + by apply not_slash_all.
    + apply stops_slash.
    + intros pos' u' g' Hne' _. destruct u' as [|a u']; [done|].
      unfold K. rewrite append_cons. cbn [rmatch seq_of foldr].
      by destruct u'.
  - unfold K. cbn [rmatch seq_of foldr]. by destruct t.
Qed.

(** a segment group in front of the end takes a segment that ends the text *)
Lemma rmatch_seg_eol (i pos : nat) u g k (x : R) :
  segment u = true ->
  k (pos + String.length u) "" (<[i := u]> g) = Some x ->
  rmatch (seq_of [seg i; REol]) pos u g k = Some x.
Proof.
  intros (Hne & Hu & _)%segment_parts Hk. rewrite rmatch_cons. unfold seg.
  cbn [rmatch seq_of foldr].
  pose proof (plus_chars (in_set true ["/"%char]) pos u "" g
                (fun pos' s' g' =>
                   match s' with
                   | "" => k pos' s' (<[i := consumed pos pos' u]> g')
                   | String a "" =>
                       if Ascii.eqb a newline
                       then k pos' s' (<[i := consumed pos pos' u]> g') else None
                   | _ => None
                   end) x) as Hp.
  rewrite append_empty_r in Hp. apply Hp.
  - done.
  - by apply not_slash_all.
  - apply stops_empty.
  - pose proof (consumed_app pos u "") as Hc. rewrite append_empty_r in Hc.
    by rewrite Hc.
Qed.

(** the last group in front of the end takes a text of one line *)
Lemma rmatch_rest_eol (i pos : nat) u g k (x : R) :
  contains_char newline u = false ->
  k (pos + String.length u) "" (<[i := u]> g) = Some x ->
  rmatch (seq_of [rest_group i; REol]) pos u g k = Some x.
Proof.
  intros Hu Hk. rewrite rmatch_cons. by apply rmatch_rest.
Qed.

(** repetition goes on behind a run when it succeeds from there *)
Lemma star_chars_then (test : ascii -> bool) (fuel pos : nat) u t g k (x : R) :
  String.length (u +:+ t) < fuel -> all_chars test u = true -> skip_cont t = t ->
  (forall f, String.length t < f ->
             star (one_char test) f (pos + String.length u) t g k = Some x) ->
  star (one_char test) fuel pos (u +:+ t) g k = Some x.
Proof.
  revert pos u. induction fuel as [|fuel IH]; intros pos u Hlen Hu Ht Hk; [lia|].
  destruct u as [|a u].
  - change ("" +:+ t) with t in *. specialize (Hk (S fuel) Hlen).
    simpl in Hk. by rewrite Nat.add_0_r in Hk.
  - cbn [star]. simpl in Hu. apply andb_true_iff in Hu as [Ha Hu].
    replace (one_char test pos (String a u +:+ t) g _) with (Some x); [done|].
    symmetry. rewrite append_cons. cbn [one_char]. rewrite Ha.
    rewrite char_tail_app by done.
    pose proof (char_tail_length a u) as Hle.
    replace (String.length (char_tail a u +:+ t) <?
             String.length (String a (u +:+ t))) with true.
    2:{ symmetry. apply Nat.ltb_lt. simpl. rewrite !strlen_app. lia. }
    apply IH.
    + rewrite append_cons in Hlen. simpl in Hlen. rewrite strlen_app in *. lia.
    + by apply char_tail_all.
    + done.
    + intros f Hf. specialize (Hk f Hf). rewrite <- Hk. f_equal.
      simpl. rewrite !strlen_app. lia.
Qed.

(** the last group in front of a final slash gives the slash back *)
Lemma rmatch_rest_slash_eol (i pos : nat) u g k (x : R) :
  contains_char newline u = false ->
  k (S (pos + String.length u)) "" (<[i := u]> g) = Some x ->
  rmatch (seq_of [rest_group i; RChar "/"; REol]) pos (u +:+ "/") g k = Some x.
Proof.
  intros Hu Hk. rewrite rmatch_cons. unfold rest_group.
  cbn [rmatch seq_of foldr].
  apply star_chars_then.
  - lia.
  - by apply not_newline_all.
  - done.
  - intros f Hf.
    destruct f as [|[|f]]; [simpl in Hf; lia | simpl in Hf; lia |].
    pose proof (consumed_app pos u "/") as Hc.
    cbn [star one_char]. change (not_newline "/") with true.
    change (char_tail "/" "") with "". cbv iota.
    change (String.length "" <? String.length "/")%nat with true. cbv iota.
    cbn [Ascii.eqb Bool.eqb]. by rewrite Hc.
Qed.

Lemma contains_char_app (c : ascii) s t :
  contains_char c (s +:+ t) = contains_char c s || contains_char c t.
Proof.
  induction s as [|a s IH]; [done|].
  rewrite append_cons. simpl. by rewrite IH, orb_assoc.
Qed.

Lemma substring_skip (n : nat) s t :
  substring (String.length s) n (s +:+ t) = substring 0 n t.
Proof. induction s as [|a s IH]; [done|]. by rewrite append_cons. Qed.

Lemma substring_all s : substring 0 (String.length s) s = s.
Proof. induction s as [|a s IH]; [done|]. simpl. by rewrite IH. Qed.

Lemma endswith_app (suf s : string) : endswith suf (s +:+ suf) = true.
Proof.
  unfold endswith. rewrite strlen_app.
  replace (String.length s + String.length suf - String.length suf)
    with (String.length s) by lia.
  rewrite substring_skip, substring_all, String.eqb_refl.
  rewrite andb_true_r. apply Nat.leb_le. lia.
Qed.

(** repetition fails when what follows fails wherever the text is cut *)
Lemma star_fails (test : ascii -> bool) (fuel pos : nat) s g k :
  (forall u t pos', s = u +:+ t -> k pos' t g = None) ->
  star (one_char test) fuel pos s g k = (None : option R).
Proof.
  revert pos s. induction fuel as [|fuel IH]; intros pos s Hk; cbn [star].
  - by apply (Hk "" s).
  - replace (one_char test pos s g _) with (None : option R);
      [by apply (Hk "" s)|].
    symmetry. destruct s as [|a s]; [done|]. cbn [one_char].
    destruct (test a); [|done].
    destruct (_ <? _)%nat; [|done].
    apply IH. intros u t pos' Hs.
    destruct (char_tail_split a s) as (c & Hc & _).
    apply (Hk (String a (c +:+ u)) t pos').
    rewrite append_cons, append_assoc_s, <- Hs. by rewrite <- Hc.
Qed.

(** the last group in front of a final slash does not match a text of one
    line that does not end with a slash *)
Lemma rmatch_rest_slash_eol_none (i pos : nat) u g k :
  contains_char newline u = false -> endswith "/" u = false ->
  rmatch (seq_of [rest_group i; RChar "/"; REol]) pos u g k = None.
Proof.
  intros Hl He. rewrite rmatch_cons. unfold rest_group.
  cbn [rmatch seq_of foldr].
  apply star_fails. intros v t pos' ->.
  destruct t as [|a t]; [done|].
  destruct (Ascii.eqb a "/") eqn:Ha; [|done].
  apply Ascii.eqb_eq in Ha as ->.
  destruct t as [|b [|c t]]; [| |done].
  - change (String "/" "") with "/" in He. by rewrite endswith_app in He.
  - destruct (Ascii.eqb b newline) eqn:Hb; [|done].
    apply Ascii.eqb_eq in Hb as ->.
    rewrite contains_char_app in Hl. apply orb_false_iff in Hl as [_ Hl].
    discriminate.
Qed.

End MatchFacts.

Section RewriteFacts.

Lemma rule_matches {R : Type} (base user repo kind rest : string)
    (k : @cont R) (x : R) :
  user <> "" -> contains_char "/" user = false ->
  repo <> "" -> contains_char "/" repo = false ->
  kind = "blob" \/ kind = "tree" ->
  contains_char newline rest = false ->
  (forall pos, k pos "" (<[4 := rest]> (<[3 := kind]> (<[2 := repo]>
                           (<[1 := user]> ∅)))) = Some x) ->
  rmatch (seq_of (RBol :: lits base ++ tail_atoms)) 0
    (base +:+ "/" +:+ user +:+ "/" +:+ repo +:+ "/" +:+ kind +:+ "/" +:+ rest)
    ∅ k = Some x.
Proof.
  intros Hu1 Hu2 Hr1 Hr2 Hkind Hrest Hk.
  rewrite rmatch_cons. cbn [rmatch Nat.eqb]. rewrite rmatch_lits.
  unfold tail_atoms.
  change ("/" +:+ ?s) with (String "/" s).
  rewrite rmatch_cons. rewrite rmatch_char. rewrite rmatch_cons.
  apply rmatch_segment; [done..|].
  rewrite rmatch_cons. rewrite rmatch_char. rewrite rmatch_cons.
  apply rmatch_segment; [done..|].
  rewrite rmatch_cons. rewrite rmatch_char. rewrite rmatch_cons.
  rewrite rmatch_kind by done.
  change ("/" +:+ rest) with (String "/" rest).
  rewrite rmatch_cons. rewrite rmatch_char. rewrite rmatch_cons.
  apply rmatch_rest; [done|].
  cbn [rmatch seq_of foldr]. apply Hk.
Qed.

Lemma format_rule (user repo kind rest : string) :
  format_positional "/gitlab/{0}/{1}/{2}/{3}"
    [Some user; Some repo; Some kind; Some rest] =
  Some ("/gitlab/" +:+ user +:+ "/" +:+ repo +:+ "/" +:+ kind +:+ "/" +:+ rest).
Proof.
  cbv - [String.append]. rewrite append_empty_r. reflexivity.
Qed.

Lemma captured_groups (user repo kind rest : string) :
  (fun i : nat =>
     (<[4 := rest]> (<[3 := kind]> (<[2 := repo]> (<[1 := user]> ∅)))
        : gmap nat string) !! i) <$> seq 1 4 =
  [Some user; Some repo; Some kind; Some rest].
Proof.
  cbn [seq fmap list_fmap].
  repeat (rewrite lookup_insert_eq || rewrite lookup_insert_ne by done).
  reflexivity.
Qed.

(** C4, as the code has it: for a base URL that the pattern matches
    literally, a user and a repository that are single path segments, and a
    tail of one line, the rule at the head of [uri_rewrites] rewrites the
    upstream blob or tree URL to the route under [/gitlab], with the tail
    byte for byte as it was. *)
Theorem rule_rewrites_blob_and_tree (environ : gmap string string)
    (rewrites : list (string * string)) (user repo kind rest : string) :
  plain_url (environ_get environ "GITLAB_URL") = true ->
  user <> "" -> contains_char "/" user = false ->
  repo <> "" -> contains_char "/" repo = false ->
  kind = "blob" \/ kind = "tree" ->
  contains_char newline rest = false ->
  exists rule,
    head (uri_rewrites environ rewrites) = Some rule /\
    apply_rule rule
      (environ_get environ "GITLAB_URL" +:+ "/" +:+ user +:+ "/" +:+ repo
       +:+ "/" +:+ kind +:+ "/" +:+ rest) =
    Rewritten ("/gitlab/" +:+ user +:+ "/" +:+ repo +:+ "/" +:+ kind
               +:+ "/" +:+ rest).
Proof.
  intros Hbase Hu1 Hu2 Hr1 Hr2 Hkind Hrest.
  eexists. split; [reflexivity|].
  unfold apply_rule, re_match. cbn [fst snd].
  rewrite rule_pattern_compiles by done.
  erewrite rule_matches; try done.
  by rewrite captured_groups, format_rule.
Qed.


(** no continuation makes the pattern match a [raw] URL *)
Lemma rule_never_matches_raw {R : Type} (base user repo rest : string)
    (k : @cont R) :
  user <> "" -> contains_char "/" user = false ->
  repo <> "" -> contains_char "/" repo = false ->
  rmatch (seq_of (RBol :: lits base ++ tail_atoms)) 0
    (base +:+ "/" +:+ user +:+ "/" +:+ repo +:+ "/" +:+ "raw" +:+ "/" +:+ rest)
    ∅ k = None.
Proof.
  intros Hu1 Hu2 Hr1 Hr2.
  change (base +:+ "/" +:+ user +:+ "/" +:+ repo +:+ "/" +:+ "raw" +:+ "/" +:+ rest)
    with (base +:+ String "/" (user +:+ String "/" (repo +:+ String "/"
            (String "r" (String "a" (String "w" (String "/" rest))))))).
  rewrite rmatch_cons. cbn [rmatch Nat.eqb]. rewrite rmatch_lits.
  unfold tail_atoms.
  rewrite rmatch_cons. rewrite rmatch_char.
  rewrite rmatch_segment_whole by done.
  rewrite rmatch_cons. rewrite rmatch_char.
  rewrite rmatch_segment_whole by done.
  rewrite rmatch_cons. rewrite rmatch_char.
  reflexivity.
Qed.

(** C5, what the code does: for every base URL that the pattern matches
    literally and every user and repository of one segment, the rule at the
    head of [uri_rewrites] does not match the upstream [raw] URL, whatever
    the tail: a raw URL is not rewritten to the blob route. *)
Theorem raw_url_is_not_rewritten (environ : gmap string string)
    (rewrites : list (string * string)) (user repo rest : string) :
  plain_url (environ_get environ "GITLAB_URL") = true ->
  user <> "" -> contains_char "/" user = false ->
  repo <> "" -> contains_char "/" repo = false ->
  exists rule,
    head (uri_rewrites environ rewrites) = Some rule /\
    apply_rule rule
      (environ_get environ "GITLAB_URL" +:+ "/" +:+ user +:+ "/" +:+ repo
       +:+ "/" +:+ "raw" +:+ "/" +:+ rest) = NoMatch.
Proof.
  intros Hbase Hu1 Hu2 Hr1 Hr2.
  eexists. split; [reflexivity|].
  unfold apply_rule, re_match. cbn [fst snd].
  rewrite rule_pattern_compiles by done.
  by rewrite rule_never_matches_raw.
Qed.

Lemma rule_matches_inv {R : Type} (base uri : string) (k : @cont R) (x : R) :
  rmatch (seq_of (RBol :: lits base ++ tail_atoms)) 0 uri ∅ k = Some x ->
  exists user repo kind rest nl pos,
    uri = base +:+ "/" +:+ user +:+ "/" +:+ repo +:+ "/" +:+ kind +:+ "/"
          +:+ rest +:+ nl /\
    (user <> "" /\ contains_char "/" user = false) /\
    (repo <> "" /\ contains_char "/" repo = false) /\
    (kind = "blob" \/ kind = "tree") /\
    contains_char newline rest = false /\
    (nl = "" \/ nl = String newline "") /\
    k pos nl (<[4 := rest]> (<[3 := kind]> (<[2 := repo]> (<[1 := user]> ∅))))
    = Some x.
Proof.
  rewrite rmatch_cons. cbn [rmatch Nat.eqb]. intros Hm.
  apply rmatch_lits_inv in Hm as (s0 & -> & Hm). unfold tail_atoms in Hm.
  rewrite rmatch_cons in Hm. apply rmatch_char_inv in Hm as (s1 & -> & Hm).
  rewrite rmatch_cons in Hm.
  apply rmatch_segment_inv in Hm as (user & s2 & -> & Hu1 & Hu2 & Hm).
  rewrite rmatch_cons in Hm. apply rmatch_char_inv in Hm as (s3 & -> & Hm).
  rewrite rmatch_cons in Hm.
  apply rmatch_segment_inv in Hm as (repo & s4 & -> & Hr1 & Hr2 & Hm).
  rewrite rmatch_cons in Hm. apply rmatch_char_inv in Hm as (s5 & -> & Hm).
  rewrite rmatch_cons in Hm.
  apply rmatch_kind_inv in Hm as (kind & s6 & Hkind & -> & Hm).
  rewrite rmatch_cons in Hm. apply rmatch_char_inv in Hm as (s7 & -> & Hm).
  apply rmatch_rest_inv in Hm as (rest & nl & -> & Hnl & Hrest & Hm).
  exists user, repo, kind, rest, nl. eexists. by repeat split.
Qed.

(** X16: The rule rewrites nothing but the blob and tree URLs of the configured
    base: whatever URI it rewrites is the base followed by a user and a
    repository of one segment each, [blob] or [tree], and a tail of one
    line, with at most a final line feed after it; and the result is the
    route under [/gitlab] of that user, repository, kind and tail. *)
Theorem rule_rewrites_nothing_else (environ : gmap string string)
    (rewrites : list (string * string)) (rule : string * string)
    (uri out : string) :
  plain_url (environ_get environ "GITLAB_URL") = true ->
  head (uri_rewrites environ rewrites) = Some rule ->
  apply_rule rule uri = Rewritten out ->
  exists user repo kind rest nl,
    uri = environ_get environ "GITLAB_URL" +:+ "/" +:+ user +:+ "/" +:+ repo
          +:+ "/" +:+ kind +:+ "/" +:+ rest +:+ nl /\
    (user <> "" /\ contains_char "/" user = false) /\
    (repo <> "" /\ contains_char "/" repo = false) /\
    (kind = "blob" \/ kind = "tree") /\
    contains_char newline rest = false /\
    (nl = "" \/ nl = String newline "") /\
    out = "/gitlab/" +:+ user +:+ "/" +:+ repo +:+ "/" +:+ kind +:+ "/" +:+ rest.
Proof.
  intros Hbase [= <-]. unfold apply_rule, re_match. cbn [fst snd].
  rewrite rule_pattern_compiles by done.
  destruct (rmatch _ 0 uri ∅ _) as [groups|] eqn:Hm; [|discriminate].
  apply rule_matches_inv in Hm
    as (user & repo & kind & rest & nl & pos & -> & Hu & Hr & Hkind & Hrest
        & Hnl & [= <-]).
  pose proof (captured_groups user repo kind rest) as Hg.
  cbn [seq fmap list_fmap] in Hg. rewrite Hg, format_rule. intros [= <-].
  exists user, repo, kind, rest, nl. repeat split; tauto.
Qed.

End RewriteFacts.

(** ** handlers.py: the routes *)

Section RouteFacts.

Lemma route1_compiles :
  re_compile (url_spec "/gitlab/([^\/]+)") =
    Some (seq_of (lits "/gitlab/" ++ [seg 1; REol]), 1).
Proof. vm_compute. reflexivity. Qed.

Lemma route2_compiles :
  re_compile (url_spec "/gitlab/([^\/]+)/") =
    Some (seq_of (lits "/gitlab/" ++ [seg 1; RChar "/"; REol]), 1).
Proof. vm_compute. reflexivity. Qed.

Lemma route3_compiles :
  re_compile (url_spec "/gitlab/([^\/]+)/([^\/]+)") =
    Some (seq_of (lits "/gitlab/" ++ [seg 1; RChar "/"; seg 2; REol]), 2).
Proof. vm_compute. reflexivity. Qed.

Lemma route4_compiles :
  re_compile (url_spec "/gitlab/([^\/]+)/([^\/]+)/") =
    Some (seq_of (lits "/gitlab/" ++ [seg 1; RChar "/"; seg 2; RChar "/"; REol]), 2).
Proof. vm_compute. reflexivity. Qed.

Lemma route5_compiles :
  re_compile (url_spec "/gitlab/([^\/]+)/([^\/]+)/blob/([^\/]+)/(.*)/") =
    Some (seq_of (lits "/gitlab/" ++ seg 1 :: RChar "/" :: seg 2 :: RChar "/"
                  :: lits "blob/"
                  ++ [seg 3; RChar "/"; rest_group 4; RChar "/"; REol]), 4).
Proof. vm_compute. reflexivity. Qed.

Lemma route6_compiles :
  re_compile (url_spec "/gitlab/([^\/]+)/([^\/]+)/blob/([^\/]+)/(.*)") =
    Some (seq_of (lits "/gitlab/" ++ seg 1 :: RChar "/" :: seg 2 :: RChar "/"
                  :: lits "blob/" ++ [seg 3; RChar "/"; rest_group 4; REol]), 4).
Proof. vm_compute. reflexivity. Qed.

Lemma route7_compiles :
  re_compile (url_spec "/gitlab/([^\/]+)/([^\/]+)/tree/([^\/]+)") =
    Some (seq_of (lits "/gitlab/" ++ seg 1 :: RChar "/" :: seg 2 :: RChar "/"
                  :: lits "tree/" ++ [seg 3; REol]), 3).
Proof. vm_compute. reflexivity. Qed.

Lemma route8_compiles :
  re_compile (url_spec "/gitlab/([^\/]+)/([^\/]+)/tree/([^\/]+)/(.*)") =
    Some (seq_of (lits "/gitlab/" ++ seg 1 :: RChar "/" :: seg 2 :: RChar "/"
                  :: lits "tree/" ++ [seg 3; RChar "/"; rest_group 4; REol]), 4).
Proof. vm_compute. reflexivity. Qed.

(** a segment group in front of a slash does not match a segment that ends
    the text *)
Lemma rmatch_seg_slash_end {R : Type} (i pos : nat) u g (rs : list regex)
    (k : @cont R) :
  segment u = true ->
  rmatch (seq_of (seg i :: RChar "/" :: rs)) pos u g k = None.
Proof.
  intros Hu.
  pose proof (rmatch_seg_slash i pos u "" g rs k Hu (stops_empty _)) as Hm.
  rewrite append_empty_r in Hm. by rewrite Hm.
Qed.

Ltac groups_of_match :=
  cbn [rmatch seq_of foldr seq fmap list_fmap];
  repeat (rewrite lookup_insert_eq || rewrite lookup_insert_ne by done);
  reflexivity.

Ltac literal := rewrite rmatch_cons, rmatch_char.

Ltac slash_ahead := change ("/" +:+ ?s) with (String "/" s).

(** one segment *)
Lemma route1_matches u :
  segment u = true ->
  re_match (url_spec "/gitlab/([^\/]+)") ("/gitlab/" +:+ u) = Some (Some [Some u]).
Proof.
  intros Hu. unfold re_match. rewrite route1_compiles, rmatch_lits. f_equal.
  apply rmatch_seg_eol; [done|]. groups_of_match.
Qed.

Lemma route1_none u t :
  segment u = true ->
  re_match (url_spec "/gitlab/([^\/]+)") ("/gitlab/" +:+ u +:+ "/" +:+ t) = Some None.
Proof.
  intros Hu. unfold re_match. rewrite route1_compiles, rmatch_lits.
  slash_ahead. by rewrite rmatch_seg_eol_none.
Qed.

Lemma route2_matches u :
  segment u = true ->
  re_match (url_spec "/gitlab/([^\/]+)/") ("/gitlab/" +:+ u +:+ "/")
  = Some (Some [Some u]).
Proof.
  intros Hu. unfold re_match. rewrite route2_compiles, rmatch_lits.
  change "/" with (String "/" "").
  rewrite rmatch_seg_slash by (done || apply stops_slash). literal.
  f_equal; groups_of_match.
Qed.

Lemma route2_none u r t :
  segment u = true -> segment r = true ->
  re_match (url_spec "/gitlab/([^\/]+)/") ("/gitlab/" +:+ u +:+ "/" +:+ r +:+ t)
  = Some None.
Proof.
  intros Hu Hr. unfold re_match. rewrite route2_compiles, rmatch_lits.
  slash_ahead.
  rewrite rmatch_seg_slash by (done || apply stops_slash). literal.
  by rewrite rmatch_eol_none.
Qed.

Lemma route3_matches u r :
  segment u = true -> segment r = true ->
  re_match (url_spec "/gitlab/([^\/]+)/([^\/]+)") ("/gitlab/" +:+ u +:+ "/" +:+ r)
  = Some (Some [Some u; Some r]).
Proof.
  intros Hu Hr. unfold re_match. rewrite route3_compiles, rmatch_lits.
  slash_ahead.
  rewrite rmatch_seg_slash by (done || apply stops_slash). literal.
  f_equal. apply rmatch_seg_eol; [done|]. groups_of_match.
Qed.

Lemma route3_none u r t :
  segment u = true -> segment r = true ->
  re_match (url_spec "/gitlab/([^\/]+)/([^\/]+)")
    ("/gitlab/" +:+ u +:+ "/" +:+ r +:+ "/" +:+ t) = Some None.
Proof.
  intros Hu Hr. unfold re_match. rewrite route3_compiles, rmatch_lits.
  change ("/" +:+ r +:+ "/" +:+ t) with (String "/" (r +:+ String "/" t)).
  rewrite rmatch_seg_slash by (done || apply stops_slash). literal.
  by rewrite rmatch_seg_eol_none.
Qed.

Lemma route4_matches u r :
  segment u = true -> segment r = true ->
  re_match (url_spec "/gitlab/([^\/]+)/([^\/]+)/")
    ("/gitlab/" +:+ u +:+ "/" +:+ r +:+ "/") = Some (Some [Some u; Some r]).
Proof.
  intros Hu Hr. unfold re_match. rewrite route4_compiles, rmatch_lits.
  change ("/" +:+ r +:+ "/") with (String "/" (r +:+ String "/" "")).
  rewrite rmatch_seg_slash by (done || apply stops_slash). literal.
  rewrite rmatch_seg_slash by (done || apply stops_slash). literal.
  f_equal; groups_of_match.
Qed.

(** the route of a repository does not match a path that goes on *)
Lemma route4_none u r (a b : ascii) t :
  segment u = true -> segment r = true ->
  re_match (url_spec "/gitlab/([^\/]+)/([^\/]+)/")
    ("/gitlab/" +:+ u +:+ "/" +:+ r +:+ "/" +:+ String a (String b t)) = Some None.
Proof.
  intros Hu Hr. unfold re_match. rewrite route4_compiles, rmatch_lits.
  change ("/" +:+ r +:+ "/" +:+ String a (String b t))
    with (String "/" (r +:+ String "/" (String a (String b t)))).
  rewrite rmatch_seg_slash by (done || apply stops_slash). literal.
  rewrite rmatch_seg_slash by (done || apply stops_slash). literal.
  reflexivity.
Qed.

Lemma route5_matches u r ref p :
  segment u = true -> segment r = true -> segment ref = true ->
  contains_char newline p = false ->
  re_match (url_spec "/gitlab/([^\/]+)/([^\/]+)/blob/([^\/]+)/(.*)/")
    ("/gitlab/" +:+ u +:+ "/" +:+ r +:+ "/blob/" +:+ ref +:+ "/" +:+ p +:+ "/")
  = Some (Some [Some u; Some r; Some ref; Some p]).
Proof.
  intros Hu Hr Href Hp. unfold re_match. rewrite route5_compiles, rmatch_lits.
  change ("/" +:+ r +:+ "/blob/" +:+ ref +:+ "/" +:+ p +:+ "/")
    with (String "/" (r +:+ String "/" ("blob/" +:+ ref +:+ String "/" (p +:+ "/")))).
  rewrite rmatch_seg_slash by (done || apply stops_slash). literal.
  rewrite rmatch_seg_slash by (done || apply stops_slash). literal.
  rewrite rmatch_lits.
  rewrite rmatch_seg_slash by (done || apply stops_slash). literal.
  f_equal. apply rmatch_rest_slash_eol; [done|]. groups_of_match.
Qed.

Lemma route5_none u r ref p :
  segment u = true -> segment r = true -> segment ref = true ->
  contains_char newline p = false -> endswith "/" p = false ->
  re_match (url_spec "/gitlab/([^\/]+)/([^\/]+)/blob/([^\/]+)/(.*)/")
    ("/gitlab/" +:+ u +:+ "/" +:+ r +:+ "/blob/" +:+ ref +:+ "/" +:+ p)
  = Some None.
Proof.
  intros Hu Hr Href Hp He. unfold re_match. rewrite route5_compiles, rmatch_lits.
  change ("/" +:+ r +:+ "/blob/" +:+ ref +:+ "/" +:+ p)
    with (String "/" (r +:+ String "/" ("blob/" +:+ ref +:+ String "/" p))).
  rewrite rmatch_seg_slash by (done || apply stops_slash). literal.
  rewrite rmatch_seg_slash by (done || apply stops_slash). literal.
  rewrite rmatch_lits.
  rewrite rmatch_seg_slash by (done || apply stops_slash). literal.
  by rewrite rmatch_rest_slash_eol_none.
Qed.

Lemma route5_none_tree u r t :
  segment u = true -> segment r = true ->
  re_match (url_spec "/gitlab/([^\/]+)/([^\/]+)/blob/([^\/]+)/(.*)/")
    ("/gitlab/" +:+ u +:+ "/" +:+ r +:+ "/tree/" +:+ t) = Some None.
Proof.
  intros Hu Hr. unfold re_match. rewrite route5_compiles, rmatch_lits.
  change ("/" +:+ r +:+ "/tree/" +:+ t)
    with (String "/" (r +:+ String "/" (String "t" ("ree/" +:+ t)))).
  rewrite rmatch_seg_slash by (done || apply stops_slash). literal.
  rewrite rmatch_seg_slash by (done || apply stops_slash). literal.
  reflexivity.
Qed.

Lemma route6_matches u r ref p :
  segment u = true -> segment r = true -> segment ref = true ->
  contains_char newline p = false ->
  re_match (url_spec "/gitlab/([^\/]+)/([^\/]+)/blob/([^\/]+)/(.*)")
    ("/gitlab/" +:+ u +:+ "/" +:+ r +:+ "/blob/" +:+ ref +:+ "/" +:+ p)
  = Some (Some [Some u; Some r; Some ref; Some p]).
Proof.
  intros Hu Hr Href Hp. unfold re_match. rewrite route6_compiles, rmatch_lits.
  change ("/" +:+ r +:+ "/blob/" +:+ ref +:+ "/" +:+ p)
    with (String "/" (r +:+ String "/" ("blob/" +:+ ref +:+ String "/" p))).
  rewrite rmatch_seg_slash by (done || apply stops_slash). literal.
  rewrite rmatch_seg_slash by (done || apply stops_slash). literal.
  rewrite rmatch_lits.
  rewrite rmatch_seg_slash by (done || apply stops_slash). literal.
  f_equal. apply rmatch_rest_eol; [done|]. groups_of_match.
Qed.

Lemma route6_none_tree u r t :
  segment u = true -> segment r = true ->
  re_match (url_spec "/gitlab/([^\/]+)/([^\/]+)/blob/([^\/]+)/(.*)")
    ("/gitlab/" +:+ u +:+ "/" +:+ r +:+ "/tree/" +:+ t) = Some None.
Proof.
  intros Hu Hr. unfold re_match. rewrite route6_compiles, rmatch_lits.
  change ("/" +:+ r +:+ "/tree/" +:+ t)
    with (String "/" (r +:+ String "/" (String "t" ("ree/" +:+ t)))).
  rewrite rmatch_seg_slash by (done || apply stops_slash). literal.
  rewrite rmatch_seg_slash by (done || apply stops_slash). literal.
  reflexivity.
Qed.

Lemma route7_matches u r ref :
  segment u = true -> segment r = true -> segment ref = true ->
  re_match (url_spec "/gitlab/([^\/]+)/([^\/]+)/tree/([^\/]+)")
    ("/gitlab/" +:+ u +:+ "/" +:+ r +:+ "/tree/" +:+ ref)
  = Some (Some [Some u; Some r; Some ref]).
Proof.
  intros Hu Hr Href. unfold re_match. rewrite route7_compiles, rmatch_lits.
  change ("/" +:+ r +:+ "/tree/" +:+ ref)
    with (String "/" (r +:+ String "/" ("tree/" +:+ ref))).
  rewrite rmatch_seg_slash by (done || apply stops_slash). literal.
  rewrite rmatch_seg_slash by (done || apply stops_slash). literal.
  rewrite rmatch_lits.
  f_equal. apply rmatch_seg_eol; [done|]. groups_of_match.
Qed.

Lemma route7_none u r ref t :
  segment u = true -> segment r = true -> segment ref = true ->
  re_match (url_spec "/gitlab/([^\/]+)/([^\/]+)/tree/([^\/]+)")
    ("/gitlab/" +:+ u +:+ "/" +:+ r +:+ "/tree/" +:+ ref +:+ "/" +:+ t)
  = Some None.
Proof.
  intros Hu Hr Href. unfold re_match. rewrite route7_compiles, rmatch_lits.
  change ("/" +:+ r +:+ "/tree/" +:+ ref +:+ "/" +:+ t)
    with (String "/" (r +:+ String "/" ("tree/" +:+ ref +:+ String "/" t))).
  rewrite rmatch_seg_slash by (done || apply stops_slash). literal.
  rewrite rmatch_seg_slash by (done || apply stops_slash). literal.
  rewrite rmatch_lits.
  by rewrite rmatch_seg_eol_none.
Qed.

Lemma route8_matches u r ref p :
  segment u = true -> segment r = true -> segment ref = true ->
  contains_char newline p = false ->
  re_match (url_spec "/gitlab/([^\/]+)/([^\/]+)/tree/([^\/]+)/(.*)")
    ("/gitlab/" +:+ u +:+ "/" +:+ r +:+ "/tree/" +:+ ref +:+ "/" +:+ p)
  = Some (Some [Some u; Some r; Some ref; Some p]).
Proof.
  intros Hu Hr Href Hp. unfold re_match. rewrite route8_compiles, rmatch_lits.
  change ("/" +:+ r +:+ "/tree/" +:+ ref +:+ "/" +:+ p)
    with (String "/" (r +:+ String "/" ("tree/" +:+ ref +:+ String "/" p))).
  rewrite rmatch_seg_slash by (done || apply stops_slash). literal.
  rewrite rmatch_seg_slash by (done || apply stops_slash). literal.
  rewrite rmatch_lits.
  rewrite rmatch_seg_slash by (done || apply stops_slash). literal.
  f_equal. apply rmatch_rest_eol; [done|]. groups_of_match.
Qed.

Ltac route_with L :=
  let Hroute := fresh "Hroute" in
  pose proof L as Hroute;
  match type of Hroute with
  | re_match ?p ?s = _ =>
      match goal with
      | |- context [re_match p ?s'] => change s' with s; rewrite Hroute
      end
  end;
  clear Hroute; cbv iota.

Lemma route2_none_end u r :
  segment u = true -> segment r = true ->
  re_match (url_spec "/gitlab/([^\/]+)/") ("/gitlab/" +:+ u +:+ "/" +:+ r) = Some None.
Proof.
  intros Hu Hr. pose proof (route2_none u r "" Hu Hr) as Hn.
  by rewrite append_empty_r in Hn.
Qed.

Lemma user_path_dispatch u :
  segment u = true ->
  find_handler (default_handlers []) ("/gitlab/" +:+ u +:+ "/")
    = Dispatch GitLabUserHandler (args_of [u]).
Proof.
  intros Hu. unfold default_handlers. cbn [app find_handler].
  route_with (route1_none u "" Hu).
  by route_with (route2_matches u Hu).
Qed.

Lemma repo_path_dispatch u r :
  segment u = true -> segment r = true ->
  find_handler (default_handlers []) ("/gitlab/" +:+ u +:+ "/" +:+ r +:+ "/")
    = Dispatch GitLabRepoHandler (args_of [u; r]).
Proof.
  intros Hu Hr. unfold default_handlers. cbn [app find_handler].
  route_with (route1_none u (r +:+ "/") Hu).
  route_with (route2_none u r "/" Hu Hr).
  route_with (route3_none u r "" Hu Hr).
  by route_with (route4_matches u r Hu Hr).
Qed.

Lemma tree_path_dispatch u r ref p :
  segment u = true -> segment r = true -> segment ref = true ->
  contains_char newline p = false ->
  find_handler (default_handlers [])
    ("/gitlab/" +:+ u +:+ "/" +:+ r +:+ "/tree/" +:+ ref +:+ "/" +:+ p)
    = Dispatch GitLabTreeHandler (args_of [u; r; ref; p]).
Proof.
  intros Hu Hr Href Hp. unfold default_handlers. cbn [app find_handler].
  route_with (route1_none u (r +:+ "/tree/" +:+ ref +:+ "/" +:+ p) Hu).
  route_with (route2_none u r ("/tree/" +:+ ref +:+ "/" +:+ p) Hu Hr).
  route_with (route3_none u r ("tree/" +:+ ref +:+ "/" +:+ p) Hu Hr).
  route_with (route4_none u r "t" "r" ("ee/" +:+ ref +:+ "/" +:+ p) Hu Hr).
  route_with (route5_none_tree u r (ref +:+ "/" +:+ p) Hu Hr).
  route_with (route6_none_tree u r (ref +:+ "/" +:+ p) Hu Hr).
  route_with (route7_none u r ref p Hu Hr Href).
  by route_with (route8_matches u r ref p Hu Hr Href Hp).
Qed.

Lemma blob_path_dispatch u r ref p :
  segment u = true -> segment r = true -> segment ref = true ->
  contains_char newline p = false -> endswith "/" p = false ->
  find_handler (default_handlers [])
    ("/gitlab/" +:+ u +:+ "/" +:+ r +:+ "/blob/" +:+ ref +:+ "/" +:+ p)
    = Dispatch GitLabBlobHandler (args_of [u; r; ref; p]).
Proof.
  intros Hu Hr Href Hp He. unfold default_handlers. cbn [app find_handler].
  route_with (route1_none u (r +:+ "/blob/" +:+ ref +:+ "/" +:+ p) Hu).
  route_with (route2_none u r ("/blob/" +:+ ref +:+ "/" +:+ p) Hu Hr).
  route_with (route3_none u r ("blob/" +:+ ref +:+ "/" +:+ p) Hu Hr).
  route_with (route4_none u r "b" "l" ("ob/" +:+ ref +:+ "/" +:+ p) Hu Hr).
  route_with (route5_none u r ref p Hu Hr Href Hp He).
  by route_with (route6_matches u r ref p Hu Hr Href Hp).
Qed.

Lemma user_path_without_slash u :
  segment u = true ->
  find_handler (default_handlers []) ("/gitlab/" +:+ u)
    = Dispatch AddSlashHandler (args_of [u]).
Proof.
  intros Hu. unfold default_handlers. cbn [app find_handler].
  by route_with (route1_matches u Hu).
Qed.

Lemma repo_path_without_slash u r :
  segment u = true -> segment r = true ->
  find_handler (default_handlers []) ("/gitlab/" +:+ u +:+ "/" +:+ r)
    = Dispatch AddSlashHandler (args_of [u; r]).
Proof.
  intros Hu Hr. unfold default_handlers. cbn [app find_handler].
  route_with (route1_none u r Hu).
  route_with (route2_none_end u r Hu Hr).
  by route_with (route3_matches u r Hu Hr).
Qed.

Lemma tree_path_without_slash u r ref :
  segment u = true -> segment r = true -> segment ref = true ->
  find_handler (default_handlers [])
    ("/gitlab/" +:+ u +:+ "/" +:+ r +:+ "/tree/" +:+ ref)
    = Dispatch AddSlashHandler (args_of [u; r; ref]).
Proof.
  intros Hu Hr Href. unfold default_handlers. cbn [app find_handler].
  route_with (route1_none u (r +:+ "/tree/" +:+ ref) Hu).
  route_with (route2_none u r ("/tree/" +:+ ref) Hu Hr).
  route_with (route3_none u r ("tree/" +:+ ref) Hu Hr).
  route_with (route4_none u r "t" "r" ("ee/" +:+ ref) Hu Hr).
  route_with (route5_none_tree u r ref Hu Hr).
  route_with (route6_none_tree u r ref Hu Hr).
  by route_with (route7_matches u r ref Hu Hr Href).
Qed.

Lemma blob_path_with_slash u r ref p :
  segment u = true -> segment r = true -> segment ref = true ->
  contains_char newline p = false ->
  find_handler (default_handlers [])
    ("/gitlab/" +:+ u +:+ "/" +:+ r +:+ "/blob/" +:+ ref +:+ "/" +:+ p +:+ "/")
    = Dispatch RemoveSlashHandler (args_of [u; r; ref; p]).
Proof.
  intros Hu Hr Href Hp. unfold default_handlers. cbn [app find_handler].
  route_with (route1_none u (r +:+ "/blob/" +:+ ref +:+ "/" +:+ p +:+ "/") Hu).
  route_with (route2_none u r ("/blob/" +:+ ref +:+ "/" +:+ p +:+ "/") Hu Hr).
  route_with (route3_none u r ("blob/" +:+ ref +:+ "/" +:+ p +:+ "/") Hu Hr).
  route_with (route4_none u r "b" "l" ("ob/" +:+ ref +:+ "/" +:+ p +:+ "/") Hu Hr).
  by route_with (route5_matches u r ref p Hu Hr Href Hp).
Qed.

(** X17: Where the routes of [default_handlers] send the paths of the provider,
    for a user, a repository and a ref of one segment each and a rest of one
    line: the path of a user with its final slash goes to the user handler,
    that of a repository to the repository handler, a tree path to the tree
    handler and a blob path that does not end with a slash to the blob
    handler, each with the segments and the rest as its arguments. *)
Theorem routes_reach_the_handlers (u r ref p : string) :
  segment u = true -> segment r = true -> segment ref = true ->
  contains_char newline p = false ->
  find_handler (default_handlers []) ("/gitlab/" +:+ u +:+ "/")
    = Dispatch GitLabUserHandler (args_of [u]) /\
  find_handler (default_handlers []) ("/gitlab/" +:+ u +:+ "/" +:+ r +:+ "/")
    = Dispatch GitLabRepoHandler (args_of [u; r]) /\
  find_handler (default_handlers [])
    ("/gitlab/" +:+ u +:+ "/" +:+ r +:+ "/tree/" +:+ ref +:+ "/" +:+ p)
    = Dispatch GitLabTreeHandler (args_of [u; r; ref; p]) /\
  (endswith "/" p = false ->
   find_handler (default_handlers [])
     ("/gitlab/" +:+ u +:+ "/" +:+ r +:+ "/blob/" +:+ ref +:+ "/" +:+ p)
     = Dispatch GitLabBlobHandler (args_of [u; r; ref; p])).
Proof.
  intros Hu Hr Href Hp. split; [|split; [|split]].
  - by apply user_path_dispatch.
  - by apply repo_path_dispatch.
  - by apply tree_path_dispatch.
  - intros He. by apply blob_path_dispatch.
Qed.

(** X18: The routes that only fix the final slash: the path of a user, of a
    repository or of a tree at a ref, without its final slash, goes to the
    handler that adds one; a blob path with a final slash goes to the
    handler that removes it, and not to the blob handler. *)
Theorem routes_fix_the_final_slash (u r ref p : string) :
  segment u = true -> segment r = true -> segment ref = true ->
  contains_char newline p = false ->
  find_handler (default_handlers []) ("/gitlab/" +:+ u)
    = Dispatch AddSlashHandler (args_of [u]) /\
  find_handler (default_handlers []) ("/gitlab/" +:+ u +:+ "/" +:+ r)
    = Dispatch AddSlashHandler (args_of [u; r]) /\
  find_handler (default_handlers [])
    ("/gitlab/" +:+ u +:+ "/" +:+ r +:+ "/tree/" +:+ ref)
    = Dispatch AddSlashHandler (args_of [u; r; ref]) /\
  find_handler (default_handlers [])
    ("/gitlab/" +:+ u +:+ "/" +:+ r +:+ "/blob/" +:+ ref +:+ "/" +:+ p +:+ "/")
    = Dispatch RemoveSlashHandler (args_of [u; r; ref; p]).
Proof.
  intros Hu Hr Href Hp. split; [|split; [|split]].
  - by apply user_path_without_slash.
  - by apply repo_path_without_slash.
  - by apply tree_path_without_slash.
  - by apply blob_path_with_slash.
Qed.

(** X19: The redirect of the repository handler, taken without a format prefix,
    is a path of the provider's own table: it reaches the tree handler, for
    the same user and repository, at the ref [master] and the top
    directory. *)
Theorem repo_redirect_reaches_the_tree (h : handler) (u r : string) :
  format_prefix h = "" -> segment u = true -> segment r = true ->
  exists url,
    repo_get h u r = Redirect url /\
    find_handler (default_handlers []) url
      = Dispatch GitLabTreeHandler (args_of [u; r; "master"; ""]).
Proof.
  intros Hf Hu Hr. unfold repo_get. rewrite Hf. eexists. split; [reflexivity|].
  change ("" +:+ "/gitlab/" +:+ u +:+ "/" +:+ r +:+ "/tree/master/")
    with ("/gitlab/" +:+ u +:+ "/" +:+ r +:+ "/tree/" +:+ "master" +:+ "/" +:+ "").
  by apply (tree_path_dispatch u r "master" "").
Qed.

Lemma prefix_app (b s : string) : String.prefix b (b +:+ s) = true.
Proof.
  induction b as [|a b IH]; [by destruct s|].
  rewrite append_cons. simpl. by destruct (ascii_dec a a).
Qed.

Lemma not_under_gitlab (pattern path : string) (rs : list regex) (n : nat) :
  re_compile pattern = Some (seq_of (lits "/gitlab/" ++ rs), n) ->
  startswith "/gitlab/" path = false ->
  re_match pattern path = Some None.
Proof.
  intros Hc Hp. unfold re_match. rewrite Hc.
  destruct (rmatch _ 0 path ∅ _) as [groups|] eqn:Hm; [|done].
  apply rmatch_lits_inv in Hm as (s & -> & _).
  unfold startswith in Hp. by rewrite prefix_app in Hp.
Qed.

(** X20: The table routes nothing but paths under [/gitlab/].  So the redirect of
    the tree handler to the blob of a file, built under [/github/], is not a
    path of this table. *)
Theorem only_paths_under_gitlab_are_routed :
  (forall path,
      startswith "/gitlab/" path = false ->
      find_handler (default_handlers []) path = NotFound) /\
  (forall h user repo ref path,
      format_prefix h = "" ->
      find_handler (default_handlers []) (blob_redirect h user repo ref path)
      = NotFound).
Proof.
  assert (Hout : forall path,
             startswith "/gitlab/" path = false ->
             find_handler (default_handlers []) path = NotFound).
  { intros path Hp. unfold default_handlers. cbn [app find_handler].
    rewrite (not_under_gitlab _ path _ _ route1_compiles Hp).
    rewrite (not_under_gitlab _ path _ _ route2_compiles Hp).
    rewrite (not_under_gitlab _ path _ _ route3_compiles Hp).
    rewrite (not_under_gitlab _ path _ _ route4_compiles Hp).
    rewrite (not_under_gitlab _ path _ _ route5_compiles Hp).
    rewrite (not_under_gitlab _ path _ _ route6_compiles Hp).
    rewrite (not_under_gitlab _ path _ _ route7_compiles Hp).
    rewrite (not_under_gitlab _ path _ _ route8_compiles Hp).
    done. }
  split; [exact Hout|].
  intros h user repo ref path Hf. apply Hout.
  unfold blob_redirect. rewrite Hf. reflexivity.
Qed.

Lemma head_rule_rewrites (environ : gmap string string)
    (rewrites : list (string * string)) (user repo kind rest : string) :
  plain_url (environ_get environ "GITLAB_URL") = true ->
  segment user = true -> segment repo = true ->
  kind = "blob" \/ kind = "tree" ->
  contains_char newline rest = false ->
  (fun rule =>
     apply_rule rule
       (environ_get environ "GITLAB_URL" +:+ "/" +:+ user +:+ "/" +:+ repo
        +:+ "/" +:+ kind +:+ "/" +:+ rest))
    <$> head (uri_rewrites environ rewrites) =
  Some (Rewritten ("/gitlab/" +:+ user +:+ "/" +:+ repo +:+ "/" +:+ kind
                   +:+ "/" +:+ rest)).
Proof.
  intros Hbase (Hu1 & Hu2 & _)%segment_parts (Hr1 & Hr2 & _)%segment_parts
    Hkind Hrest.
  cbn [uri_rewrites app head fmap option_fmap option_map].
  unfold apply_rule, re_match. cbn [fst snd].
  rewrite rule_pattern_compiles by done.
  erewrite rule_matches; try done.
  by rewrite captured_groups, format_rule.
Qed.

(** X21: The rewrite rule and the routes fit together: the URL of a tree on the
    GitLab site, and that of a blob whose path does not end with a slash, is
    rewritten to a path that the table sends to the tree handler, or the
    blob handler, with the user, the repository, the ref and the path of the
    URL as arguments. *)
Theorem rewritten_urls_reach_their_handler (environ : gmap string string)
    (rewrites : list (string * string)) (u r ref p : string) :
  plain_url (environ_get environ "GITLAB_URL") = true ->
  segment u = true -> segment r = true -> segment ref = true ->
  contains_char newline p = false ->
  exists rule,
    head (uri_rewrites environ rewrites) = Some rule /\
    (exists path,
        apply_rule rule
          (environ_get environ "GITLAB_URL" +:+ "/" +:+ u +:+ "/" +:+ r
           +:+ "/tree/" +:+ ref +:+ "/" +:+ p) = Rewritten path /\
        find_handler (default_handlers []) path
        = Dispatch GitLabTreeHandler (args_of [u; r; ref; p])) /\
    (endswith "/" p = false ->
     exists path,
        apply_rule rule
          (environ_get environ "GITLAB_URL" +:+ "/" +:+ u +:+ "/" +:+ r
           +:+ "/blob/" +:+ ref +:+ "/" +:+ p) = Rewritten path /\
        find_handler (default_handlers []) path
        = Dispatch GitLabBlobHandler (args_of [u; r; ref; p])).
Proof.
  intros Hbase Hu Hr Href Hp.
  assert (Hrest : contains_char newline (ref +:+ "/" +:+ p) = false).
  { apply segment_parts in Href as (_ & _ & Hl).
    rewrite !contains_char_app, Hl, Hp. reflexivity. }
  pose proof (head_rule_rewrites environ rewrites u r "tree" (ref +:+ "/" +:+ p)
                Hbase Hu Hr (or_intror eq_refl) Hrest) as Htree.
  pose proof (head_rule_rewrites environ rewrites u r "blob" (ref +:+ "/" +:+ p)
                Hbase Hu Hr (or_introl eq_refl) Hrest) as Hblob.
  destruct (head (uri_rewrites environ rewrites)) as [rule|]; [|discriminate].
  simpl in Htree, Hblob. injection Htree as Htree. injection Hblob as Hblob.
  exists rule. split; [done|]. split.
  - eexists. split; [exact Htree|]. by apply tree_path_dispatch.
  - intros He. eexists. split; [exact Hblob|]. by apply blob_path_dispatch.
Qed.

End RouteFacts.

(** ** handlers.py: the redirect of the tree handler *)

Section TreeRedirectFacts.
Context `{Utils} `{Web}.

(** X22: A request whose URI lacks the final slash is redirected to the URI with
    the slash added, and the request that follows the redirect is not
    redirected again. *)
Theorem the_slash_is_added_once (h : handler) (user repo ref path : string) :
  endswith "/" (request_uri h) = false ->
  tree_get h user repo ref path = Redirect (request_uri h +:+ "/") /\
  forall h' url,
    request_uri h' = request_uri h +:+ "/" ->
    tree_get h' user repo ref path <> Redirect url.
Proof.
  intros He. split.
  - unfold tree_get. by rewrite He.
  - intros h' url Huri. unfold tree_get.
    rewrite Huri, endswith_app. cbn [negb].
    destruct (refs_raises user repo) as [e Hrefs].
    destruct (with_catch _) as [response|e1]; simpl; [|done].
    destruct (local "response" response) as [resp|e2]; simpl; [|done].
    destruct (json_loads (response_text resp)) as [contents|e3]; simpl; [|done].
    rewrite Hrefs. done.
Qed.

End TreeRedirectFacts.

(** ** handlers.py: the user handler *)

Section UserHandlerFacts.
Context `{Utils} `{Web} `{Base}.

(** X23: The request of the user handler: the project listing of the API, sorted
    in descending order, asked for in the name of the user of the URL, and
    with the [page] argument of the request passed on when it is there and
    not empty. *)
Theorem the_project_listing_is_sorted_and_paged (h : handler) (user : string)
    (page : pyobj) (rq : request) :
  projects_request h user page = Ok rq ->
  rq_target rq = url_path_join (gitlab_api_url (gitlab_client h)) (quote "projects") /\
  query_param rq "sort" = Some (PStr "desc") /\
  query_param rq "sudo" = Some (PStr user) /\
  query_param rq "page" = (if truthy page then Some page else None).
Proof.
  unfold projects_request, get_projects, params_of, gitlab_client.
  rewrite lookup_singleton_eq. simpl. intros Hb.
  apply call_gitlab_api_request_Ok in Hb.
  eapply call_fetch_query in Hb as (Ht & _ & Hq); [|by rewrite lookup_insert_eq].
  split; [done|]. rewrite !Hq. simpl. unfold projects_params.
  destruct (truthy page); simpl;
    rewrite ?lookup_insert_eq, ?lookup_insert_ne, ?lookup_singleton_eq,
      ?lookup_singleton_ne by done; done.
Qed.

Lemma mapM_Ok {A B} (f : A -> result B) (l : list A) (k : list B) :
  Forall2 (fun x y => f x = Ok y) l k -> mapM f l = Ok k.
Proof.
  induction 1 as [|x y l k Hx _ IH]; [done|]. simpl. by rewrite Hx, IH.
Qed.

(** X24: The page of a user: when the listing arrives and is a list of projects
    that have a [path], the handler renders [userview.html] with one entry
    for each project, in the order of the listing, its link and its name
    both the path of the project; the page links are those of the response,
    and the provider URL is the page of the user on github.com. *)
Theorem the_user_view_lists_every_project (h : handler) (user : string)
    (page : pyobj) (rq : request) (response : response) (prev next : pyobj)
    (repos paths : list pyobj) :
  projects_request h user page = Ok rq -> http_fetch rq = Ok response ->
  get_page_links response = Ok (prev, next) ->
  json_loads (response_text response) = Ok (PList repos) ->
  Forall2 (fun repo p => py_getitem repo "path" = Ok p) repos paths ->
  user_get h user page =
    Ok ("userview.html",
        {| uv_entries := (fun p => PDict {[ "url" := p; "name" := p ]}) <$> paths;
           uv_provider_url := "https://github.com/" +:+ user;
           uv_next_url := next; uv_prev_url := prev;
           uv_provider_label := "GitLab"; uv_provider_icon := "gitlab" |}).
Proof.
  intros Hrq Hf Hl Hj Hp. unfold user_get. rewrite Hrq. simpl. rewrite Hf. simpl.
  rewrite Hl. simpl. rewrite Hj. simpl.
  rewrite (mapM_Ok user_entry repos
             ((fun p => PDict {[ "url" := p; "name" := p ]}) <$> paths)); [done|].
  apply Forall2_fmap_r. eapply Forall2_impl; [exact Hp|].
  intros repo p Hrepo. unfold user_entry. by rewrite Hrepo.
Qed.

End UserHandlerFacts.

(** ** handlers.py: the blob handler *)

Section BlobHandlerFacts.
Context `{Utils} `{Web} `{Base}.

Lemma mime_or_plain_not_empty (mime : option string) : mime_or_plain mime <> "".
Proof.
  destruct mime as [m|]; simpl; [|done].
  destruct (String.eqb m "") eqn:Hm; [done|]. by apply String.eqb_neq.
Qed.

(** X25: What the blob handler hands on follows the suffix of the path
    alone.  Only a path that ends with [.ipynb] is handed to
    [finish_notebook], and then with the raw URL of the file on the GitLab
    site as its download URL, the blob URL as its provider URL, and
    breadcrumbs that start at the tree of the ref under [/gitlab]; and only a
    path with another suffix is served as a file, with the guessed content
    type, or [text/plain], never an empty one.  How a request may fail is
    left open. *)
Theorem the_suffix_decides_how_a_blob_ends (h : handler)
    (user repo ref path : string) :
  match blob_get h user repo ref path with
  | FinishNotebook call =>
      endswith ".ipynb" path = true /\
      nb_download_url call =
        gitlab_url (gitlab_client h) +:+ "/" +:+ user +:+ "/" +:+ repo
        +:+ "/raw/" +:+ ref +:+ "/" +:+ quote path /\
      nb_provider_url call =
        gitlab_url (gitlab_client h) +:+ "/" +:+ user +:+ "/" +:+ repo
        +:+ "/blob/" +:+ ref +:+ "/" +:+ quote path /\
      nb_msg call = "file from GitLab: " +:+ nb_download_url call /\
      head (nb_breadcrumbs call) =
        Some (PDict {[ "url" := PStr ("/gitlab/" +:+ user +:+ "/" +:+ repo
                                      +:+ "/tree/" +:+ ref);
                       "name" := PStr repo ]})
  | ServeFile content_type _ =>
      endswith ".ipynb" path = false /\
      content_type = mime_or_plain (guess_type path).1 /\ content_type <> ""
  | WebError _ | BlobRaised _ => True
  end.
Proof.
  unfold blob_get.
  destruct (_ ≫= _) as [data|e]; [|done].
  destruct (endswith ".ipynb" path).
  - destruct (notebook_text data); [|done]. cbn.
    unfold upstream_url. repeat split; reflexivity.
  - destruct (guess_type path) as [mime enc]. simpl.
    split; [done|]. split; [done|]. apply mime_or_plain_not_empty.
Qed.

Lemma blob_get_of_data (h : handler) (user repo ref path : string)
    (rq : request) (response : response) (data : pyobj) :
  file_request h user repo ref path = Ok rq -> http_fetch rq = Ok response ->
  json_loads (response_text response) = Ok data ->
  (response ← with_catch (rq ← file_request h user repo ref path; http_fetch rq);
   response ← local "response" response;
   data ← json_loads (response_text response);
   file_data data) = file_data data.
Proof. intros Hrq Hf Hj. rewrite Hrq. simpl. rewrite Hf. simpl. by rewrite Hj. Qed.

(** X26: Of a notebook that comes as base64, only the decoding of the bytes as
    UTF-8 is guarded: bytes that are not UTF-8 end the request with status
    400, while a content that [base64_decode] refuses leaves the handler as
    the exception that [base64_decode] raised. *)
Theorem only_the_text_decoding_is_guarded (h : handler)
    (user repo ref path : string) (rq : request) (response : response)
    (d : gmap string pyobj) (content : pyobj) :
  endswith ".ipynb" path = true ->
  file_request h user repo ref path = Ok rq -> http_fetch rq = Ok response ->
  json_loads (response_text response) = Ok (PDict d) ->
  d !! "content" = Some content -> d !! "encoding" = Some (PStr "base64") ->
  blob_get h user repo ref path =
    match base64_decode content with
    | Raise e => BlobRaised e
    | Ok b =>
        match decode_utf8 b with
        | None => WebError 400
        | Some text =>
            FinishNotebook
              {| nb_json := PStr text;
                 nb_download_url := upstream_url h user repo "raw" ref path;
                 nb_provider_url := upstream_url h user repo "blob" ref path;
                 nb_breadcrumbs :=
                   PDict {[ "url" := PStr ("/gitlab/" +:+ user +:+ "/" +:+ repo
                                           +:+ "/tree/" +:+ ref);
                            "name" := PStr repo ]}
                   :: breadcrumbs (rsplit_head path)
                        ("/gitlab/" +:+ user +:+ "/" +:+ repo +:+ "/tree/" +:+ ref);
                 nb_msg := "file from GitLab: "
                           +:+ upstream_url h user repo "raw" ref path;
                 nb_public := true; nb_format := handler_format h;
                 nb_request_uri := request_uri h;
                 nb_provider_label := "GitLab"; nb_provider_icon := "gitlab" |}
        end
    end.
Proof.
  intros Hnb Hrq Hf Hj Hc He. unfold blob_get.
  rewrite (blob_get_of_data h user repo ref path rq response (PDict d)) by done.
  unfold file_data. simpl. rewrite Hc, He. simpl.
  destruct (base64_decode content) as [b|e]; simpl; [|done].
  rewrite Hnb. by destruct (decode_utf8 b).
Qed.

(** X27: A content that is not marked as base64 is not decoded at all: a file
    that is no notebook is served with the content as it came in the
    response, and a notebook is rendered from it. *)
Theorem a_content_without_base64_is_passed_on (h : handler)
    (user repo ref path : string) (rq : request) (response : response)
    (d : gmap string pyobj) (content encoding : pyobj) :
  file_request h user repo ref path = Ok rq -> http_fetch rq = Ok response ->
  json_loads (response_text response) = Ok (PDict d) ->
  d !! "content" = Some content -> d !! "encoding" = Some encoding ->
  encoding <> PStr "base64" ->
  if endswith ".ipynb" path then
    exists call, blob_get h user repo ref path = FinishNotebook call /\
                 nb_json call = content
  else
    blob_get h user repo ref path =
      ServeFile (mime_or_plain (guess_type path).1) (Content content).
Proof.
  intros Hrq Hf Hj Hc He Hne. unfold blob_get.
  rewrite (blob_get_of_data h user repo ref path rq response (PDict d)) by done.
  unfold file_data. simpl. rewrite Hc, He. simpl.
  replace (py_eq_str encoding "base64") with false.
  2:{ symmetry. apply not_true_is_false. intros Heq.
      by apply py_eq_str_exact in Heq. }
  destruct (endswith ".ipynb" path).
  - simpl. eauto.
  - by destruct (guess_type path).
Qed.

Lemma before_last_slash_none (s : string) :
  contains_char "/" s = false -> before_last_slash s = None.
Proof.
  induction s as [|a s IH]; simpl; [done|].
  intros [Ha Hs]%orb_false_iff. by rewrite IH, Ha.
Qed.

Lemma before_last_slash_app (dir file : string) :
  contains_char "/" file = false ->
  before_last_slash (dir +:+ String "/" file) = Some dir.
Proof.
  intros Hf. induction dir as [|a dir IH].
  - change ("" +:+ String "/" file) with (String "/" file). simpl.
    by rewrite before_last_slash_none.
  - rewrite append_cons. simpl. by rewrite IH.
Qed.

(** X28: The directory of the breadcrumbs of a notebook is the path in front of
    its last slash; for a notebook at the top of the repository, whose path
    has no slash, it is the name of the notebook itself. *)
Theorem the_breadcrumbs_of_a_notebook (h : handler) (user repo ref : string)
    (dir file : string) (call : notebook_call) :
  contains_char "/" file = false ->
  (blob_get h user repo ref (dir +:+ "/" +:+ file) = FinishNotebook call ->
   tail (nb_breadcrumbs call) =
     breadcrumbs dir ("/gitlab/" +:+ user +:+ "/" +:+ repo +:+ "/tree/" +:+ ref)) /\
  (blob_get h user repo ref file = FinishNotebook call ->
   tail (nb_breadcrumbs call) =
     breadcrumbs file ("/gitlab/" +:+ user +:+ "/" +:+ repo +:+ "/tree/" +:+ ref)).
Proof.
  intros Hfile. split; unfold blob_get;
    (destruct (_ ≫= _) as [data|e]; [|discriminate]);
    (destruct (endswith ".ipynb" _);
       [|destruct (guess_type _); discriminate]);
    (destruct (notebook_text data); [|discriminate]);
    intros [= <-]; simpl; unfold rsplit_head.
  - change ("/" +:+ file) with (String "/" file).
    by rewrite before_last_slash_app.
  - by rewrite before_last_slash_none.
Qed.

End BlobHandlerFacts.

(** * The properties at concrete inputs *)

Section Examples.

#[local] Existing Instance demo_utils.
#[local] Existing Instance demo_web.

(** C8 at the demo environment: a URL on another host is refused, and the
    project listing goes out under the API base with the configured token. *)
Lemma credential_stays_under_base_example :
  (exists msg,
      fetch (new_client demo_environ)
        "https://example.org/api/v3/projects" PNone PNone ∅
      = Raise (ValueError msg)) /\
  (exists rq,
      run_call (new_client demo_environ) (GetProjects "alice" PNone ∅) = Ok rq /\
      rq_target rq = "https://gitlab.com/api/v3/projects" /\
      query_param rq "private_token" = Some (PStr "s3cret")).
Proof.
  destruct (credential_stays_under_base demo_environ) as [Hrefuse Hsent].
  split.
  - apply Hrefuse. reflexivity.
  - destruct (run_call (new_client demo_environ) (GetProjects "alice" PNone ∅))
      as [rq|e] eqn:Hr; [|vm_compute in Hr; discriminate].
    exists rq. split; [reflexivity|]. split.
    + vm_compute in Hr. by injection Hr as <-.
    + apply (Hsent (GetProjects "alice" PNone ∅) rq).
      * rewrite Hr. apply list_elem_of_here.
      * reflexivity.
      * discriminate.
Defined.

(** C10 at the demo environment: a caller that passes its own [sudo] gets
    the requested user all the same. *)
Lemma get_projects_sets_sudo_example :
  exists rq,
    get_projects (new_client demo_environ) "alice" PNone
      {[ "params" := PDict {[ "sudo" := PStr "mallory"; "page" := PStr "2" ]} ]}
    = Ok rq /\
    query_param rq "sudo" = Some (PStr "alice").
Proof.
  apply (get_projects_sets_sudo demo_environ "alice" PNone).
  reflexivity.
Defined.

(** C9 at a nested path without extra keywords *)
Lemma get_tree_entry_never_requests_example :
  (∅ : gmap string pyobj) !! "path" = None /\
  sent (get_tree_entry (new_client demo_environ)
          "u" "r" "docs/a.ipynb" (PStr "master") PNone ∅) = [].
Proof.
  split; [reflexivity|].
  apply (get_tree_entry_never_requests (new_client demo_environ) "u" "r"
           "docs/a.ipynb" (PStr "master") PNone ∅).
  reflexivity.
Defined.

(** C2 on the demo listing: the notebook is found behind two other entries *)
Lemma extract_returns_first_match_example :
  _extract_tree_entry "a.ipynb" listing_response =
    Ok (PDict {[ "name" := PStr "a.ipynb"; "type" := PStr "file";
                 "path" := PStr "a.ipynb";
                 "html_url" := PStr "https://gitlab.com/u/r/blob/master/a.ipynb" ]}).
Proof.
  apply (extract_returns_first_match "a.ipynb" listing_response
           (take 2 demo_listing) (drop 3 demo_listing)).
  - reflexivity.
  - reflexivity.
  - repeat constructor; eexists; (split; [reflexivity|]); reflexivity.
  - reflexivity.
Defined.

(** the lookup does not fold case: [README.md] is listed, [readme.md] is not
    found *)
Lemma extract_is_case_sensitive :
  is_ok (_extract_tree_entry "README.md" listing_response) = true /\
  is_ok (_extract_tree_entry "readme.md" listing_response) = false.
Proof. split; vm_compute; reflexivity. Qed.

(** C3 on the demo listing: a path that is not listed *)
Lemma extract_absent_raises_type_error_example :
  _extract_tree_entry "missing.ipynb" listing_response =
    Raise (TypeError "list indices must be integers or slices, not str").
Proof.
  apply (extract_absent_raises_type_error "missing.ipynb" listing_response
           demo_listing).
  - reflexivity.
  - reflexivity.
  - repeat constructor; eexists; (split; [reflexivity|]); reflexivity.
Defined.

(** what the lookup returns on the demo listing is the listed entry of that
    very path *)
Lemma extract_returns_exact_example :
  exists entry,
    _extract_tree_entry "README.md" listing_response = Ok entry /\
    entry ∈ demo_listing /\ py_getitem entry "path" = Ok (PStr "README.md").
Proof.
  destruct (_extract_tree_entry "README.md" listing_response) as [entry|e] eqn:Hr;
    [|vm_compute in Hr; discriminate].
  exists entry. split; [reflexivity|].
  apply (extract_returns_exact "README.md" listing_response demo_listing);
    [reflexivity | reflexivity | exact Hr].
Defined.

(** a tree request with [recursive=True], in the demo environment *)
Lemma recursive_is_no_query_parameter_example :
  exists rq,
    get_tree (new_client demo_environ) "u" "r" (PStr "docs") PNone PNone
      {[ "recursive" := PBool true ]} = Ok rq /\
    query_param rq "recursive" = None /\
    rq_options rq !! "recursive" = Some (PBool true).
Proof.
  destruct (get_tree (new_client demo_environ) "u" "r" (PStr "docs") PNone PNone
              {[ "recursive" := PBool true ]}) as [rq|e] eqn:Hr;
    [|vm_compute in Hr; discriminate].
  exists rq. split; [reflexivity|].
  exact (recursive_is_no_query_parameter demo_environ "u" "r" (PStr "docs") rq Hr).
Defined.



(** the demo listing, classified: the directory, the notebook, then the file
    and the submodule in the order of the listing *)
Lemma classify_demo_listing :
  (fun g => e_name <$> entries_of g) <$>
    (match classify "u" "r" "master" demo_listing with
     | Ok g => Some g
     | Raise _ => None
     end) =
  Some [PStr "docs"; PStr "a.ipynb"; PStr "README.md"; PStr "sub"].
Proof. vm_compute. reflexivity. Qed.


(** C7 on the directory of the demo listing: with a quoting that leaves the
    URL as it is, the link is [/github/u/r/tree/master/docs] *)
Lemma entry_for_links_example :
  entry_for "u" "r" "master"
    (PDict {[ "name" := PStr "docs"; "type" := PStr "dir"; "path" := PStr "docs";
              "html_url" := PStr "https://gitlab.com/u/r/tree/master/docs" ]}) =
  Ok (Dir, {| e_name := PStr "docs";
              e_url := PStr "/github/u/r/tree/master/docs";
              e_class := "fa-folder-open" |}).
Proof.
  etransitivity.
  - apply (entry_for_links "u" "r" "master"
             {[ "name" := PStr "docs"; "type" := PStr "dir"; "path" := PStr "docs";
                "html_url" := PStr "https://gitlab.com/u/r/tree/master/docs" ]}
             "docs" "docs" (PStr "dir")
             (PStr "https://gitlab.com/u/r/tree/master/docs"));
      reflexivity.
  - reflexivity.
Defined.

(** the links of the demo listing: none is under [/gitlab/] *)
Lemma demo_listing_links :
  (fun g => e_url <$> entries_of g) <$>
    (match classify "u" "r" "master" demo_listing with
     | Ok g => Some g
     | Raise _ => None
     end) =
  Some [PStr "/github/u/r/tree/master/docs";
        PStr "/github/u/r/blob/master/a.ipynb";
        PStr "https://gitlab.com/u/r/blob/master/README.md";
        PStr ""].
Proof. vm_compute. reflexivity. Qed.

(** C6 at a request for the tree view of a file: the upstream answers with
    an object, not a list, and the handler ends in [refs] *)
Lemma tree_get_of_a_file :
  tree_get {| environ := demo_environ;
              request_uri := "/gitlab/u/r/tree/master/a.ipynb/";
              format_prefix := "" |}
    "u" "r" "master" "a.ipynb/" =
  Raised (AttributeError
            "'AsyncGitLabClient' object has no attribute 'get_branches'").
Proof. vm_compute. reflexivity. Qed.

(** the tests of the provider, [test_blob] and [test_tree] *)
Lemma test_blob :
  (fun rule => apply_rule rule
     "https://gitlab.com/user/reopname/blob/deadbeef/a mřížka.ipynb")
    <$> uri_rewrites gitlab_com [] =
  [Rewritten "/gitlab/user/reopname/blob/deadbeef/a mřížka.ipynb"].
Proof. vm_compute. reflexivity. Qed.

Lemma test_tree :
  (fun rule => apply_rule rule
     "https://gitlab.com/user/reopname/tree/deadbeef/a mřížka.ipynb")
    <$> uri_rewrites gitlab_com [] =
  [Rewritten "/gitlab/user/reopname/tree/deadbeef/a mřížka.ipynb"].
Proof. vm_compute. reflexivity. Qed.

(** [test_raw_uri] expects the blob route; the only rule does not match the
    URL *)
Lemma test_raw_uri_fails :
  (fun rule => apply_rule rule
     "https://gitlab.com/user/reopname/raw/deadbeef/a mřížka.ipynb")
    <$> uri_rewrites gitlab_com [] =
  [NoMatch].
Proof. vm_compute. reflexivity. Qed.

(** C5 at the input of [test_raw_uri] *)
Lemma raw_url_is_not_rewritten_example :
  plain_url (environ_get gitlab_com "GITLAB_URL") = true /\
  exists rule,
    head (uri_rewrites gitlab_com []) = Some rule /\
    apply_rule rule
      (environ_get gitlab_com "GITLAB_URL" +:+ "/" +:+ "user" +:+ "/"
       +:+ "reopname" +:+ "/" +:+ "raw" +:+ "/" +:+ "deadbeef/a mřížka.ipynb")
    = NoMatch.
Proof.
  split; [reflexivity|].
  apply (raw_url_is_not_rewritten gitlab_com [] "user" "reopname"
           "deadbeef/a mřížka.ipynb");
    first [reflexivity | discriminate].
Defined.

(** C4 at the input of [test_blob] *)
Lemma rule_rewrites_blob_and_tree_example :
  plain_url (environ_get gitlab_com "GITLAB_URL") = true /\
  contains_char newline "deadbeef/a mřížka.ipynb" = false /\
  exists rule,
    head (uri_rewrites gitlab_com []) = Some rule /\
    apply_rule rule
      (environ_get gitlab_com "GITLAB_URL" +:+ "/" +:+ "user" +:+ "/"
       +:+ "reopname" +:+ "/" +:+ "blob" +:+ "/" +:+ "deadbeef/a mřížka.ipynb") =
    Rewritten ("/gitlab/" +:+ "user" +:+ "/" +:+ "reopname" +:+ "/" +:+ "blob"
               +:+ "/" +:+ "deadbeef/a mřížka.ipynb").
Proof.
  split; [reflexivity|]. split; [reflexivity|].
  apply (rule_rewrites_blob_and_tree gitlab_com [] "user" "reopname" "blob"
           "deadbeef/a mřížka.ipynb");
    first [reflexivity | discriminate | by left].
Defined.

(** C4 does not hold for every tail.  At a tail that ends with a line feed
    the end anchor matches in front of it and the group leaves it out, so
    the rewritten URL is not the route with that tail *)
Lemma rule_drops_final_newline :
  (fun rule => apply_rule rule
     ("https://gitlab.com/u/r/blob/" +:+ String "a" (String newline "")))
    <$> uri_rewrites gitlab_com [] =
  [Rewritten "/gitlab/u/r/blob/a"] /\
  (fun rule => apply_rule rule
     ("https://gitlab.com/u/r/blob/" +:+ String "a" (String newline "")))
    <$> uri_rewrites gitlab_com [] <>
  [Rewritten ("/gitlab/u/r/blob/" +:+ String "a" (String newline ""))].
Proof. split; vm_compute; [reflexivity | discriminate]. Qed.

(** a tail of two lines is not rewritten at all *)
Lemma rule_rejects_inner_newline :
  (fun rule => apply_rule rule
     ("https://gitlab.com/u/r/blob/" +:+ String "a" (String newline "b")))
    <$> uri_rewrites gitlab_com [] =
  [NoMatch].
Proof. vm_compute. reflexivity. Qed.

(** a user that spans two segments is not matched: the rule needs the user
    and the repository to be single path segments *)
Lemma rule_rejects_nested_user :
  (fun rule => apply_rule rule
     ("https://gitlab.com" +:+ "/" +:+ "group/team" +:+ "/" +:+ "r"
      +:+ "/blob/" +:+ "master/a.ipynb"))
    <$> uri_rewrites gitlab_com [] =
  [NoMatch].
Proof. vm_compute. reflexivity. Qed.

(** a base URL with a character that the pattern language reads as an
    operator is not matched by its own URLs: only the dots are escaped *)
Lemma rule_rejects_unescaped_base :
  (fun rule => apply_rule rule "http://git+lab.example/u/r/blob/master/a.ipynb")
    <$> uri_rewrites {[ "GITLAB_URL" := "http://git+lab.example" ]} [] =
  [NoMatch].
Proof. vm_compute. reflexivity. Qed.

(** the caller's own [private_token] is replaced by the configured one, the
    other parameters are kept *)
Lemma fetch_adds_only_the_token_example :
  exists rq,
    fetch (new_client demo_environ) "https://gitlab.com/api/v3/projects" PNone
      (PDict {[ "private_token" := PStr "mine"; "page" := PStr "2" ]}) ∅ = Ok rq /\
    rq_query rq = PDict {[ "private_token" := PStr "s3cret"; "page" := PStr "2" ]}.
Proof.
  destruct (fetch (new_client demo_environ) "https://gitlab.com/api/v3/projects"
              PNone (PDict {[ "private_token" := PStr "mine"; "page" := PStr "2" ]}) ∅)
    as [rq|e] eqn:Hr; [|vm_compute in Hr; discriminate].
  exists rq. split; [reflexivity|].
  etransitivity.
  - exact (fetch_adds_only_the_token demo_environ _ _ _ _ rq Hr).
  - vm_compute. reflexivity.
Defined.

(** parameters given as a list of pairs, with the token of the demo
    environment *)
Lemma fetch_of_parameters_not_a_mapping_example :
  (exists msg,
      fetch (new_client demo_environ) "https://gitlab.com/api/v3/projects" PNone
        (PList [PList [PStr "page"; PStr "2"]]) ∅ = Raise (AttributeError msg)) /\
  sent (fetch (new_client demo_environ) "https://gitlab.com/api/v3/projects" PNone
          (PList [PList [PStr "page"; PStr "2"]]) ∅) = [].
Proof.
  exact (fetch_of_parameters_not_a_mapping demo_environ
           "https://gitlab.com/api/v3/projects" PNone
           (PList [PList [PStr "page"; PStr "2"]]) ∅
           ltac:(discriminate) eq_refl ltac:(discriminate) ltac:(discriminate)).
Defined.

(** the file request of the demo environment, with and without a user agent
    of the caller's own *)
Lemma every_request_names_a_user_agent_example :
  (exists rq,
      run_call (new_client demo_environ)
        (GetFile "u" "r" "a.ipynb" PNone (PStr "master") ∅) = Ok rq /\
      rq_options rq !! "user_agent" = Some (PStr "Tornado-Async-GitLab-Client")) /\
  (exists rq,
      run_call (new_client demo_environ)
        (GetFile "u" "r" "a.ipynb" PNone (PStr "master")
           {[ "user_agent" := PStr "nbviewer" ]}) = Ok rq /\
      rq_options rq !! "user_agent" = Some (PStr "nbviewer")).
Proof.
  split.
  - destruct (run_call (new_client demo_environ)
                (GetFile "u" "r" "a.ipynb" PNone (PStr "master") ∅))
      as [rq|e] eqn:Hr; [|vm_compute in Hr; discriminate].
    exists rq. split; [reflexivity|].
    exact (every_request_names_a_user_agent _ _ rq Hr).
  - destruct (run_call (new_client demo_environ)
                (GetFile "u" "r" "a.ipynb" PNone (PStr "master")
                   {[ "user_agent" := PStr "nbviewer" ]}))
      as [rq|e] eqn:Hr; [|vm_compute in Hr; discriminate].
    exists rq. split; [reflexivity|].
    exact (every_request_names_a_user_agent _ _ rq Hr).
Defined.

(** a project listing asked for with a [url] keyword *)
Lemma a_url_keyword_is_refused_example :
  sent (run_call (new_client demo_environ)
          (GetProjects "alice" PNone
             {[ "url" := PStr "https://gitlab.com/api/v3/users" ]})) = [].
Proof.
  apply (a_url_keyword_is_refused (new_client demo_environ)
           (GetProjects "alice" PNone
              {[ "url" := PStr "https://gitlab.com/api/v3/users" ]})).
  - reflexivity.
  - eexists. reflexivity.
Defined.

(** the file request of the blob handler, in the demo environment *)
Lemma get_file_names_the_file_example :
  exists rq,
    get_file (new_client demo_environ) "u" "r" "docs/a b.ipynb" PNone
      (PStr "master") ∅ = Ok rq /\
    rq_target rq = "https://gitlab.com/api/v3/projects/u%2Fr/repository/files" /\
    query_param rq "file_path" = Some (PStr "docs/a b.ipynb") /\
    query_param rq "ref" = Some (PStr "master").
Proof.
  destruct (get_file (new_client demo_environ) "u" "r" "docs/a b.ipynb" PNone
              (PStr "master") ∅) as [rq|e] eqn:Hr;
    [|vm_compute in Hr; discriminate].
  exists rq. split; [reflexivity|].
  destruct (get_file_names_the_file demo_environ "u" "r" "docs/a b.ipynb" PNone
              (PStr "master") ∅ rq Hr) as (Ht & _ & Hp & Href).
  split; [|by split]. rewrite Ht. vm_compute. reflexivity.
Defined.

(** the tree of the top directory at the default ref: neither [path] nor
    [ref_name] is sent *)
Lemma get_tree_leaves_out_empty_values_example :
  exists rq,
    get_tree (new_client demo_environ) "u" "r" (PStr "") PNone PNone ∅ = Ok rq /\
    query_param rq "path" = None /\ query_param rq "ref_name" = None.
Proof.
  destruct (get_tree (new_client demo_environ) "u" "r" (PStr "") PNone PNone ∅)
    as [rq|e] eqn:Hr; [|vm_compute in Hr; discriminate].
  exists rq. split; [reflexivity|].
  exact (proj2 (get_tree_leaves_out_empty_values demo_environ "u" "r" (PStr "")
                  PNone PNone ∅ rq (lookup_empty _) Hr)).
Defined.

(** the contents request of the tree handler with an empty ref: [ref] is
    sent, empty *)
Lemma get_contents_sends_any_ref_but_none_example :
  exists rq,
    get_contents (new_client demo_environ) "u" "r" "docs" PNone (PStr "") ∅
      = Ok rq /\
    rq_target rq = "https://gitlab.com/api/v3/repos/u/r/contents/docs" /\
    query_param rq "ref" = Some (PStr "").
Proof.
  destruct (get_contents (new_client demo_environ) "u" "r" "docs" PNone (PStr "") ∅)
    as [rq|e] eqn:Hr; [|vm_compute in Hr; discriminate].
  exists rq. split; [reflexivity|].
  destruct (get_contents_sends_any_ref_but_none demo_environ "u" "r" "docs" PNone
              (PStr "") ∅ rq (lookup_empty _) Hr) as (Ht & _ & Href & _).
  split; [|exact Href]. rewrite Ht. vm_compute. reflexivity.
Defined.

(** what the rule tells about a URI it rewrote, at the tree URL of the
    tests *)
Lemma rule_rewrites_nothing_else_example :
  exists user repo kind rest nl,
    "https://gitlab.com/user/reopname/tree/deadbeef/a.ipynb" =
      environ_get gitlab_com "GITLAB_URL" +:+ "/" +:+ user +:+ "/" +:+ repo
      +:+ "/" +:+ kind +:+ "/" +:+ rest +:+ nl /\
    (user <> "" /\ contains_char "/" user = false) /\
    (repo <> "" /\ contains_char "/" repo = false) /\
    (kind = "blob" \/ kind = "tree") /\
    contains_char newline rest = false /\
    (nl = "" \/ nl = String newline "") /\
    "/gitlab/user/reopname/tree/deadbeef/a.ipynb" =
      "/gitlab/" +:+ user +:+ "/" +:+ repo +:+ "/" +:+ kind +:+ "/" +:+ rest.
Proof.
  apply (rule_rewrites_nothing_else gitlab_com []
           ("^" +:+ escape_dots "https://gitlab.com"
            +:+ "/([^\/]+)/([^\/]+)/(blob|tree)/(.*)$", "/gitlab/{0}/{1}/{2}/{3}")
           "https://gitlab.com/user/reopname/tree/deadbeef/a.ipynb"
           "/gitlab/user/reopname/tree/deadbeef/a.ipynb").
  - reflexivity.
  - reflexivity.
  - vm_compute. reflexivity.
Defined.

(** the classifier on the demo listing: four files, four entries *)
Lemma classify_marks_every_file_example :
  exists g,
    classify "u" "r" "master" demo_listing = Ok g /\
    length (entries_of g) = 4 /\
    Forall (fun e => e_class e = "fa-folder-open") (dirs g) /\
    Forall (fun e => e_class e = "fa-book") (ipynbs g) /\
    Forall (fun e => (e_class e = "fa-share" /\ truthy (e_url e) = true) \/
                     (e_class e = "fa-folder-close" /\ e_url e = PStr ""))
      (others g).
Proof.
  destruct (classify "u" "r" "master" demo_listing) as [g|e] eqn:Hr;
    [|vm_compute in Hr; discriminate].
  exists g. split; [reflexivity|].
  exact (classify_marks_every_file "u" "r" "master" demo_listing g Hr).
Defined.

(** a submodule listed without the key, behind the directory of the demo
    listing *)
Lemma a_file_without_html_url_fails_the_listing_example :
  classify "u" "r" "master"
    (take 1 demo_listing
     ++ PDict {[ "name" := PStr "sub"; "type" := PStr "submodule";
                 "path" := PStr "sub" ]}
     :: drop 1 demo_listing) = Raise (KeyError "html_url").
Proof.
  apply (a_file_without_html_url_fails_the_listing "u" "r" "master"
           (take 1 demo_listing) (drop 1 demo_listing)
           {[ "name" := PStr "sub"; "type" := PStr "submodule";
              "path" := PStr "sub" ]} "sub" (PStr "submodule")).
  - repeat constructor. eexists _, _.
    (split; [reflexivity|]); (split; [reflexivity|]);
      repeat split; eexists; reflexivity.
  - reflexivity.
  - reflexivity.
  - reflexivity.
  - reflexivity.
  - reflexivity.
Defined.

(** the routes at a user, a repository, a ref and a path *)
Lemma routes_reach_the_handlers_example :
  find_handler (default_handlers []) "/gitlab/alice/"
    = Dispatch GitLabUserHandler [Some "alice"] /\
  find_handler (default_handlers []) "/gitlab/alice/nb/"
    = Dispatch GitLabRepoHandler [Some "alice"; Some "nb"] /\
  find_handler (default_handlers []) "/gitlab/alice/nb/tree/master/docs/"
    = Dispatch GitLabTreeHandler
        [Some "alice"; Some "nb"; Some "master"; Some "docs/"] /\
  find_handler (default_handlers []) "/gitlab/alice/nb/blob/master/docs/a.ipynb"
    = Dispatch GitLabBlobHandler
        [Some "alice"; Some "nb"; Some "master"; Some "docs/a.ipynb"].
Proof.
  destruct (routes_reach_the_handlers "alice" "nb" "master" "docs/"
              eq_refl eq_refl eq_refl eq_refl) as (Huser & Hrepo & Htree & _).
  destruct (routes_reach_the_handlers "alice" "nb" "master" "docs/a.ipynb"
              eq_refl eq_refl eq_refl eq_refl) as (_ & _ & _ & Hblob).
  split; [exact Huser|]. split; [exact Hrepo|]. split; [exact Htree|].
  exact (Hblob eq_refl).
Defined.

Lemma routes_fix_the_final_slash_example :
  find_handler (default_handlers []) "/gitlab/alice"
    = Dispatch AddSlashHandler [Some "alice"] /\
  find_handler (default_handlers []) "/gitlab/alice/nb"
    = Dispatch AddSlashHandler [Some "alice"; Some "nb"] /\
  find_handler (default_handlers []) "/gitlab/alice/nb/tree/master"
    = Dispatch AddSlashHandler [Some "alice"; Some "nb"; Some "master"] /\
  find_handler (default_handlers []) "/gitlab/alice/nb/blob/master/docs/a.ipynb/"
    = Dispatch RemoveSlashHandler
        [Some "alice"; Some "nb"; Some "master"; Some "docs/a.ipynb"].
Proof.
  exact (routes_fix_the_final_slash "alice" "nb" "master" "docs/a.ipynb"
           eq_refl eq_refl eq_refl eq_refl).
Defined.

Lemma repo_redirect_reaches_the_tree_example :
  exists url,
    repo_get (demo_handler "/gitlab/alice/nb/") "alice" "nb" = Redirect url /\
    find_handler (default_handlers []) url
    = Dispatch GitLabTreeHandler [Some "alice"; Some "nb"; Some "master"; Some ""].
Proof.
  exact (repo_redirect_reaches_the_tree (demo_handler "/gitlab/alice/nb/")
           "alice" "nb" eq_refl eq_refl eq_refl).
Defined.

(** the redirect of the tree handler and a path of the GitHub provider *)
Lemma only_paths_under_gitlab_are_routed_example :
  find_handler (default_handlers []) "/github/alice/nb/blob/master/a.ipynb"
    = NotFound /\
  find_handler (default_handlers [])
    (blob_redirect (demo_handler "/gitlab/alice/nb/tree/master/a.ipynb/")
       "alice" "nb" "master" "a.ipynb") = NotFound.
Proof.
  destruct only_paths_under_gitlab_are_routed as [Hout Hredirect].
  split.
  - apply Hout. reflexivity.
  - apply Hredirect. reflexivity.
Defined.

(** a blob URL of gitlab.com, rewritten and routed *)
Lemma rewritten_urls_reach_their_handler_example :
  exists rule,
    head (uri_rewrites gitlab_com []) = Some rule /\
    exists path,
      apply_rule rule "https://gitlab.com/alice/nb/blob/master/docs/a.ipynb"
        = Rewritten path /\
      find_handler (default_handlers []) path
      = Dispatch GitLabBlobHandler
          [Some "alice"; Some "nb"; Some "master"; Some "docs/a.ipynb"].
Proof.
  destruct (rewritten_urls_reach_their_handler gitlab_com [] "alice" "nb"
              "master" "docs/a.ipynb" eq_refl eq_refl eq_refl eq_refl eq_refl)
    as (rule & Hrule & _ & Hblob).
  exists rule. split; [exact Hrule|]. exact (Hblob eq_refl).
Defined.

(** the second page of a user's projects, in the demo environment *)
Lemma the_project_listing_is_sorted_and_paged_example :
  exists rq,
    projects_request (demo_handler "/gitlab/alice/?page=2") "alice" (PStr "2")
      = Ok rq /\
    rq_target rq = "https://gitlab.com/api/v3/projects" /\
    query_param rq "sort" = Some (PStr "desc") /\
    query_param rq "sudo" = Some (PStr "alice") /\
    query_param rq "page" = Some (PStr "2").
Proof.
  destruct (projects_request (demo_handler "/gitlab/alice/?page=2") "alice"
              (PStr "2")) as [rq|e] eqn:Hr; [|vm_compute in Hr; discriminate].
  exists rq. split; [reflexivity|].
  destruct (the_project_listing_is_sorted_and_paged _ _ _ rq Hr)
    as (Ht & Hsort & Hsudo & Hpage).
  split; [|by repeat split]. rewrite Ht. vm_compute. reflexivity.
Defined.

(** the page of a user whose projects are the four of the demo listing *)
Lemma the_user_view_lists_every_project_example :
  @user_get demo_utils (answering "LISTING") demo_base
    (demo_handler "/gitlab/alice/") "alice" PNone =
  Ok ("userview.html",
      {| uv_entries :=
           [PDict {[ "url" := PStr "docs"; "name" := PStr "docs" ]};
            PDict {[ "url" := PStr "README.md"; "name" := PStr "README.md" ]};
            PDict {[ "url" := PStr "a.ipynb"; "name" := PStr "a.ipynb" ]};
            PDict {[ "url" := PStr "sub"; "name" := PStr "sub" ]}];
         uv_provider_url := "https://github.com/alice";
         uv_next_url := PStr "?page=2"; uv_prev_url := PNone;
         uv_provider_label := "GitLab"; uv_provider_icon := "gitlab" |}).
Proof.
  destruct (@projects_request demo_utils (demo_handler "/gitlab/alice/") "alice"
              PNone) as [rq|e] eqn:Hr; [|vm_compute in Hr; discriminate].
  exact (@the_user_view_lists_every_project demo_utils (answering "LISTING")
           demo_base (demo_handler "/gitlab/alice/") "alice" PNone rq
           {| resp_error := None; resp_body := "LISTING" |} PNone (PStr "?page=2")
           demo_listing
           [PStr "docs"; PStr "README.md"; PStr "a.ipynb"; PStr "sub"]
           Hr eq_refl eq_refl eq_refl
           ltac:(repeat constructor)).
Defined.

(** a notebook whose bytes are not UTF-8 *)
Lemma only_the_text_decoding_is_guarded_example :
  @blob_get files_utils (answering "BINARY") demo_base
    (demo_handler "/gitlab/u/r/blob/master/a.ipynb") "u" "r" "master" "a.ipynb"
  = WebError 400.
Proof.
  destruct (@file_request files_utils
              (demo_handler "/gitlab/u/r/blob/master/a.ipynb")
              "u" "r" "master" "a.ipynb") as [rq|e] eqn:Hr;
    [|vm_compute in Hr; discriminate].
  exact (@only_the_text_decoding_is_guarded files_utils (answering "BINARY")
           demo_base (demo_handler "/gitlab/u/r/blob/master/a.ipynb")
           "u" "r" "master" "a.ipynb" rq
           {| resp_error := None; resp_body := "BINARY" |}
           {[ "content" := PStr (String (ascii_of_nat 255) "");
              "encoding" := PStr "base64" ]}
           (PStr (String (ascii_of_nat 255) ""))
           eq_refl Hr eq_refl eq_refl eq_refl eq_refl).
Defined.

(** a text file that comes without encoding *)
Lemma a_content_without_base64_is_passed_on_example :
  @blob_get files_utils (answering "TEXT") demo_base
    (demo_handler "/gitlab/u/r/blob/master/notes.txt") "u" "r" "master" "notes.txt"
  = ServeFile "text/plain" (Content (PStr "{}")).
Proof.
  destruct (@file_request files_utils
              (demo_handler "/gitlab/u/r/blob/master/notes.txt")
              "u" "r" "master" "notes.txt") as [rq|e] eqn:Hr;
    [|vm_compute in Hr; discriminate].
  exact (@a_content_without_base64_is_passed_on files_utils (answering "TEXT")
           demo_base (demo_handler "/gitlab/u/r/blob/master/notes.txt")
           "u" "r" "master" "notes.txt" rq
           {| resp_error := None; resp_body := "TEXT" |}
           {[ "content" := PStr "{}"; "encoding" := PStr "text" ]}
           (PStr "{}") (PStr "text")
           Hr eq_refl eq_refl eq_refl eq_refl ltac:(discriminate)).
Defined.

(** a notebook in a directory, and one at the top of the repository *)
Lemma the_breadcrumbs_of_a_notebook_example :
  (exists call,
      @blob_get files_utils (answering "TEXT") demo_base
        (demo_handler "/gitlab/u/r/blob/master/docs/a.ipynb")
        "u" "r" "master" "docs/a.ipynb" = FinishNotebook call /\
      tail (nb_breadcrumbs call) = [PStr "docs"; PStr "/gitlab/u/r/tree/master"]) /\
  (exists call,
      @blob_get files_utils (answering "TEXT") demo_base
        (demo_handler "/gitlab/u/r/blob/master/a.ipynb")
        "u" "r" "master" "a.ipynb" = FinishNotebook call /\
      tail (nb_breadcrumbs call) = [PStr "a.ipynb"; PStr "/gitlab/u/r/tree/master"]).
Proof.
  split.
  - destruct (@blob_get files_utils (answering "TEXT") demo_base
                (demo_handler "/gitlab/u/r/blob/master/docs/a.ipynb")
                "u" "r" "master" "docs/a.ipynb") as [call| | |] eqn:Hr;
      try (vm_compute in Hr; discriminate).
    exists call. split; [reflexivity|].
    exact (proj1 (@the_breadcrumbs_of_a_notebook files_utils (answering "TEXT")
                    demo_base
                    (demo_handler "/gitlab/u/r/blob/master/docs/a.ipynb")
                    "u" "r" "master" "docs" "a.ipynb" call eq_refl) Hr).
  - destruct (@blob_get files_utils (answering "TEXT") demo_base
                (demo_handler "/gitlab/u/r/blob/master/a.ipynb")
                "u" "r" "master" "a.ipynb") as [call| | |] eqn:Hr;
      try (vm_compute in Hr; discriminate).
    exists call. split; [reflexivity|].
    exact (proj2 (@the_breadcrumbs_of_a_notebook files_utils (answering "TEXT")
                    demo_base
                    (demo_handler "/gitlab/u/r/blob/master/a.ipynb")
                    "u" "r" "master" "docs" "a.ipynb" call eq_refl) Hr).
Defined.

(** a tree URI without its final slash *)
Lemma the_slash_is_added_once_example :
  tree_get (demo_handler "/gitlab/u/r/tree/master") "u" "r" "master" ""
    = Redirect "/gitlab/u/r/tree/master/" /\
  forall url,
    tree_get (demo_handler "/gitlab/u/r/tree/master/") "u" "r" "master" ""
    <> Redirect url.
Proof.
  destruct (the_slash_is_added_once (demo_handler "/gitlab/u/r/tree/master")
              "u" "r" "master" "" eq_refl) as [Hredirect Honce].
  split; [exact Hredirect|].
  intros url. exact (Honce (demo_handler "/gitlab/u/r/tree/master/") url eq_refl).
Defined.

(** an API request with a timeout and parameters of the caller's *)
Lemma an_api_request_passes_the_keywords_on_example :
  exists rq,
    gitlab_api_request (new_client demo_environ) "projects/1 2" PNone
      {[ "request_timeout" := PInt 20; "params" := PDict {[ "page" := PStr "2" ]} ]}
      = Ok rq /\
    rq_target rq = "https://gitlab.com/api/v3/projects/1 2" /\
    rq_options rq !! "params" = None /\
    rq_options rq !! "request_timeout" = Some (PInt 20).
Proof.
  destruct (gitlab_api_request (new_client demo_environ) "projects/1 2" PNone
              {[ "request_timeout" := PInt 20;
                 "params" := PDict {[ "page" := PStr "2" ]} ]})
    as [rq|e] eqn:Hr; [|vm_compute in Hr; discriminate].
  exists rq. split; [reflexivity|].
  destruct (an_api_request_passes_the_keywords_on _ _ _ _ rq Hr)
    as (Ht & _ & Hp & Hk).
  split; [rewrite Ht; vm_compute; reflexivity|]. split; [exact Hp|].
  rewrite (Hk "request_timeout") by discriminate. reflexivity.
Defined.

(** a response that carries an error of the server *)
Lemma an_http_error_is_never_the_404_example :
  resp_error {| resp_error := Some (HTTPError 500 "Internal Server Error");
                resp_body := "" |}
    = Some (HTTPError 500 "Internal Server Error") \/
  json_loads (response_text
                {| resp_error := Some (HTTPError 500 "Internal Server Error");
                   resp_body := "" |})
    = Raise (HTTPError 500 "Internal Server Error").
Proof.
  apply (an_http_error_is_never_the_404 "a.ipynb"
           {| resp_error := Some (HTTPError 500 "Internal Server Error");
              resp_body := "" |} 500 "Internal Server Error").
  reflexivity.
Defined.

(** one branch and one tag *)
Lemma every_ref_is_linked_by_its_name_example :
  exists b' t',
    Forall2 (linked "u" "r" "docs") [PDict {[ "name" := PStr "master" ]}] b' /\
    Forall2 (linked "u" "r" "docs") [PDict {[ "name" := PStr "v1.0" ]}] t' /\
    b' = [PDict {[ "name" := PStr "master";
                   "url" := PStr "/github/u/r/tree/master/docs" ]}].
Proof.
  destruct (nav_refs "u" "r" "docs" (PList [PDict {[ "name" := PStr "master" ]}])
              (PList [PDict {[ "name" := PStr "v1.0" ]}]))
    as [[branches tags]|e] eqn:Hr; [|vm_compute in Hr; discriminate].
  destruct (every_ref_is_linked_by_its_name "u" "r" "docs" _ _ branches tags Hr)
    as (b' & t' & -> & -> & Hlb & Hlt).
  exists b', t'. split; [exact Hlb|]. split; [exact Hlt|].
  vm_compute in Hr. injection Hr as <- _. vm_compute. reflexivity.
Defined.

End Examples.
